(** * Space-Debris-Tracker: the detection pipeline, the capture loop and the
      encrypted CSV persistence of [src/code1.py] and
      [src/space_debris_tracker.py], embedded as executable definitions.

    Conventions of the embedding.
    - Python [int] is [Z]; Python [str] is [string]; Python [bytes] is
      [list byte]; a Python tuple of mixed values is a list of [pyval].
    - What OpenCV measures on a contour ([cv2.contourArea], [cv2.moments]) is
      a double; it is taken here as the exact rational it denotes, and the
      true division of two moments is the exact quotient.
    - A method of the tracker is a computation in a state-and-exception
      monad over the tracker object: a raised exception keeps the mutations
      made before it, as in Python.
    - [cv2] image operations, the wall clock and the cipher are collaborators
      outside the repository; they are fields of the classes [Env], [Codec]
      and [Fernet].  Writing to the log file of the [logging] module changes
      nothing the tracker reads back and is left out.
    - The modules [Code1] and [SDT] follow the fields of the tracker through
      each method.  The module [Live] adds to the capture loop of
      [src/code1.py] the calls of the preview, the keyboard and the capture
      device, and the module [Disk] runs saving and loading through the two
      cipher helpers of that file. *)

From Stdlib Require Import ZArith QArith String Ascii List Bool Lia.
From Stdlib Require Import Sorted DecimalString.
From Stdlib.Strings Require Import Byte.
Import ListNotations.

Open Scope Z_scope.
Open Scope string_scope.
Open Scope list_scope.

(* ================================================================= *)
(** ** Python values and built-ins *)

Module Py.

Inductive pyval : Type :=
| VInt (n : Z)
| VStr (s : string)
| VBytes (b : list byte).

Definition pytuple := list pyval.

(** Exceptions that the modelled code can meet.  All of them derive from
    [Exception], so a bare [except Exception] catches each one. *)
Inductive exn : Type :=
| ZeroDivisionError
| StopIteration
| OSError
| CvError
| InvalidToken.

(** [str(n)] for an int: optional minus sign and decimal digits. *)
Definition str_int (n : Z) : string := NilZero.string_of_int (Z.to_int n).

(** The hexadecimal digits, lower case, as [repr] of bytes prints them. *)
Definition hex_digits : list ascii :=
  list_ascii_of_string "0123456789abcdef".

Definition hexdigit (n : N) : ascii := nth (N.to_nat n) hex_digits "f"%char.

Definition byte_is (c : ascii) (b : byte) : bool :=
  Ascii.eqb (ascii_of_byte b) c.

Definition backslash : ascii := "092"%char.
Definition single_quote : ascii := "039"%char.
Definition double_quote : ascii := "034"%char.

(** [repr] picks the double quote only when the data holds a single quote
    and no double quote. *)
Definition repr_quote (bs : list byte) : ascii :=
  if existsb (byte_is single_quote) bs
     && negb (existsb (byte_is double_quote) bs)
  then double_quote else single_quote.

Definition repr_byte (quote : ascii) (b : byte) : string :=
  let c := ascii_of_byte b in
  let n := Byte.to_N b in
  if Ascii.eqb c quote || Ascii.eqb c backslash
  then String backslash (String c EmptyString)
  else if (n =? 9)%N then String backslash "t"
  else if (n =? 10)%N then String backslash "n"
  else if (n =? 13)%N then String backslash "r"
  else if (n <? 32)%N || (127 <=? n)%N
       then String backslash (String "x"%char
              (String (hexdigit (n / 16))
                 (String (hexdigit (n mod 16)) EmptyString)))
  else String c EmptyString.

Fixpoint repr_body (quote : ascii) (bs : list byte) : string :=
  match bs with
  | [] => String quote EmptyString
  | b :: rest => repr_byte quote b ++ repr_body quote rest
  end.

(** [str(b)] for a bytes object is its [repr]: [b'...']. *)
Definition str_bytes (bs : list byte) : string :=
  let quote := repr_quote bs in
  String "b"%char (String quote (repr_body quote bs)).

(** The built-in [str]. *)
Definition str (v : pyval) : string :=
  match v with
  | VInt n => str_int n
  | VStr s => s
  | VBytes b => str_bytes b
  end.

(** [a < b] on numbers. *)
Definition lt (a b : Q) : bool := negb (Qle_bool b a).

(** [a != b] on numbers. *)
Definition ne (a b : Q) : bool := negb (Qeq_bool a b).

(** True division [a / b]; a zero divisor raises. *)
Definition truediv (a b : Q) : exn + Q :=
  if Qeq_bool b 0 then inl ZeroDivisionError else inr (a / b)%Q.

(** [int(x)] on a number: truncation toward zero. *)
Definition int (x : Q) : Z := Z.quot (Qnum x) (Zpos (Qden x)).

End Py.
Import Py.

(* ================================================================= *)
(** ** State-and-exception monad *)

Definition M (S A : Type) : Type := S -> (exn + A) * S.

Definition ret {S A} (a : A) : M S A := fun s => (inr a, s).

Definition bind {S A B} (c : M S A) (k : A -> M S B) : M S B :=
  fun s =>
    match c s with
    | (inl e, s') => (inl e, s')
    | (inr a, s') => k a s'
    end.

Definition raise {S A} (e : exn) : M S A := fun s => (inl e, s).

(** [lift r] returns or raises what an external call produced. *)
Definition lift {S A} (r : exn + A) : M S A := fun s => (r, s).

Definition gets {S A} (f : S -> A) : M S A := fun s => (inr (f s), s).

Definition modify {S} (f : S -> S) : M S unit := fun s => (inr tt, f s).

(** [try: c  except Exception as e: h e]. *)
Definition try_except {S A} (c : M S A) (h : exn -> M S A) : M S A :=
  fun s =>
    match c s with
    | (inl e, s') => h e s'
    | (inr a, s') => (inr a, s')
    end.

Declare Scope py_scope.
Delimit Scope py_scope with py.
Notation "x <- c ;; k" := (bind c (fun x => k))
  (at level 61, c at next level, right associativity) : py_scope.
Notation "c ;;; k" := (bind c (fun _ => k))
  (at level 61, right associativity) : py_scope.

(* ================================================================= *)
(** ** What OpenCV reports about a contour *)

(** The entries of the dictionary [cv2.moments(contour)] that are read. *)
Record Moments : Type := { m00 : Q; m10 : Q; m01 : Q }.

(** A contour, by the two measurements the tracker takes on it. *)
Record Contour : Type := { contourArea : Q; moments : Moments }.

(** ** Collaborators outside the repository *)

Class Env : Type := {
  frame : Type;
  mask : Type;
  bgmodel : Type;
  (** [BackgroundSubtractorMOG2.apply]: foreground mask, model updated. *)
  bs_apply : bgmodel -> frame -> (exn + mask) * bgmodel;
  (** [cv2.medianBlur(mask, ksize)]. *)
  medianBlur : mask -> Z -> exn + mask;
  (** [cv2.threshold(mask, thresh, maxval, cv2.THRESH_BINARY)[1]]. *)
  threshold : mask -> Z -> Z -> exn + mask;
  (** [cv2.findContours(mask, RETR_EXTERNAL, CHAIN_APPROX_SIMPLE)[0]]. *)
  findContours : mask -> exn + list Contour;
  (** [datetime.now().strftime("%Y-%m-%d %H:%M:%S")] at the k-th reading
      of the clock. *)
  strftime_now : nat -> string
}.

(** [encrypt_message] and [decrypt_message] of [src/code1.py] wrap a Fernet
    cipher of the [cryptography] package. *)
Class Codec : Type := {
  encrypt_message : string -> list byte;
  decrypt_message : string -> exn + string
}.

(* ================================================================= *)
(** ** The tracker object *)

Section TrackerState.
Context {env : Env}.

Record Tracker : Type := {
  frame_number : Z;
  debris_data : list pytuple;
  debris_counter : Z;
  thread_active : bool;
  background_subtractor : bgmodel;
  min_area : Z;
  max_area : Z;
  visualization_enabled : bool;
  (** Environment: how many times the clock has been read. *)
  clock_reads : nat
}.

Definition set_frame_number (n : Z) (t : Tracker) : Tracker :=
  {| frame_number := n; debris_data := debris_data t;
     debris_counter := debris_counter t; thread_active := thread_active t;
     background_subtractor := background_subtractor t;
     min_area := min_area t; max_area := max_area t;
     visualization_enabled := visualization_enabled t;
     clock_reads := clock_reads t |}.

Definition set_debris_data (l : list pytuple) (t : Tracker) : Tracker :=
  {| frame_number := frame_number t; debris_data := l;
     debris_counter := debris_counter t; thread_active := thread_active t;
     background_subtractor := background_subtractor t;
     min_area := min_area t; max_area := max_area t;
     visualization_enabled := visualization_enabled t;
     clock_reads := clock_reads t |}.

Definition set_debris_counter (n : Z) (t : Tracker) : Tracker :=
  {| frame_number := frame_number t; debris_data := debris_data t;
     debris_counter := n; thread_active := thread_active t;
     background_subtractor := background_subtractor t;
     min_area := min_area t; max_area := max_area t;
     visualization_enabled := visualization_enabled t;
     clock_reads := clock_reads t |}.

Definition set_thread_active (b : bool) (t : Tracker) : Tracker :=
  {| frame_number := frame_number t; debris_data := debris_data t;
     debris_counter := debris_counter t; thread_active := b;
     background_subtractor := background_subtractor t;
     min_area := min_area t; max_area := max_area t;
     visualization_enabled := visualization_enabled t;
     clock_reads := clock_reads t |}.

Definition set_background_subtractor (g : bgmodel) (t : Tracker) : Tracker :=
  {| frame_number := frame_number t; debris_data := debris_data t;
     debris_counter := debris_counter t; thread_active := thread_active t;
     background_subtractor := g;
     min_area := min_area t; max_area := max_area t;
     visualization_enabled := visualization_enabled t;
     clock_reads := clock_reads t |}.

Definition set_visualization_enabled (b : bool) (t : Tracker) : Tracker :=
  {| frame_number := frame_number t; debris_data := debris_data t;
     debris_counter := debris_counter t; thread_active := thread_active t;
     background_subtractor := background_subtractor t;
     min_area := min_area t; max_area := max_area t;
     visualization_enabled := b;
     clock_reads := clock_reads t |}.

Definition set_clock_reads (k : nat) (t : Tracker) : Tracker :=
  {| frame_number := frame_number t; debris_data := debris_data t;
     debris_counter := debris_counter t; thread_active := thread_active t;
     background_subtractor := background_subtractor t;
     min_area := min_area t; max_area := max_area t;
     visualization_enabled := visualization_enabled t;
     clock_reads := k |}.

Definition with_min_area (n : Z) (t : Tracker) : Tracker :=
  {| frame_number := frame_number t; debris_data := debris_data t;
     debris_counter := debris_counter t; thread_active := thread_active t;
     background_subtractor := background_subtractor t;
     min_area := n; max_area := max_area t;
     visualization_enabled := visualization_enabled t;
     clock_reads := clock_reads t |}.

Definition with_max_area (n : Z) (t : Tracker) : Tracker :=
  {| frame_number := frame_number t; debris_data := debris_data t;
     debris_counter := debris_counter t; thread_active := thread_active t;
     background_subtractor := background_subtractor t;
     min_area := min_area t; max_area := n;
     visualization_enabled := visualization_enabled t;
     clock_reads := clock_reads t |}.

(** [self.background_subtractor.apply(frame)]. *)
Definition background_subtractor_apply (f : frame) : M Tracker mask :=
  fun t =>
    let (r, g) := bs_apply (background_subtractor t) f in
    (r, set_background_subtractor g t).

(** [datetime.now().strftime("%Y-%m-%d %H:%M:%S")]. *)
Definition datetime_now : M Tracker string :=
  fun t => (inr (strftime_now (clock_reads t)),
            set_clock_reads (S (clock_reads t)) t).

(** What one turn of the capture loop receives from outside: whether the
    controller has called [stop_tracking] since the previous turn, the
    answer of [self.cap.read()] ([None] when [ret] is false) and the
    answer of [cv2.waitKey(1)]. *)
Record Turn : Type := {
  stop_requested : bool;
  cap_read : option frame;
  waitKey : Z
}.

(** How [update_debris_info] stands once the turns it was given are
    used up. *)
Inductive loop_end : Type :=
| StillLooping
| FlagCleared
| FrameCaptureFailed
| QuitKey.

End TrackerState.

(** A tabular file: the rows of a CSV file, each one the texts of its cells. *)
Definition csv_file := list (list string).

Definition header_row : list string :=
  ["FrameNumber"; "DebrisName"; "DetectionTime"; "X"; "Y"].

(** [ord('q')]. *)
Definition ord_q : Z := 113.


(* ================================================================= *)
(** ** [src/code1.py]: class [SpaceDebrisTracker] *)

Module Code1.
Section Methods.
Context {env : Env} {codec : Codec}.
Local Open Scope py_scope.

(** [__init__]: the two thresholds and the preview switch come from the
    configuration file, the background model from OpenCV. *)
Definition __init__ (MinArea MaxArea : Z) (Enabled : bool) (mog2 : bgmodel)
  : Tracker :=
  {| frame_number := 0; debris_data := []; debris_counter := 0;
     thread_active := false; background_subtractor := mog2;
     min_area := MinArea; max_area := MaxArea;
     visualization_enabled := Enabled; clock_reads := 0 |}.

(** [for contour in contours: ...] of [count_and_track_debris]. *)
Fixpoint for_contour_in (contours : list Contour)
    (debris_positions : list pytuple) : M Tracker (list pytuple) :=
  match contours with
  | [] => ret debris_positions
  | contour :: rest =>
      let area := contourArea contour in
      lo <- gets min_area ;;
      hi <- gets max_area ;;
      if Py.lt (inject_Z lo) area && Py.lt area (inject_Z hi) then
        let M := moments contour in
        if Py.ne (m00 M) 0 then
          qx <- lift (Py.truediv (m10 M) (m00 M)) ;;
          let cX := Py.int qx in
          qy <- lift (Py.truediv (m01 M) (m00 M)) ;;
          let cY := Py.int qy in
          fn <- gets frame_number ;;
          now <- datetime_now ;;
          let debris_positions :=
            debris_positions
              ++ [[VInt fn; VStr "Space Debris"; VStr now; VInt cX; VInt cY]] in
          modify (fun t => set_debris_counter (debris_counter t + 1) t) ;;;
          for_contour_in rest debris_positions
        else for_contour_in rest debris_positions
      else for_contour_in rest debris_positions
  end.

Definition count_and_track_debris (f : frame) : M Tracker (list pytuple) :=
  try_except
    (fg_mask <- background_subtractor_apply f ;;
     fg_mask <- lift (medianBlur fg_mask 5) ;;
     fg_mask <- lift (threshold fg_mask 127 255) ;;
     contours <- lift (findContours fg_mask) ;;
     for_contour_in contours [])
    (fun _ => ret []).

Definition start_tracking : M Tracker unit :=
  modify (set_thread_active true).

Definition stop_tracking : M Tracker unit :=
  modify (set_thread_active false).

(** [update_debris_info], one list element per turn of the [while]. *)
Fixpoint update_debris_info (turns : list Turn) : M Tracker loop_end :=
  match turns with
  | [] => ret StillLooping
  | turn :: later =>
      (if stop_requested turn then stop_tracking else ret tt) ;;;
      active <- gets thread_active ;;
      if negb active then ret FlagCleared else
      match cap_read turn with
      | None => ret FrameCaptureFailed
      | Some f =>
          modify (fun t => set_frame_number (frame_number t + 1) t) ;;;
          debris_info <- count_and_track_debris f ;;
          modify (fun t => set_debris_data (debris_data t ++ debris_info) t) ;;;
          if Z.eqb (Z.land (waitKey turn) 255) ord_q then ret QuitKey
          else update_debris_info later
      end
  end.

(** [save_debris_data]: the rows handed to [csv.writer]; a cell that is not
    a [str] is written as [str(cell)], and [encrypt_message] returns bytes. *)
Definition save_debris_data (t : Tracker) : csv_file :=
  header_row
    :: map (fun debris_info =>
              map (fun item => Py.str (VBytes (encrypt_message (Py.str item))))
                  debris_info)
           (debris_data t).

(** [[decrypt_message(item) for item in row]]. *)
Fixpoint decrypt_row (row : list string) : exn + list string :=
  match row with
  | [] => inr []
  | item :: rest =>
      match decrypt_message item with
      | inl e => inl e
      | inr s =>
          match decrypt_row rest with
          | inl e => inl e
          | inr ss => inr (s :: ss)
          end
      end
  end.

(** [for row in reader: ...] of [load_debris_data]. *)
Fixpoint for_row_in (rows : list (list string)) : M Tracker unit :=
  match rows with
  | [] => ret tt
  | row :: rest =>
      decrypted_data <- lift (decrypt_row row) ;;
      modify (fun t =>
                set_debris_data (debris_data t ++ [map VStr decrypted_data]) t) ;;;
      for_row_in rest
  end.

(** [load_debris_data]; [None] is a file that cannot be opened. *)
Definition load_debris_data (file : option csv_file) : M Tracker unit :=
  try_except
    (reader <- lift (match file with
                     | None => inl OSError
                     | Some rows => inr rows
                     end) ;;
     modify (set_debris_data []) ;;;
     reader <- lift (match reader with
                     | [] => inl StopIteration
                     | _ :: rows => inr rows
                     end) ;;
     for_row_in reader)
    (fun _ => ret tt).

Definition toggle_visualization : M Tracker unit :=
  modify (fun t => set_visualization_enabled (negb (visualization_enabled t)) t).

Definition set_min_area (n : Z) : M Tracker unit := modify (with_min_area n).

Definition set_max_area (n : Z) : M Tracker unit := modify (with_max_area n).

End Methods.
End Code1.

(* ================================================================= *)
(** ** [src/space_debris_tracker.py]: class [SpaceDebrisTracker] *)

Module SDT.
Section Methods.
Context {env : Env}.
Local Open Scope py_scope.

Definition __init__ (mog2 : bgmodel) : Tracker :=
  {| frame_number := 0; debris_data := []; debris_counter := 0;
     thread_active := false; background_subtractor := mog2;
     min_area := 50; max_area := 1000;
     visualization_enabled := true; clock_reads := 0 |}.

Fixpoint for_contour_in (contours : list Contour)
    (debris_positions : list pytuple) : M Tracker (list pytuple) :=
  match contours with
  | [] => ret debris_positions
  | contour :: rest =>
      let area := contourArea contour in
      lo <- gets min_area ;;
      hi <- gets max_area ;;
      if Py.lt (inject_Z lo) area && Py.lt area (inject_Z hi) then
        let M := moments contour in
        if Py.ne (m00 M) 0 then
          qx <- lift (Py.truediv (m10 M) (m00 M)) ;;
          let cX := Py.int qx in
          qy <- lift (Py.truediv (m01 M) (m00 M)) ;;
          let cY := Py.int qy in
          fn <- gets frame_number ;;
          now <- datetime_now ;;
          let debris_positions :=
            debris_positions
              ++ [[VInt fn; VStr "Space Debris"; VStr now; VInt cX; VInt cY]] in
          modify (fun t => set_debris_counter (debris_counter t + 1) t) ;;;
          for_contour_in rest debris_positions
        else for_contour_in rest debris_positions
      else for_contour_in rest debris_positions
  end.

(** No [try] here: what the pipeline raises leaves the method. *)
Definition count_and_track_debris (f : frame) : M Tracker (list pytuple) :=
  fg_mask <- background_subtractor_apply f ;;
  fg_mask <- lift (medianBlur fg_mask 5) ;;
  fg_mask <- lift (threshold fg_mask 127 255) ;;
  contours <- lift (findContours fg_mask) ;;
  for_contour_in contours [].

Definition start_tracking : M Tracker unit :=
  modify (set_thread_active true).

Definition stop_tracking : M Tracker unit :=
  modify (set_thread_active false).

(** [update_debris_info]; an [inl e] result is the exception [e] leaving
    the loop and ending its thread. *)
Fixpoint update_debris_info (turns : list Turn) : M Tracker loop_end :=
  match turns with
  | [] => ret StillLooping
  | turn :: later =>
      (if stop_requested turn then stop_tracking else ret tt) ;;;
      active <- gets thread_active ;;
      if negb active then ret FlagCleared else
      match cap_read turn with
      | None => ret FrameCaptureFailed
      | Some f =>
          modify (fun t => set_frame_number (frame_number t + 1) t) ;;;
          debris_info <- count_and_track_debris f ;;
          modify (fun t => set_debris_data (debris_data t ++ debris_info) t) ;;;
          if Z.eqb (Z.land (waitKey turn) 255) ord_q then ret QuitKey
          else update_debris_info later
      end
  end.

(** [save_debris_data]: rows in the clear. *)
Definition save_debris_data (t : Tracker) : csv_file :=
  header_row :: map (map Py.str) (debris_data t).

End Methods.
End SDT.


(* ================================================================= *)
(** ** A bench: concrete collaborators on which the methods can be run *)

Module Bench.

(** A bench frame is the list of blobs the segmentation will find in it,
    or a frame on which the background model raises. *)
Inductive bench_frame : Type :=
| Blobs (cs : list Contour)
| Unreadable.

Definition bench_env : Env :=
  {| frame := bench_frame;
     mask := list Contour;
     bgmodel := nat;
     bs_apply := fun g f =>
       match f with
       | Blobs cs => (inr cs, S g)
       | Unreadable => (inl CvError, g)
       end;
     medianBlur := fun m _ => inr m;
     threshold := fun m _ _ => inr m;
     findContours := fun m => inr m;
     strftime_now := fun _ => "2024-05-01 12:00:00" |}.

(** A codec that writes every character as two hexadecimal digits. *)
Definition hex_encode_char (c : ascii) : list byte :=
  let n := N_of_ascii c in
  [byte_of_ascii (hexdigit (n / 16)); byte_of_ascii (hexdigit (n mod 16))].

Fixpoint hex_encode (s : string) : list byte :=
  match s with
  | EmptyString => []
  | String c rest => hex_encode_char c ++ hex_encode rest
  end.

(** The place of a character in a list of characters, counted from [k]. *)
Fixpoint place_of (c : ascii) (digits : list ascii) (k : N) : option N :=
  match digits with
  | [] => None
  | d :: rest => if Ascii.eqb c d then Some k else place_of c rest (N.succ k)
  end.

Definition hex_value (c : ascii) : option N := place_of c hex_digits 0.

Fixpoint hex_decode_body (s : string) : exn + string :=
  match s with
  | String q EmptyString =>
      if Ascii.eqb q single_quote then inr EmptyString else inl InvalidToken
  | String a (String b rest) =>
      match hex_value a, hex_value b with
      | Some h, Some l =>
          match hex_decode_body rest with
          | inr r => inr (String (ascii_of_N (16 * h + l)) r)
          | inl e => inl e
          end
      | _, _ => inl InvalidToken
      end
  | _ => inl InvalidToken
  end.

(** The decoder reads the cell as the writer left it: [b'...']. *)
Definition hex_decode (cell : string) : exn + string :=
  match cell with
  | String p (String q body) =>
      if Ascii.eqb p "b"%char && Ascii.eqb q single_quote
      then hex_decode_body body else inl InvalidToken
  | _ => inl InvalidToken
  end.

Definition hex_codec : Codec :=
  {| encrypt_message := hex_encode; decrypt_message := hex_decode |}.

(** The same codec with a decoder that takes the bare token only, the way
    a cipher token is usually handed back. *)
Definition bare_hex_decode (token : string) : exn + string :=
  hex_decode_body (token ++ String single_quote EmptyString).

Definition bare_hex_codec : Codec :=
  {| encrypt_message := hex_encode; decrypt_message := bare_hex_decode |}.

(** The blob of the centroid scenario: area 120, moments 120, 6000, 3600. *)
Definition blob_120 : Contour :=
  {| contourArea := 120;
     moments := {| m00 := 120; m10 := 6000; m01 := 3600 |} |}.

(** A blob whose area sits on the lower bound 50. *)
Definition blob_50 : Contour :=
  {| contourArea := 50;
     moments := {| m00 := 50; m10 := 500; m01 := 500 |} |}.

(** A degenerate blob: inside the area band, but with a zero [m00]. *)
Definition blob_flat : Contour :=
  {| contourArea := 100;
     moments := {| m00 := 0; m10 := 0; m01 := 0 |} |}.

Definition tracker0 : @Tracker bench_env :=
  @Code1.__init__ bench_env 50 1000 true 0%nat.

Definition good_turn (cs : list Contour) : @Turn bench_env :=
  @Build_Turn bench_env false (Some (Blobs cs)) (-1).

Definition failed_read : @Turn bench_env :=
  @Build_Turn bench_env false None (-1).

Definition unreadable_turn : @Turn bench_env :=
  @Build_Turn bench_env false (Some Unreadable) (-1).

(** Four turns in which a frame arrives; the third frame makes the
    background model raise. *)
Definition four_turns : list (@Turn bench_env) :=
  [good_turn [blob_120]; good_turn []; unreadable_turn; good_turn [blob_50]].

(** The bench tracker once [start_tracking] has run. *)
Definition started : @Tracker bench_env :=
  snd (@Code1.start_tracking bench_env tracker0).

(** A file whose first data row decodes and whose second does not. *)
Definition half_good_file : csv_file :=
  [ header_row;
    ["b'37'"; "b'6f6c64'"; "b'74'"; "b'38'"; "b'39'"];
    ["b'31'"; "garbled"; "b'74'"; "b'38'"; "b'39'"] ].

(** A file whose only data row does not decode. *)
Definition garbled_file : csv_file :=
  [ header_row; ["garbled"; "b'6f6c64'"; "b'74'"; "b'38'"; "b'39'"] ].

Definition sample_record : pytuple :=
  [VInt 1; VStr "Space Debris"; VStr "2024-05-01 12:00:00"; VInt 50; VInt 30].

(** The bench tracker holding one detection. *)
Definition with_one_detection : @Tracker bench_env :=
  @set_debris_data bench_env [sample_record] tracker0.

End Bench.

(* ================================================================= *)
(** ** Vocabulary of the statements *)

Section Vocabulary.
Context {env : Env}.
Local Open Scope py_scope.

(** The four image operations that open [count_and_track_debris], up to
    the list of contours. *)
Definition segmentation (f : frame) : M Tracker (list Contour) :=
  fg_mask <- background_subtractor_apply f ;;
  fg_mask <- lift (medianBlur fg_mask 5) ;;
  fg_mask <- lift (threshold fg_mask 127 255) ;;
  lift (findContours fg_mask).

(** The area test of the loop, then its guard on [m00]. *)
Definition in_area_band (lo hi : Z) (c : Contour) : bool :=
  Py.lt (inject_Z lo) (contourArea c) && Py.lt (contourArea c) (inject_Z hi).

Definition emits (lo hi : Z) (c : Contour) : bool :=
  in_area_band lo hi c && Py.ne (m00 (moments c)) 0.

(** The tuple appended for a contour, given the frame number and the
    reading of the clock. *)
Definition record_of (fn : Z) (now : string) (c : Contour) : pytuple :=
  [VInt fn; VStr "Space Debris"; VStr now;
   VInt (Py.int (m10 (moments c) / m00 (moments c))%Q);
   VInt (Py.int (m01 (moments c) / m00 (moments c))%Q)].

(** Records for a list of contours, the clock being read once per record
    starting at its [k]-th reading. *)
Fixpoint records_from (fn : Z) (k : nat) (cs : list Contour) : list pytuple :=
  match cs with
  | [] => []
  | c :: rest => record_of fn (strftime_now k) c :: records_from fn (S k) rest
  end.

(** The tracker after [n] records were appended by one call. *)
Definition after_records (n : nat) (t : Tracker) : Tracker :=
  set_debris_counter (debris_counter t + Z.of_nat n)
    (set_clock_reads (clock_reads t + n) t).

(** The records a call returns and the tracker it leaves, when the image
    operations found the contours [cs]. *)
Definition returned (t : Tracker) (cs : list Contour) : list pytuple :=
  records_from (frame_number t) (clock_reads t)
    (filter (emits (min_area t) (max_area t)) cs).

Definition left_by (t t1 : Tracker) (cs : list Contour) : Tracker :=
  after_records (length (filter (emits (min_area t) (max_area t)) cs)) t1.

(** The frame number a log entry carries, when its first field is an int. *)
Definition record_frame (r : pytuple) : option Z :=
  match r with
  | VInt n :: _ => Some n
  | _ => None
  end.

(** The log carries int frame numbers, in non-decreasing order, none of
    them beyond the frame counter. *)
Definition log_ordered (t : Tracker) : Prop :=
  exists ns : list Z,
    map record_frame (debris_data t) = map Some ns
    /\ StronglySorted Z.le ns
    /\ Forall (fun n => n <= frame_number t) ns.

Definition is_text (v : pyval) : bool :=
  match v with
  | VStr _ => true
  | _ => false
  end.

(** The cell that [save_debris_data] of [src/code1.py] writes for a text. *)
Definition stored_cell {codec : Codec} (s : string) : string :=
  Py.str (VBytes (encrypt_message s)).

(** [count_and_track_debris] of [src/code1.py] called on each frame in
    turn; the result gathers every record the calls returned. *)
Fixpoint count_each (fs : list frame) : M Tracker (list pytuple) :=
  match fs with
  | [] => ret []
  | f :: rest =>
      recs <- Code1.count_and_track_debris f ;;
      more <- count_each rest ;;
      ret (recs ++ more)
  end.

End Vocabulary.

(* ================================================================= *)
(** ** Vocabulary of the further properties *)

Section MoreVocabulary.
Context {env : Env}.

(** The image operations as a function of the background model alone. *)
Definition image_stage (g : bgmodel) (f : frame)
  : (exn + list Contour) * bgmodel :=
  match bs_apply g f with
  | (inl e, g') => (inl e, g')
  | (inr m, g') =>
      (match medianBlur m 5 with
       | inl e => inl e
       | inr m1 =>
           match threshold m1 127 255 with
           | inl e => inl e
           | inr m2 => findContours m2
           end
       end, g')
  end.

(** A log entry as [count_and_track_debris] builds it, for frame [n]. *)
Definition detection_of_frame (n : Z) (r : pytuple) : Prop :=
  exists now x y,
    r = [VInt n; VStr "Space Debris"; VStr now; VInt x; VInt y].

(** What one turn of the capture loop that received a frame does to the
    tracker, [recs] being the records of that frame. *)
Definition one_frame_step (t : Tracker) (recs : list pytuple) (t2 : Tracker)
  : Prop :=
  frame_number t2 = frame_number t + 1
  /\ debris_data t2 = debris_data t ++ recs
  /\ Forall (detection_of_frame (frame_number t + 1)) recs
  /\ debris_counter t2 = debris_counter t + Z.of_nat (length recs)
  /\ clock_reads t2 = (clock_reads t + length recs)%nat
  /\ thread_active t2 = thread_active t
  /\ min_area t2 = min_area t
  /\ max_area t2 = max_area t
  /\ visualization_enabled t2 = visualization_enabled t.

(** The low byte of the key code is that of the letter q. *)
Definition quit_pressed (turn : Turn) : bool :=
  Z.eqb (Z.land (waitKey turn) 255) ord_q.

End MoreVocabulary.

Section LoopVocabulary.
Context {env : Env}.

(** What holds between the tracker before and after the capture loop,
    whatever way the loop went. *)
Definition loop_effect (turns : list Turn) (t t' : Tracker) : Prop :=
  (exists added,
      debris_data t' = debris_data t ++ added
      /\ Forall (fun rec =>
                   exists n, frame_number t < n <= frame_number t'
                             /\ detection_of_frame n rec) added
      /\ debris_counter t' = debris_counter t + Z.of_nat (length added)
      /\ clock_reads t' = (clock_reads t + length added)%nat)
  /\ frame_number t <= frame_number t'
     <= frame_number t + Z.of_nat (length turns)
  /\ min_area t' = min_area t
  /\ max_area t' = max_area t
  /\ visualization_enabled t' = visualization_enabled t
  /\ (thread_active t' = true -> thread_active t = true).

(** What the way the loop ended tells about the turns it took. *)
Definition end_explained (turns : list Turn) (t : Tracker) (r : loop_end)
    (t' : Tracker) : Prop :=
  match r with
  | StillLooping =>
      thread_active t' = thread_active t
      /\ frame_number t' = frame_number t + Z.of_nat (length turns)
      /\ Forall (fun turn => stop_requested turn = false
                             /\ cap_read turn <> None
                             /\ quit_pressed turn = false) turns
  | FlagCleared =>
      thread_active t' = false
      /\ (thread_active t = false
          \/ Exists (fun turn => stop_requested turn = true) turns)
  | FrameCaptureFailed =>
      thread_active t' = true
      /\ Exists (fun turn => cap_read turn = None) turns
  | QuitKey =>
      thread_active t' = true
      /\ frame_number t < frame_number t'
      /\ Exists (fun turn => cap_read turn <> None
                             /\ quit_pressed turn = true) turns
  end.

End LoopVocabulary.

Module Bench2.
Import Bench.

(** The bench tracker with thresholds the wrong way round. *)
Definition crossed_tracker : @Tracker bench_env :=
  @Code1.__init__ bench_env 1000 50 true 0%nat.

(** A turn with a frame during which a key whose code ends in the byte of
    the letter q was pressed. *)
Definition quit_turn : @Turn bench_env :=
  @Build_Turn bench_env false (Some (Blobs [blob_120])) 369.

End Bench2.

Section LoadVocabulary.
Context {codec : Codec}.

(** The rows of a file that decode, up to the first row that does not. *)
Fixpoint decoded_prefix (rows : list (list string)) : list (list string) :=
  match rows with
  | [] => []
  | row :: rest =>
      match Code1.decrypt_row row with
      | inl _ => []
      | inr texts => texts :: decoded_prefix rest
      end
  end.

End LoadVocabulary.

(* ================================================================= *)
(** ** [src/code1.py]: the key file and the two cipher helpers *)

(** The [Fernet] class of the [cryptography] package.  Keys are drawn from
    the system's random source, and a token depends on the clock and on
    fresh random bytes: both are indexed by the number of draws made so far.
    [Fernet(key)] raises for a malformed key, [decrypt] for a token it does
    not accept. *)
Class Fernet : Type := {
  cipher : Type;
  generate_key : nat -> list byte;
  fernet_new : list byte -> option cipher;
  fernet_encrypt : cipher -> nat -> list byte -> list byte;
  fernet_decrypt : cipher -> list byte -> option (list byte)
}.

Module Crypto.
Section Helpers.
Context {fernet : Fernet}.

(** What the helpers see of the machine: the file [secret.key], and how
    many keys and tokens have been drawn. *)
Record KeyStore : Type := {
  secret_key : option (list byte);
  keys_drawn : nat;
  tokens_drawn : nat
}.

Inductive crypto_error : Type :=
| BadKey
| BadToken.

(** [load_key]. *)
Definition load_key (d : KeyStore) : list byte * KeyStore :=
  match secret_key d with
  | None =>
      let key := generate_key (keys_drawn d) in
      (key, {| secret_key := Some key;
               keys_drawn := S (keys_drawn d);
               tokens_drawn := tokens_drawn d |})
  | Some key => (key, d)
  end.

(** [encrypt_message]; a Python [str] is held as its UTF-8 bytes, so
    [message.encode()] is the list of its bytes. *)
Definition encrypt_message (message : string) (d : KeyStore)
  : (crypto_error + list byte) * KeyStore :=
  let (key, d1) := load_key d in
  match fernet_new key with
  | None => (inl BadKey, d1)
  | Some f =>
      (inr (fernet_encrypt f (tokens_drawn d1) (list_byte_of_string message)),
       {| secret_key := secret_key d1;
          keys_drawn := keys_drawn d1;
          tokens_drawn := S (tokens_drawn d1) |})
  end.

(** [decrypt_message]. *)
Definition decrypt_message (encrypted_message : list byte) (d : KeyStore)
  : (crypto_error + string) * KeyStore :=
  let (key, d1) := load_key d in
  match fernet_new key with
  | None => (inl BadKey, d1)
  | Some f =>
      match fernet_decrypt f encrypted_message with
      | None => (inl BadToken, d1)
      | Some data => (inr (string_of_list_byte data), d1)
      end
  end.

(** The statements at the end of the file that make sure the key exists. *)
Definition ensure_key (d : KeyStore) : KeyStore :=
  match secret_key d with
  | None =>
      {| secret_key := Some (generate_key (keys_drawn d));
         keys_drawn := S (keys_drawn d);
         tokens_drawn := tokens_drawn d |}
  | Some _ => d
  end.

End Helpers.
End Crypto.

(* ================================================================= *)
(** ** [src/code1.py]: the chart and the menu *)

(** The built-in [int] on a string; [None] is [ValueError]. *)
Class PyInt : Type := {
  int_str : string -> option Z
}.

(** [numpy.unique(values, return_counts=True)]: the distinct values in
    increasing order, each with the number of times it comes up. *)
Fixpoint tally (n : Z) (bars : list (Z * nat)) : list (Z * nat) :=
  match bars with
  | [] => [(n, 1%nat)]
  | (m, k) :: rest =>
      if Z.ltb n m then (n, 1%nat) :: (m, k) :: rest
      else if Z.eqb n m then (m, S k) :: rest
      else (m, k) :: tally n rest
  end.

Definition np_unique (values : list Z) : list Z * list nat :=
  let bars := fold_right tally [] values in
  (map fst bars, map snd bars).

Module Chart.
Section Plot.
Context {env : Env} {pyint : PyInt}.

(** [int(debris[0])]; [None] is the exception raised for an entry without
    fields or whose first field is not the text of an int. *)
Definition int_of_first (debris : pytuple) : option Z :=
  match debris with
  | [] => None
  | VInt n :: _ => Some n
  | VStr s :: _ => int_str s
  | VBytes b :: _ => int_str (string_of_list_byte b)
  end.

(** [[int(debris[0]) for debris in self.debris_data]]. *)
Fixpoint frame_numbers (log : list pytuple) : option (list Z) :=
  match log with
  | [] => Some []
  | debris :: rest =>
      match int_of_first debris with
      | None => None
      | Some n =>
          match frame_numbers rest with
          | None => None
          | Some ns => Some (n :: ns)
          end
      end
  end.

(** [plot_debris_counts] of [src/code1.py]: the bars handed to [plt.bar],
    or [None] when an exception was caught and only logged. *)
Definition plot_debris_counts (t : Tracker) : option (list Z * list nat) :=
  match frame_numbers (debris_data t) with
  | None => None
  | Some ns => Some (np_unique ns)
  end.

End Plot.
End Chart.

Module Menu.
Section StartMenu.
Context {env : Env} {codec : Codec} {pyint : PyInt}.

(** What the controller thread works on: the tracker, the file
    [debris_positions.csv], what was printed and the charts shown. *)
Record Session : Type := {
  tracker : Tracker;
  disk : option csv_file;
  stdout : list string;
  figures : list (list Z * list nat)
}.

Definition on_tracker (m : M Tracker unit) (s : Session) : Session :=
  {| tracker := snd (m (tracker s)); disk := disk s;
     stdout := stdout s; figures := figures s |}.

Definition print (line : string) (s : Session) : Session :=
  {| tracker := tracker s; disk := disk s;
     stdout := stdout s ++ [line]; figures := figures s |}.

(** [display_menu]. *)
Definition display_menu (s : Session) : Session :=
  print "7. Exit"
    (print "6. Set Max Area"
       (print "5. Set Min Area"
          (print "4. Plot Debris Counts"
             (print "3. Load Debris Data"
                (print "2. Save Debris Data"
                   (print "1. Toggle Visualization"
                      (print "Space Debris Tracker Menu:" s))))))).

(** [self.save_debris_data()] with the default file name. *)
Definition save_to_disk (s : Session) : Session :=
  {| tracker := tracker s;
     disk := Some (Code1.save_debris_data (tracker s));
     stdout := stdout s; figures := figures s |}.

(** [self.load_debris_data()] with the default file name. *)
Definition load_from_disk (s : Session) : Session :=
  on_tracker (Code1.load_debris_data (disk s)) s.

(** [self.plot_debris_counts()]. *)
Definition show_chart (s : Session) : Session :=
  match Chart.plot_debris_counts (tracker s) with
  | None => s
  | Some bars =>
      {| tracker := tracker s; disk := disk s; stdout := stdout s;
         figures := figures s ++ [bars] |}
  end.

(** How [start_menu] ends: by the [break] of choice 7, or by an exception
    that nothing catches. *)
Inductive menu_end : Type :=
| Exited
| EOFError
| ValueError.

(** The [while True] of [start_menu]; [lines] is what standard input still
    holds, one line per call of [input]. *)
Fixpoint menu_loop (lines : list string) (s : Session) : menu_end * Session :=
  let s := print "Enter your choice (1-7): " (display_menu s) in
  match lines with
  | [] => (EOFError, s)
  | choice :: rest =>
      if String.eqb choice "1" then
        menu_loop rest (on_tracker Code1.toggle_visualization s)
      else if String.eqb choice "2" then menu_loop rest (save_to_disk s)
      else if String.eqb choice "3" then menu_loop rest (load_from_disk s)
      else if String.eqb choice "4" then menu_loop rest (show_chart s)
      else if String.eqb choice "5" then
        let s := print "Enter minimum area: " s in
        match rest with
        | [] => (EOFError, s)
        | reply :: rest' =>
            match int_str reply with
            | None => (ValueError, s)
            | Some n => menu_loop rest' (on_tracker (Code1.set_min_area n) s)
            end
        end
      else if String.eqb choice "6" then
        let s := print "Enter maximum area: " s in
        match rest with
        | [] => (EOFError, s)
        | reply :: rest' =>
            match int_str reply with
            | None => (ValueError, s)
            | Some n => menu_loop rest' (on_tracker (Code1.set_max_area n) s)
            end
        end
      else if String.eqb choice "7" then
        (Exited, on_tracker Code1.stop_tracking s)
      else
        menu_loop rest
          (print "Invalid choice. Please select a number from 1 to 7." s)
  end.

(** [start_menu]: the steps of the controller thread.  The capture thread
    that [start_tracking] launches is not interleaved here. *)
Definition start_menu (lines : list string) (s : Session)
  : menu_end * Session :=
  menu_loop lines (on_tracker Code1.start_tracking s).

End StartMenu.
End Menu.

Module Bench3.
Import Bench.

(** A cipher double: the key is kept in front of the data. *)
Definition toy_fernet : Fernet :=
  {| cipher := list byte;
     generate_key := fun k => repeat x41 (S k);
     fernet_new := fun key =>
       match key with
       | [] => None
       | _ => Some key
       end;
     fernet_encrypt := fun f _ data => f ++ x3a :: data;
     fernet_decrypt := fun f token =>
       if list_eq_dec Byte.byte_eq_dec (firstn (length f) token) f
       then match skipn (length f) token with
            | sep :: data =>
                if Byte.eqb sep x3a then Some data else None
            | [] => None
            end
       else None |}.

Definition empty_store : @Crypto.KeyStore :=
  {| Crypto.secret_key := None; Crypto.keys_drawn := 0;
     Crypto.tokens_drawn := 0 |}.

(** [int] on the plain decimal texts. *)
Definition decimal_int : PyInt :=
  {| int_str := fun s => option_map Z.of_int (NilZero.int_of_string s) |}.

Definition fresh_session : @Menu.Session bench_env :=
  {| Menu.tracker := with_one_detection; Menu.disk := None;
     Menu.stdout := []; Menu.figures := [] |}.

End Bench3.

Section RunsVocabulary.
Context {env : Env}.

(** Tracking started, run and stopped again, once per list of turns. *)
Fixpoint tracking_runs (runs : list (list Turn)) (t : Tracker) : Tracker :=
  match runs with
  | [] => t
  | turns :: more =>
      tracking_runs more
        (snd (Code1.stop_tracking
                (snd (Code1.update_debris_info turns
                        (snd (Code1.start_tracking t))))))
  end.

End RunsVocabulary.

(* ================================================================= *)
(** ** [src/code1.py]: the capture loop with its preview and its device *)

(** [Code1.update_debris_info] follows the fields of the tracker.  The
    method also draws the preview and polls the keyboard, with no [try]
    around either, and reads from a device that [stop_tracking] releases
    from the controller's thread.  The loop below keeps these parts. *)
Module Live.
Section Loop.
Context {env : Env}.
Local Open Scope py_scope.

(** The tracker and its capture device [self.cap]. *)
Record Rig : Type := {
  tracker : Tracker;
  cap_released : bool
}.

(** What one pass of the [while] receives from outside: whether the
    controller ran [stop_tracking] before the test of the flag, or after
    the test and before the read; what the device delivers while it is
    open; whether a call of the preview raises; what [cv2.waitKey(1)]
    returns or raises. *)
Record Pass : Type := {
  stop_before_test : bool;
  stop_after_test : bool;
  delivered : option frame;
  putText : pytuple -> option exn;
  circle : pytuple -> option exn;
  imshow : option exn;
  pressed : exn + Z
}.

Definition on_tracker {A : Type} (c : M Tracker A) : M Rig A :=
  fun w =>
    let (r, t) := c (tracker w) in
    (r, {| tracker := t; cap_released := cap_released w |}).

(** A call that returns nothing and may raise. *)
Definition called (outcome : option exn) : M Rig unit :=
  match outcome with
  | Some e => raise e
  | None => ret tt
  end.

(** [self.cap.release()]. *)
Definition cap_release : M Rig unit :=
  modify (fun w => {| tracker := tracker w; cap_released := true |}).

(** [stop_tracking]. *)
Definition stop_tracking (destroyAllWindows : option exn) : M Rig unit :=
  on_tracker (modify (set_thread_active false)) ;;;
  cap_release ;;;
  called destroyAllWindows.

(** [stop_tracking] run by the controller while the loop is going: what
    it raises, it raises in the controller's thread. *)
Definition controller_stops (now : bool) : M Rig unit :=
  if now then
    on_tracker (modify (set_thread_active false)) ;;; cap_release
  else ret tt.

(** [self.cap.read()]: a released device has no frame to give. *)
Definition cap_read_now (p : Pass) : M Rig (option frame) :=
  released <- gets cap_released ;;
  ret (if released then None else delivered p).

(** [for debris in debris_info: ...] of the preview.  The tuples come from
    [count_and_track_debris] and have five fields, so the unpacking goes
    through. *)
Fixpoint for_debris_in (p : Pass) (debris_info : list pytuple)
  : M Rig unit :=
  match debris_info with
  | [] => ret tt
  | debris :: rest =>
      called (putText p debris) ;;;
      called (circle p debris) ;;;
      for_debris_in p rest
  end.

(** [update_debris_info], one list element per pass of the [while]. *)
Fixpoint update_debris_info (passes : list Pass) : M Rig loop_end :=
  match passes with
  | [] => ret StillLooping
  | p :: later =>
      controller_stops (stop_before_test p) ;;;
      active <- on_tracker (gets thread_active) ;;
      if negb active then ret FlagCleared else
      controller_stops (stop_after_test p) ;;;
      got <- cap_read_now p ;;
      match got with
      | None => ret FrameCaptureFailed
      | Some f =>
          on_tracker
            (modify (fun t => set_frame_number (frame_number t + 1) t)) ;;;
          debris_info <- on_tracker (Code1.count_and_track_debris f) ;;
          on_tracker
            (modify (fun t =>
                       set_debris_data (debris_data t ++ debris_info) t)) ;;;
          visible <- on_tracker (gets visualization_enabled) ;;
          (if visible then
             for_debris_in p debris_info ;;; called (imshow p)
           else ret tt) ;;;
          key <- lift (pressed p) ;;
          if Z.eqb (Z.land key 255) ord_q then ret QuitKey
          else update_debris_info later
      end
  end.

(** A pass on which the controller does not step in after the test, no
    call of the preview raises and the keyboard is polled without
    error. *)
Definition uneventful (p : Pass) : Prop :=
  stop_after_test p = false /\
  (forall debris, putText p debris = None) /\
  (forall debris, circle p debris = None) /\
  imshow p = None /\
  exists key, pressed p = inr key.

(** An uneventful pass on which a frame arrives, nobody stops and the
    key is not [q]. *)
Definition carries_on (p : Pass) : Prop :=
  stop_before_test p = false /\
  stop_after_test p = false /\
  (exists f, delivered p = Some f) /\
  (forall debris, putText p debris = None) /\
  (forall debris, circle p debris = None) /\
  imshow p = None /\
  exists key, pressed p = inr key /\ Z.land key 255 <> ord_q.

(** The part of a pass that [Code1.update_debris_info] looks at. *)
Definition turn_of (p : Pass) : Turn :=
  {| stop_requested := stop_before_test p;
     cap_read := delivered p;
     waitKey := match pressed p with
                | inr key => key
                | inl _ => 0
                end |}.

End Loop.
End Live.

(* ================================================================= *)
(** ** [src/code1.py]: saving and loading through the cipher helpers *)

(** [save_debris_data] and [load_debris_data] with the calls of
    [encrypt_message] and [decrypt_message] as the file defines them.
    Both methods catch every exception and only log it, so what is left
    is the state reached when the exception was raised. *)
Module Disk.
Section Files.
Context {env : Env} {fernet : Fernet}.

(** [[encrypt_message(str(item)) for item in debris_info]]. *)
Fixpoint encrypt_row (debris_info : pytuple) (d : Crypto.KeyStore)
  : (Crypto.crypto_error + list (list byte)) * Crypto.KeyStore :=
  match debris_info with
  | [] => (inr [], d)
  | item :: rest =>
      match Crypto.encrypt_message (Py.str item) d with
      | (inl e, d1) => (inl e, d1)
      | (inr token, d1) =>
          match encrypt_row rest d1 with
          | (inl e, d2) => (inl e, d2)
          | (inr tokens, d2) => (inr (token :: tokens), d2)
          end
      end
  end.

(** What [csv.writer] puts in a cell for a token: [str] of the bytes. *)
Definition written_cell (token : list byte) : string :=
  Py.str (VBytes token).

(** [for debris_info in self.debris_data: ...]: the rows written before
    the first exception, if there is one. *)
Fixpoint for_debris_info_in (log : list pytuple) (d : Crypto.KeyStore)
  : list (list string) * Crypto.KeyStore :=
  match log with
  | [] => ([], d)
  | debris_info :: rest =>
      match encrypt_row debris_info d with
      | (inl _, d1) => ([], d1)
      | (inr encrypted_data, d1) =>
          let (rows, d2) := for_debris_info_in rest d1 in
          (map written_cell encrypted_data :: rows, d2)
      end
  end.

(** [save_debris_data]: the file as it is left, [None] when it cannot be
    opened for writing. *)
Definition save_debris_data (writable : bool) (t : Tracker)
    (d : Crypto.KeyStore) : option csv_file * Crypto.KeyStore :=
  if writable then
    let (rows, d1) := for_debris_info_in (debris_data t) d in
    (Some (header_row :: rows), d1)
  else (None, d).

(** [[decrypt_message(item) for item in row]]; the cell is handed over
    as the text read from the file. *)
Fixpoint decrypt_row (row : list string) (d : Crypto.KeyStore)
  : (Crypto.crypto_error + list string) * Crypto.KeyStore :=
  match row with
  | [] => (inr [], d)
  | item :: rest =>
      match Crypto.decrypt_message (list_byte_of_string item) d with
      | (inl e, d1) => (inl e, d1)
      | (inr s, d1) =>
          match decrypt_row rest d1 with
          | (inl e, d2) => (inl e, d2)
          | (inr ss, d2) => (inr (s :: ss), d2)
          end
      end
  end.

(** [for row in reader: ...] of [load_debris_data]. *)
Fixpoint for_row_in (rows : list (list string)) (t : Tracker)
    (d : Crypto.KeyStore) : Tracker * Crypto.KeyStore :=
  match rows with
  | [] => (t, d)
  | row :: rest =>
      match decrypt_row row d with
      | (inl _, d1) => (t, d1)
      | (inr decrypted_data, d1) =>
          for_row_in rest
            (set_debris_data (debris_data t ++ [map VStr decrypted_data]) t)
            d1
      end
  end.

(** [load_debris_data]; [None] is a file that cannot be opened, and a
    file without a line makes [next(reader)] raise. *)
Definition load_debris_data (file : option csv_file) (t : Tracker)
    (d : Crypto.KeyStore) : Tracker * Crypto.KeyStore :=
  match file with
  | None => (t, d)
  | Some [] => (set_debris_data [] t, d)
  | Some (_ :: rows) => for_row_in rows (set_debris_data [] t) d
  end.

(** The cipher turns down every text that starts with the letter b.  A
    Fernet token starts with the byte 0x80, so its text starts with the
    letter g. *)
Definition rejects_bytes_text : Prop :=
  forall (f : cipher) (body : string),
    fernet_decrypt f (list_byte_of_string (String "b"%char body)) = None.

(** The key file holds, or will be given, a key that [Fernet] takes. *)
Definition key_usable (d : Crypto.KeyStore) : Prop :=
  exists f, fernet_new (fst (Crypto.load_key d)) = Some f.

End Files.
End Disk.

(** Fixtures for the loop with its preview and for the files on disk. *)
Module Bench4.
Import Bench.

(** A pass on which a frame arrives and nothing else happens. *)
Definition plain_pass (cs : list Contour) : @Live.Pass bench_env :=
  @Live.Build_Pass bench_env false false (Some (Blobs cs))
    (fun _ => None) (fun _ => None) None (inr (-1)).

(** A pass on which the device has no frame. *)
Definition no_frame_pass : @Live.Pass bench_env :=
  @Live.Build_Pass bench_env false false None
    (fun _ => None) (fun _ => None) None (inr (-1)).

(** A pass on which [cv2.imshow] raises, as it does without a display. *)
Definition no_display_pass (cs : list Contour) : @Live.Pass bench_env :=
  @Live.Build_Pass bench_env false false (Some (Blobs cs))
    (fun _ => None) (fun _ => None) (Some CvError) (inr (-1)).

(** The bench tracker, started, with its device open. *)
Definition rig0 : @Live.Rig bench_env :=
  @Live.Build_Rig bench_env started false.

(** A cipher double whose tokens start with the letter g, followed by the
    key, a colon and the data. *)
Definition lettered_fernet : Fernet :=
  {| cipher := list byte;
     generate_key := fun k => repeat x41 (S k);
     fernet_new := fun key =>
       match key with
       | [] => None
       | _ => Some key
       end;
     fernet_encrypt := fun f _ data => x67 :: f ++ x3a :: data;
     fernet_decrypt := fun f token =>
       match token with
       | version :: rest =>
           if Byte.eqb version x67 then
             if list_eq_dec Byte.byte_eq_dec (firstn (length f) rest) f
             then match skipn (length f) rest with
                  | sep :: data =>
                      if Byte.eqb sep x3a then Some data else None
                  | [] => None
                  end
             else None
           else None
       | [] => None
       end |}.

Definition no_key_yet : @Crypto.KeyStore :=
  {| Crypto.secret_key := None; Crypto.keys_drawn := 0;
     Crypto.tokens_drawn := 0 |}.

(** A key file that holds nothing, which [Fernet] turns down. *)
Definition empty_key_file : @Crypto.KeyStore :=
  {| Crypto.secret_key := Some []; Crypto.keys_drawn := 0;
     Crypto.tokens_drawn := 0 |}.

End Bench4.

Section LiveVocabulary.
Context {env : Env}.

(** The rig once [stop_tracking] has run in the controller's thread. *)
Definition stopped (w : Live.Rig) : Live.Rig :=
  {| Live.tracker := set_thread_active false (Live.tracker w);
     Live.cap_released := true |}.

(** The first exception raised while the records of a frame are drawn. *)
Fixpoint overlay_outcome (p : Live.Pass) (debris_info : list pytuple)
  : option exn :=
  match debris_info with
  | [] => None
  | debris :: rest =>
      match Live.putText p debris with
      | Some e => Some e
      | None =>
          match Live.circle p debris with
          | Some e => Some e
          | None => overlay_outcome p rest
          end
      end
  end.

(** The first exception raised by the preview block of a pass. *)
Definition preview_outcome (visible : bool) (p : Live.Pass)
    (debris_info : list pytuple) : option exn :=
  if visible then
    match overlay_outcome p debris_info with
    | Some e => Some e
    | None => Live.imshow p
    end
  else None.

(** What the way the loop with its preview ended tells about the passes it
    took. *)
Definition live_end_explained (passes : list Live.Pass) (w : Live.Rig)
    (r : loop_end) (w' : Live.Rig) : Prop :=
  match r with
  | StillLooping =>
      frame_number (Live.tracker w')
      = frame_number (Live.tracker w) + Z.of_nat (length passes)
      /\ Forall (fun p => Live.stop_before_test p = false
                          /\ Live.stop_after_test p = false
                          /\ (exists f, Live.delivered p = Some f)
                          /\ exists key, Live.pressed p = inr key
                                         /\ Z.land key 255 <> ord_q) passes
  | FlagCleared =>
      thread_active (Live.tracker w') = false
      /\ (thread_active (Live.tracker w) = false
          \/ Exists (fun p => Live.stop_before_test p = true) passes)
  | FrameCaptureFailed =>
      Live.cap_released w = true
      \/ Exists (fun p => Live.delivered p = None
                          \/ Live.stop_after_test p = true) passes
  | QuitKey =>
      frame_number (Live.tracker w) < frame_number (Live.tracker w')
      /\ Exists (fun p => (exists f, Live.delivered p = Some f)
                          /\ exists key, Live.pressed p = inr key
                                         /\ Z.land key 255 = ord_q) passes
  end.

End LiveVocabulary.

Section HelpersVocabulary.
Context {fernet : Fernet} {codec : Codec}.

(** The decoder of the class [Codec] answers as [decrypt_message] of
    [src/code1.py] does with the key store [d]: the same text when the
    helper returns one, an exception when the helper raises. *)
Definition decodes_as_helper (d : Crypto.KeyStore) : Prop :=
  forall cell : string,
    match fst (Crypto.decrypt_message (list_byte_of_string cell) d) with
    | inr s => decrypt_message cell = inr s
    | inl _ => exists e, decrypt_message cell = inl e
    end.

End HelpersVocabulary.

(** Fixtures for the helpers behind the class [Codec]. *)
Module Bench5.
Import Bench.

(** A key file that holds the one-letter key of the cipher double. *)
Definition key_on_file : @Crypto.KeyStore :=
  {| Crypto.secret_key := Some [x41]; Crypto.keys_drawn := 1;
     Crypto.tokens_drawn := 0 |}.

(** The two helpers with the cipher double and that key file. *)
Definition helpers_codec : Codec :=
  {| encrypt_message := fun message =>
       match fst (@Crypto.encrypt_message Bench4.lettered_fernet message
                    key_on_file) with
       | inr token => token
       | inl _ => []
       end;
     decrypt_message := fun cell =>
       match fst (@Crypto.decrypt_message Bench4.lettered_fernet
                    (list_byte_of_string cell) key_on_file) with
       | inr s => inr s
       | inl _ => inl InvalidToken
       end |}.

(** A file whose cells hold tokens as they are, and one that
    [save_debris_data] could have written. *)
Definition token_file : csv_file :=
  [ header_row;
    ["gA:7"; "gA:Space Debris"; "gA:t"; "gA:8"; "gA:9"];
    ["gA:8"; "b'gA:Space Debris'"; "gA:t"; "gA:1"; "gA:2"] ].

End Bench5.

Import Bench.

(* ================================================================= *)
(** * Properties *)

(** ** Numbers *)

Lemma py_lt_iff (a b : Q) : Py.lt a b = true <-> (a < b)%Q.
Proof.
  unfold Py.lt. rewrite negb_true_iff.
  split; intro H.
  - apply Qnot_le_lt. intro Hle. apply Qle_bool_iff in Hle. congruence.
  - destruct (Qle_bool b a) eqn:E; [ | reflexivity ].
    apply Qle_bool_iff in E. exfalso. exact (Qlt_not_le _ _ H E).
Qed.

Lemma py_ne_iff (a b : Q) : Py.ne a b = true <-> ~ (a == b)%Q.
Proof.
  unfold Py.ne. rewrite negb_true_iff.
  split; intro H.
  - intro Heq. apply Qeq_bool_iff in Heq. congruence.
  - destruct (Qeq_bool a b) eqn:E; [ | reflexivity ].
    apply Qeq_bool_iff in E. contradiction.
Qed.

Lemma truediv_zero_divisor (a b : Q) :
  Py.truediv a b = inl ZeroDivisionError <-> (b == 0)%Q.
Proof.
  unfold Py.truediv. destruct (Qeq_bool b 0) eqn:E.
  - apply Qeq_bool_iff in E. tauto.
  - split; [ discriminate | ].
    intro H. apply Qeq_bool_iff in H. congruence.
Qed.

Lemma truediv_guarded (a b : Q) :
  Py.ne b 0 = true -> Py.truediv a b = inr (a / b)%Q.
Proof.
  unfold Py.ne, Py.truediv. intro H. apply negb_true_iff in H.
  now rewrite H.
Qed.

(** ** The loop over the contours *)

Section ContourLoop.
Context {env : Env}.

Lemma after_records_step (n : nat) (t : Tracker) :
  after_records n
    (set_debris_counter (debris_counter t + 1)
       (set_clock_reads (S (clock_reads t)) t))
  = after_records (S n) t.
Proof.
  destruct t; unfold after_records, set_debris_counter, set_clock_reads; cbn.
  f_equal; lia.
Qed.

Lemma after_records_zero (t : Tracker) : after_records 0 t = t.
Proof.
  destruct t; unfold after_records, set_debris_counter, set_clock_reads; cbn.
  f_equal; lia.
Qed.

Ltac contour_loop_run :=
  let cs := fresh "cs" in
  let c := fresh "c" in
  let IH := fresh "IH" in
  intros cs; induction cs as [ | c cs IH ]; intros acc t; cbn;
  [ rewrite after_records_zero, app_nil_r; reflexivity | ];
  unfold bind, gets, emits, in_area_band; cbn;
  destruct (Py.lt (inject_Z (min_area t)) (contourArea c)
            && Py.lt (contourArea c) (inject_Z (max_area t))) eqn:Eband; cbn;
  [ destruct (Py.ne (m00 (moments c)) 0) eqn:Eguard; cbn;
    [ rewrite !(truediv_guarded _ _ Eguard); unfold lift, datetime_now, modify;
      cbn; rewrite IH; cbn; rewrite after_records_step, <- app_assoc;
      reflexivity
    | apply IH ]
  | apply IH ].

Lemma code1_loop_run :
  forall (cs : list Contour) (acc : list pytuple) (t : Tracker),
    Code1.for_contour_in cs acc t
    = (inr (acc ++ records_from (frame_number t) (clock_reads t)
                     (filter (emits (min_area t) (max_area t)) cs)),
       after_records
         (length (filter (emits (min_area t) (max_area t)) cs)) t).
Proof. contour_loop_run. Qed.

Lemma sdt_loop_run :
  forall (cs : list Contour) (acc : list pytuple) (t : Tracker),
    SDT.for_contour_in cs acc t
    = (inr (acc ++ records_from (frame_number t) (clock_reads t)
                     (filter (emits (min_area t) (max_area t)) cs)),
       after_records
         (length (filter (emits (min_area t) (max_area t)) cs)) t).
Proof. contour_loop_run. Qed.

End ContourLoop.

(** ** One call of [count_and_track_debris] *)

Section OneCall.
Context {env : Env}.

(** The image operations touch the background model and nothing else. *)
Lemma segmentation_frame (f : frame) (t t1 : Tracker)
    (r : exn + list Contour) :
  segmentation f t = (r, t1) ->
  t1 = set_background_subtractor (background_subtractor t1) t.
Proof.
  unfold segmentation, bind, background_subtractor_apply, lift.
  destruct (bs_apply (background_subtractor t) f) as [[e | m] g];
    [ intro H; inversion H; subst; destruct t; reflexivity | ].
  destruct (medianBlur m 5) as [e | m1];
    [ intro H; inversion H; subst; destruct t; reflexivity | ].
  destruct (threshold m1 127 255) as [e | m2];
    intro H; inversion H; subst; destruct t; reflexivity.
Qed.

Lemma sdt_count_through (f : frame) :
  forall (t t1 : Tracker) (r : exn + list Contour),
    segmentation f t = (r, t1) ->
    SDT.count_and_track_debris f t
    = match r with
      | inl e => (inl e, t1)
      | inr cs => SDT.for_contour_in cs [] t1
      end.
Proof.
  intros t t1 r. unfold SDT.count_and_track_debris. revert t.
  unfold segmentation, bind, background_subtractor_apply, lift.
  intros t.
  destruct (bs_apply (background_subtractor t) f) as [[e | m] g];
    [ intro H; inversion H; subst; reflexivity | ].
  destruct (medianBlur m 5) as [e | m1];
    [ intro H; inversion H; subst; reflexivity | ].
  destruct (threshold m1 127 255) as [e | m2];
    [ intro H; inversion H; subst; reflexivity | ].
  intro H; inversion H; subst.
  destruct (findContours m2); reflexivity.
Qed.

Lemma code1_count_through (f : frame) :
  forall (t t1 : Tracker) (r : exn + list Contour),
    segmentation f t = (r, t1) ->
    Code1.count_and_track_debris f t
    = match r with
      | inl e => (inr [], t1)
      | inr cs =>
          try_except (Code1.for_contour_in cs []) (fun _ => ret []) t1
      end.
Proof.
  intros t t1 r. unfold Code1.count_and_track_debris, try_except.
  unfold segmentation, bind, background_subtractor_apply, lift.
  destruct (bs_apply (background_subtractor t) f) as [[e | m] g];
    [ intro H; inversion H; subst; reflexivity | ].
  destruct (medianBlur m 5) as [e | m1];
    [ intro H; inversion H; subst; reflexivity | ].
  destruct (threshold m1 127 255) as [e | m2];
    [ intro H; inversion H; subst; reflexivity | ].
  intro H; inversion H; subst.
  destruct (findContours m2); reflexivity.
Qed.

Lemma segmentation_keeps (f : frame) (t t1 : Tracker)
    (r : exn + list Contour) :
  segmentation f t = (r, t1) ->
  frame_number t1 = frame_number t /\ debris_data t1 = debris_data t
  /\ debris_counter t1 = debris_counter t
  /\ thread_active t1 = thread_active t
  /\ min_area t1 = min_area t /\ max_area t1 = max_area t
  /\ clock_reads t1 = clock_reads t.
Proof.
  intro H. apply segmentation_frame in H. rewrite H. cbn. tauto.
Qed.

Lemma code1_count_found (f : frame) (t t1 : Tracker) (cs : list Contour) :
  segmentation f t = (inr cs, t1) ->
  Code1.count_and_track_debris f t = (inr (returned t cs), left_by t t1 cs).
Proof.
  intro H. rewrite (code1_count_through f t t1 _ H).
  unfold try_except. rewrite code1_loop_run.
  destruct (segmentation_keeps f t t1 _ H) as (-> & _ & _ & _ & -> & -> & ->).
  reflexivity.
Qed.

Lemma code1_count_caught (f : frame) (t t1 : Tracker) (e : exn) :
  segmentation f t = (inl e, t1) ->
  Code1.count_and_track_debris f t = (inr [], t1).
Proof. intro H. now rewrite (code1_count_through f t t1 _ H). Qed.

Lemma sdt_count_found (f : frame) (t t1 : Tracker) (cs : list Contour) :
  segmentation f t = (inr cs, t1) ->
  SDT.count_and_track_debris f t = (inr (returned t cs), left_by t t1 cs).
Proof.
  intro H. rewrite (sdt_count_through f t t1 _ H).
  rewrite sdt_loop_run.
  destruct (segmentation_keeps f t t1 _ H) as (-> & _ & _ & _ & -> & -> & ->).
  reflexivity.
Qed.

Lemma sdt_count_raised (f : frame) (t t1 : Tracker) (e : exn) :
  segmentation f t = (inl e, t1) ->
  SDT.count_and_track_debris f t = (inl e, t1).
Proof. intro H. now rewrite (sdt_count_through f t t1 _ H). Qed.

Lemma records_from_length (fn : Z) (k : nat) (cs : list Contour) :
  length (records_from fn k cs) = length cs.
Proof.
  revert k. induction cs as [ | c cs IH ]; intro k; cbn; [ | rewrite IH ];
    reflexivity.
Qed.

Lemma records_from_frames (fn : Z) (k : nat) (cs : list Contour) :
  Forall (fun r => record_frame r = Some fn) (records_from fn k cs).
Proof.
  revert k. induction cs as [ | c cs IH ]; intro k; cbn; constructor;
    [ reflexivity | apply IH ].
Qed.

Lemma records_from_shape (fn : Z) (k : nat) (cs : list Contour) :
  Forall2 (fun r c => exists now, r = record_of fn now c)
          (records_from fn k cs) cs.
Proof.
  revert k. induction cs as [ | c cs IH ]; intro k; cbn; constructor;
    [ eexists; reflexivity | apply IH ].
Qed.

End OneCall.

(** ** The area filter, the zero-area guard and the centroid *)

Lemma emits_in_band (lo hi : Z) (c : Contour) :
  emits lo hi c = true ->
  (inject_Z lo < contourArea c)%Q /\ (contourArea c < inject_Z hi)%Q
  /\ ~ (m00 (moments c) == 0)%Q.
Proof.
  unfold emits, in_area_band. rewrite !andb_true_iff.
  rewrite !py_lt_iff, py_ne_iff. tauto.
Qed.

Lemma outside_band_rejected (lo hi : Z) (c : Contour) :
  (contourArea c <= inject_Z lo)%Q \/ (inject_Z hi <= contourArea c)%Q ->
  emits lo hi c = false.
Proof.
  intro H. destruct (emits lo hi c) eqn:E; [ | reflexivity ].
  apply emits_in_band in E. destruct E as (Hlo & Hhi & _).
  destruct H as [H | H].
  - destruct (Qlt_not_le _ _ Hlo H).
  - destruct (Qlt_not_le _ _ Hhi H).
Qed.

(** C3: a contour found in the frame gives a detection only when its area is
    strictly between [min_area] and [max_area]; a contour whose area is at or
    beyond a bound, in particular equal to one, gives none.  Both files. *)
Theorem accepted_area_strictly_inside :
  forall (env : Env) (f : frame) (t t1 : Tracker) (cs : list Contour),
    segmentation f t = (inr cs, t1) ->
    let accepted := filter (emits (min_area t) (max_area t)) cs in
    fst (Code1.count_and_track_debris f t)
    = inr (records_from (frame_number t) (clock_reads t) accepted)
    /\ fst (SDT.count_and_track_debris f t)
       = inr (records_from (frame_number t) (clock_reads t) accepted)
    /\ length (records_from (frame_number t) (clock_reads t) accepted)
       = length accepted
    /\ Forall (fun c => In c cs
                        /\ (inject_Z (min_area t) < contourArea c)%Q
                        /\ (contourArea c < inject_Z (max_area t))%Q)
              accepted
    /\ (forall c, (contourArea c == inject_Z (min_area t))%Q
                  \/ (contourArea c == inject_Z (max_area t))%Q
                  \/ (contourArea c < inject_Z (min_area t))%Q
                  \/ (inject_Z (max_area t) < contourArea c)%Q ->
                  ~ In c accepted).
Proof.
  intros env f t t1 cs Hseg accepted.
  rewrite (code1_count_found f t t1 cs Hseg), (sdt_count_found f t t1 cs Hseg).
  cbn [fst]. repeat split.
  - apply records_from_length.
  - apply Forall_forall. intros c Hc. unfold accepted in Hc.
    apply filter_In in Hc. destruct Hc as [Hin Hem].
    apply emits_in_band in Hem. tauto.
  - intros c Hout Hc. unfold accepted in Hc.
    apply filter_In in Hc. destruct Hc as [_ Hem].
    rewrite outside_band_rejected in Hem; [ discriminate | ].
    destruct Hout as [H | [H | [H | H]]].
    + left. rewrite H. apply Qle_refl.
    + right. rewrite H. apply Qle_refl.
    + left. apply Qlt_le_weak, H.
    + right. apply Qlt_le_weak, H.
Qed.

Lemma accepted_area_strictly_inside_witness :
  @segmentation bench_env (Blobs [blob_50; blob_120]) tracker0
  = (inr [blob_50; blob_120],
     @set_background_subtractor bench_env 1%nat tracker0)
  /\ fst (@Code1.count_and_track_debris bench_env
            (Blobs [blob_50; blob_120]) tracker0)
     = inr [[VInt 0; VStr "Space Debris"; VStr "2024-05-01 12:00:00";
             VInt 50; VInt 30]].
Proof.
  split; [ reflexivity | ].
  exact (proj1 (accepted_area_strictly_inside bench_env
                  (Blobs [blob_50; blob_120]) tracker0 _ _ eq_refl)).
Defined.

(** [int(x)] drops the fractional part: it is the integer next to [x] on
    the side of zero. *)
Lemma py_int_truncates (q : Q) :
  ((0 <= q)%Q ->
     (inject_Z (Py.int q) <= q)%Q /\ (q < inject_Z (Py.int q + 1))%Q)
  /\ ((q <= 0)%Q ->
        (inject_Z (Py.int q - 1) < q)%Q /\ (q <= inject_Z (Py.int q))%Q).
Proof.
  destruct q as [n d]. unfold Qle, Qlt, inject_Z, Py.int. cbn.
  pose proof (Z.quot_rem' n (Z.pos d)) as Hqr.
  split; intro H.
  - assert (Hn : 0 <= n) by lia.
    pose proof (Z.rem_bound_pos_pos n (Z.pos d) ltac:(lia) Hn).
    split; nia.
  - assert (Hn : n <= 0) by lia.
    pose proof (Z.rem_bound_pos_neg n (Z.pos d) ltac:(lia) Hn).
    split; nia.
Qed.

(** C4: each record returned by [count_and_track_debris] of [src/code1.py]
    carries [x = int(m10 / m00)] and [y = int(m01 / m00)] of its contour,
    [int] being truncation toward zero; under thresholds 50 and 1000 a frame
    whose only contour has area 120 and moments 120, 6000, 3600 gives exactly
    one record, with [x = 50] and [y = 30]. *)
Theorem centroid_is_truncated_moment_ratio :
  forall (env : Env) (f : frame) (t t1 : Tracker) (cs : list Contour),
    segmentation f t = (inr cs, t1) ->
    (exists recs t',
        Code1.count_and_track_debris f t = (inr recs, t')
        /\ Forall2
             (fun r c =>
                exists now,
                  r = [VInt (frame_number t); VStr "Space Debris"; VStr now;
                       VInt (Py.int (m10 (moments c) / m00 (moments c))%Q);
                       VInt (Py.int (m01 (moments c) / m00 (moments c))%Q)])
             recs (filter (emits (min_area t) (max_area t)) cs))
    /\ (forall q : Q,
          ((0 <= q)%Q ->
             (inject_Z (Py.int q) <= q)%Q /\ (q < inject_Z (Py.int q + 1))%Q)
          /\ ((q <= 0)%Q ->
                (inject_Z (Py.int q - 1) < q)%Q
                /\ (q <= inject_Z (Py.int q))%Q))
    /\ (min_area t = 50 -> max_area t = 1000 ->
        cs = [ {| contourArea := 120;
                  moments := {| m00 := 120; m10 := 6000; m01 := 3600 |} |} ] ->
        fst (Code1.count_and_track_debris f t)
        = inr [[VInt (frame_number t); VStr "Space Debris";
                VStr (strftime_now (clock_reads t)); VInt 50; VInt 30]]).
Proof.
  intros env f t t1 cs Hseg.
  pose proof (code1_count_found f t t1 cs Hseg) as Hrun.
  split; [ | split ].
  - eexists. eexists. split; [ exact Hrun | ].
    unfold returned. apply records_from_shape.
  - exact py_int_truncates.
  - intros Hlo Hhi ->. rewrite Hrun. unfold returned.
    rewrite Hlo, Hhi. reflexivity.
Qed.

Lemma centroid_is_truncated_moment_ratio_witness :
  @segmentation bench_env (Blobs [blob_120]) tracker0
  = (inr [blob_120], @set_background_subtractor bench_env 1%nat tracker0)
  /\ fst (@Code1.count_and_track_debris bench_env (Blobs [blob_120]) tracker0)
     = inr [[VInt 0; VStr "Space Debris"; VStr "2024-05-01 12:00:00";
             VInt 50; VInt 30]].
Proof.
  split; [ reflexivity | ].
  exact (proj2 (proj2 (centroid_is_truncated_moment_ratio bench_env
                         (Blobs [blob_120]) tracker0 _ _ eq_refl))
           eq_refl eq_refl eq_refl).
Defined.

(** C7: a contour that passed the area test but whose [m00] is zero is
    skipped: the loop goes on as if it were not there, in both files; the
    loop over any contours returns without raising, so neither division is
    ever reached with a zero divisor, the one case in which it raises. *)
Theorem zero_m00_region_skipped :
  forall (env : Env) (c : Contour) (cs : list Contour)
         (acc : list pytuple) (t : Tracker),
    (m00 (moments c) == 0)%Q ->
    Code1.for_contour_in (c :: cs) acc t = Code1.for_contour_in cs acc t
    /\ SDT.for_contour_in (c :: cs) acc t = SDT.for_contour_in cs acc t
    /\ (exists out t',
          Code1.for_contour_in (c :: cs) acc t = (inr out, t')
          /\ SDT.for_contour_in (c :: cs) acc t = (inr out, t')
          /\ length out
             = (length acc
                + length (filter (emits (min_area t) (max_area t)) cs))%nat)
    /\ (forall a b : Q,
          Py.truediv a b = inl ZeroDivisionError <-> (b == 0)%Q).
Proof.
  intros env c cs acc t Hzero.
  assert (Hskip : emits (min_area t) (max_area t) c = false).
  { unfold emits. apply andb_false_iff. right.
    unfold Py.ne. apply negb_false_iff. now apply Qeq_bool_iff. }
  rewrite ?code1_loop_run, ?sdt_loop_run. cbn [filter]. rewrite Hskip.
  repeat split.
  - eexists. eexists. repeat split.
    rewrite length_app, records_from_length. reflexivity.
  - apply truediv_zero_divisor.
  - apply truediv_zero_divisor.
Qed.

Lemma zero_m00_region_skipped_witness :
  (m00 (moments blob_flat) == 0)%Q
  /\ @Code1.for_contour_in bench_env [blob_flat; blob_120] [] tracker0
     = @Code1.for_contour_in bench_env [blob_120] [] tracker0.
Proof.
  split; [ reflexivity | ].
  exact (proj1 (zero_m00_region_skipped bench_env blob_flat [blob_120] []
                  tracker0 (Qeq_refl 0))).
Defined.

(** ** The two files side by side *)

Lemma loops_agree {env : Env} (cs : list Contour) (acc : list pytuple)
    (t : Tracker) :
  Code1.for_contour_in cs acc t = SDT.for_contour_in cs acc t.
Proof. rewrite code1_loop_run. symmetry. apply sdt_loop_run. Qed.

(** ** The capture loop *)

Section CaptureLoop.
Context {env : Env}.

Lemma code1_count_total (f : frame) (t : Tracker) :
  exists recs t',
    Code1.count_and_track_debris f t = (inr recs, t')
    /\ debris_counter t' = debris_counter t + Z.of_nat (length recs)
    /\ Forall (fun r => record_frame r = Some (frame_number t)) recs
    /\ frame_number t' = frame_number t
    /\ debris_data t' = debris_data t
    /\ thread_active t' = thread_active t.
Proof.
  destruct (segmentation f t) as [[e | cs] t1] eqn:Hseg.
  - rewrite (code1_count_caught f t t1 e Hseg).
    destruct (segmentation_keeps f t t1 _ Hseg) as (Hf & Hd & Hc & Ha & _).
    exists [], t1. cbn. repeat split; try assumption; try constructor. lia.
  - rewrite (code1_count_found f t t1 cs Hseg).
    destruct (segmentation_keeps f t t1 _ Hseg) as (Hf & Hd & Hc & Ha & _).
    eexists. eexists. split; [ reflexivity | ].
    unfold returned, left_by, after_records. cbn.
    rewrite records_from_length. repeat split; try assumption.
    + lia.
    + apply records_from_frames.
Qed.

Lemma sdt_count_cases (f : frame) (t : Tracker) :
  (exists recs t',
      SDT.count_and_track_debris f t = (inr recs, t')
      /\ debris_counter t' = debris_counter t + Z.of_nat (length recs)
      /\ debris_data t' = debris_data t)
  \/ (exists e t',
        SDT.count_and_track_debris f t = (inl e, t')
        /\ debris_counter t' = debris_counter t
        /\ debris_data t' = debris_data t).
Proof.
  destruct (segmentation f t) as [[e | cs] t1] eqn:Hseg.
  - right. rewrite (sdt_count_raised f t t1 e Hseg).
    destruct (segmentation_keeps f t t1 _ Hseg) as (_ & Hd & Hc & _).
    eauto.
  - left. rewrite (sdt_count_found f t t1 cs Hseg).
    destruct (segmentation_keeps f t t1 _ Hseg) as (_ & Hd & Hc & _).
    eexists. eexists. split; [ reflexivity | ].
    unfold returned, left_by, after_records. cbn.
    rewrite records_from_length. split; [ lia | exact Hd ].
Qed.

(** One turn of the [while] of [src/code1.py], spelled out. *)
Lemma code1_turn (turn : Turn) (later : list Turn) (t : Tracker) :
  Code1.update_debris_info (turn :: later) t
  = let t0 := if stop_requested turn then set_thread_active false t else t in
    if negb (thread_active t0) then (inr FlagCleared, t0)
    else match cap_read turn with
         | None => (inr FrameCaptureFailed, t0)
         | Some f =>
             match Code1.count_and_track_debris f
                     (set_frame_number (frame_number t0 + 1) t0) with
             | (inl e, t') => (inl e, t')
             | (inr recs, t') =>
                 let t2 := set_debris_data (debris_data t' ++ recs) t' in
                 if Z.eqb (Z.land (waitKey turn) 255) ord_q
                 then (inr QuitKey, t2)
                 else Code1.update_debris_info later t2
             end
         end.
Proof.
  cbn [Code1.update_debris_info].
  unfold bind, gets, modify, ret, Code1.stop_tracking.
  destruct (stop_requested turn); cbn; [ reflexivity | ].
  destruct (thread_active t); cbn; [ | reflexivity ].
  destruct (cap_read turn) as [f | ]; [ | reflexivity ].
  match goal with
  | |- context [Code1.count_and_track_debris ?f ?x] =>
      destruct (Code1.count_and_track_debris f x) as [[e | recs] t']
  end; [ reflexivity | ].
  destruct (Z.eqb (Z.land (waitKey turn) 255) ord_q); reflexivity.
Qed.

(** One turn of the [while] of [src/space_debris_tracker.py]. *)
Lemma sdt_turn (turn : Turn) (later : list Turn) (t : Tracker) :
  SDT.update_debris_info (turn :: later) t
  = let t0 := if stop_requested turn then set_thread_active false t else t in
    if negb (thread_active t0) then (inr FlagCleared, t0)
    else match cap_read turn with
         | None => (inr FrameCaptureFailed, t0)
         | Some f =>
             match SDT.count_and_track_debris f
                     (set_frame_number (frame_number t0 + 1) t0) with
             | (inl e, t') => (inl e, t')
             | (inr recs, t') =>
                 let t2 := set_debris_data (debris_data t' ++ recs) t' in
                 if Z.eqb (Z.land (waitKey turn) 255) ord_q
                 then (inr QuitKey, t2)
                 else SDT.update_debris_info later t2
             end
         end.
Proof.
  cbn [SDT.update_debris_info].
  unfold bind, gets, modify, ret, SDT.stop_tracking.
  destruct (stop_requested turn); cbn; [ reflexivity | ].
  destruct (thread_active t); cbn; [ | reflexivity ].
  destruct (cap_read turn) as [f | ]; [ | reflexivity ].
  match goal with
  | |- context [SDT.count_and_track_debris ?f ?x] =>
      destruct (SDT.count_and_track_debris f x) as [[e | recs] t']
  end; [ reflexivity | ].
  destruct (Z.eqb (Z.land (waitKey turn) 255) ord_q); reflexivity.
Qed.

End CaptureLoop.

Section CaptureLoopFacts.
Context {env : Env}.

Lemma code1_loop_returns (turns : list Turn) :
  forall t : Tracker,
    exists r t', Code1.update_debris_info turns t = (inr r, t').
Proof.
  induction turns as [ | turn later IH ]; intro t.
  - eexists. eexists. reflexivity.
  - rewrite code1_turn. cbv zeta.
    set (t0 := if stop_requested turn then set_thread_active false t else t).
    destruct (negb (thread_active t0)); [ eauto | ].
    destruct (cap_read turn) as [f | ]; [ | eauto ].
    destruct (code1_count_total f (set_frame_number (frame_number t0 + 1) t0))
      as (recs & t' & -> & _).
    destruct (Z.eqb (Z.land (waitKey turn) 255) ord_q); [ eauto | apply IH ].
Qed.

(** A turn in which the frame arrives and nobody asks the loop to end. *)
Lemma code1_plain_turn (turn : Turn) (later : list Turn) (t : Tracker) :
  thread_active t = true ->
  stop_requested turn = false ->
  cap_read turn <> None ->
  Z.land (waitKey turn) 255 <> ord_q ->
  exists t2,
    Code1.update_debris_info (turn :: later) t
    = Code1.update_debris_info later t2
    /\ thread_active t2 = true
    /\ frame_number t2 = frame_number t + 1
    /\ debris_counter t2 - debris_counter t
       = Z.of_nat (length (debris_data t2)) - Z.of_nat (length (debris_data t))
    /\ exists recs,
         debris_data t2 = debris_data t ++ recs
         /\ Forall (fun r => record_frame r = Some (frame_number t + 1)) recs.
Proof.
  intros Hact Hstop Hread Hkey.
  rewrite code1_turn, Hstop. cbv zeta. rewrite Hact. cbn [negb].
  destruct (cap_read turn) as [f | ]; [ | contradiction ].
  destruct (code1_count_total f (set_frame_number (frame_number t + 1) t))
    as (recs & t' & -> & Hc & Hfr & Hfn & Hd & Ha).
  apply Z.eqb_neq in Hkey. rewrite Hkey.
  eexists. split; [ reflexivity | ].
  cbn in *. rewrite Hd, Ha, Hfn, Hc, length_app, Nat2Z.inj_add.
  repeat split; try assumption; try lia.
  exists recs. split; [ reflexivity | assumption ].
Qed.

Lemma code1_ends_on_failed_read (good : list Turn) :
  forall (bad : Turn) (later : list Turn) (t : Tracker),
    thread_active t = true ->
    Forall (fun turn => stop_requested turn = false
                        /\ cap_read turn <> None
                        /\ Z.land (waitKey turn) 255 <> ord_q) good ->
    stop_requested bad = false ->
    cap_read bad = None ->
    exists t',
      Code1.update_debris_info (good ++ bad :: later) t
      = (inr FrameCaptureFailed, t')
      /\ frame_number t' = frame_number t + Z.of_nat (length good).
Proof.
  induction good as [ | turn good IH ]; intros bad later t Hact Hgood Hs Hr.
  - cbn [app]. rewrite code1_turn, Hs. cbv zeta. rewrite Hact, Hr. cbn.
    exists t. split; [ reflexivity | lia ].
  - inversion Hgood as [ | ? ? (H1 & H2 & H3) Hrest ]; subst.
    cbn [app].
    destruct (code1_plain_turn turn (good ++ bad :: later) t Hact H1 H2 H3)
      as (t2 & -> & Hact2 & Hfn2 & _).
    destruct (IH bad later t2 Hact2 Hrest Hs Hr) as (t' & -> & Hfn').
    exists t'. split; [ reflexivity | ].
    rewrite Hfn', Hfn2. cbn [length]. lia.
Qed.

Lemma code1_unprompted_end (turns : list Turn) :
  forall (t : Tracker) (r : loop_end) (t' : Tracker),
    thread_active t = true ->
    Forall (fun turn => stop_requested turn = false
                        /\ Z.land (waitKey turn) 255 <> ord_q) turns ->
    Code1.update_debris_info turns t = (inr r, t') ->
    r = StillLooping
    \/ (r = FrameCaptureFailed
        /\ exists turn, In turn turns /\ cap_read turn = None).
Proof.
  induction turns as [ | turn later IH ]; intros t r t' Hact Hquiet Hrun.
  - cbn in Hrun. inversion Hrun. now left.
  - inversion Hquiet as [ | ? ? (H1 & H3) Hrest ]; subst.
    destruct (cap_read turn) as [f | ] eqn:Hread.
    + assert (H2 : cap_read turn <> None) by congruence.
      destruct (code1_plain_turn turn later t Hact H1 H2 H3)
        as (t2 & Heq & Hact2 & _).
      rewrite Heq in Hrun.
      destruct (IH t2 r t' Hact2 Hrest Hrun)
        as [-> | (-> & turn' & Hin & Hnone)];
        [ now left | right ].
      split; [ reflexivity | ]. exists turn'. split; [ now right | exact Hnone ].
    + rewrite code1_turn, H1 in Hrun. cbv zeta in Hrun.
      rewrite Hact, Hread in Hrun. cbn in Hrun. inversion Hrun; subst.
      right. split; [ reflexivity | ]. exists turn. split; [ now left | exact Hread ].
Qed.

End CaptureLoopFacts.

Lemma extend_with_nothing {env : Env} (t : Tracker) :
  set_debris_data (debris_data t ++ []) t = t.
Proof. rewrite app_nil_r. destruct t; reflexivity. Qed.

(** C6: in [src/code1.py] a failure of the image operations is caught
    inside [count_and_track_debris], which returns the empty list; the turn
    adds nothing to the log, the loop goes on with the next turn, and the
    loop never ends by an exception.  [src/space_debris_tracker.py] misses
    the handler: there the same failure leaves [count_and_track_debris] and
    ends [update_debris_info]. *)
Theorem pipeline_failure_caught_in_code1_only :
  forall (env : Env) (turn : Turn) (later : list Turn) (f : frame)
         (t t1 : Tracker) (e : exn),
    thread_active t = true ->
    stop_requested turn = false ->
    cap_read turn = Some f ->
    Z.land (waitKey turn) 255 <> ord_q ->
    segmentation f (set_frame_number (frame_number t + 1) t) = (inl e, t1) ->
    Code1.count_and_track_debris f (set_frame_number (frame_number t + 1) t)
    = (inr [], t1)
    /\ Code1.update_debris_info (turn :: later) t
       = Code1.update_debris_info later t1
    /\ debris_data t1 = debris_data t
    /\ (forall (turns : list Turn) (t0 : Tracker),
          exists r t', Code1.update_debris_info turns t0 = (inr r, t'))
    /\ SDT.count_and_track_debris f (set_frame_number (frame_number t + 1) t)
       = (inl e, t1)
    /\ SDT.update_debris_info (turn :: later) t = (inl e, t1).
Proof.
  intros env turn later f t t1 e Hact Hstop Hread Hkey Hseg.
  pose proof (code1_count_caught f _ t1 e Hseg) as Hc1.
  pose proof (sdt_count_raised f _ t1 e Hseg) as Hsdt.
  destruct (segmentation_keeps f _ t1 _ Hseg) as (_ & Hd & _).
  apply Z.eqb_neq in Hkey.
  repeat split.
  - exact Hc1.
  - rewrite code1_turn, Hstop. cbv zeta. rewrite Hact, Hread. cbn [negb].
    rewrite Hc1, Hkey, extend_with_nothing. reflexivity.
  - exact Hd.
  - intros. apply code1_loop_returns.
  - exact Hsdt.
  - rewrite sdt_turn, Hstop. cbv zeta. rewrite Hact, Hread. cbn [negb].
    rewrite Hsdt. reflexivity.
Qed.

Lemma pipeline_failure_caught_in_code1_only_witness :
  @Code1.update_debris_info bench_env [unreadable_turn; failed_read] started
  = @Code1.update_debris_info bench_env [failed_read]
      (@set_frame_number bench_env 1 started)
  /\ @SDT.update_debris_info bench_env [unreadable_turn; failed_read] started
     = (inl CvError, @set_frame_number bench_env 1 started).
Proof.
  assert (Hkey : Z.land (@waitKey bench_env unreadable_turn) 255 <> ord_q)
    by (cbn; discriminate).
  destruct (pipeline_failure_caught_in_code1_only bench_env unreadable_turn
              [failed_read] Unreadable started _ CvError
              eq_refl eq_refl eq_refl Hkey eq_refl)
    as (_ & Hloop1 & _ & _ & _ & Hloop2).
  split; [ exact Hloop1 | exact Hloop2 ].
Defined.

(** On the bench, in [src/space_debris_tracker.py]: a frame on which the
    background model raises makes [count_and_track_debris] raise instead of
    returning the empty list, and the capture loop ends on the spot, the
    turns that follow never being taken. *)
Remark sdt_pipeline_failure_ends_loop :
  fst (@SDT.count_and_track_debris bench_env Unreadable
         (@set_frame_number bench_env 1 started))
  = inl CvError
  /\ fst (@SDT.count_and_track_debris bench_env Unreadable
            (@set_frame_number bench_env 1 started))
     <> inr []
  /\ @SDT.update_debris_info bench_env
       [unreadable_turn; good_turn [blob_120]; failed_read] started
     = (inl CvError, @set_frame_number bench_env 1 started)
  /\ ~ (exists r t',
          @SDT.update_debris_info bench_env
            [unreadable_turn; good_turn [blob_120]; failed_read] started
          = (inr r, t')).
Proof.
  repeat split; try discriminate.
  intros (r & t' & H). discriminate H.
Qed.

(** ** Frame numbers along the log *)

Lemma sorted_then_block (ns : list Z) (n : Z) (k : nat) :
  StronglySorted Z.le ns ->
  Forall (fun m => m <= n) ns ->
  StronglySorted Z.le (ns ++ repeat n k).
Proof.
  intros Hs Hb. induction Hs as [ | m ns Hs IH Hm ]; cbn.
  - induction k as [ | k IHk ]; cbn; constructor; [ exact IHk | ].
    apply Forall_forall. intros x Hx. apply repeat_spec in Hx. lia.
  - inversion Hb as [ | ? ? Hmn Hb' ]; subst.
    constructor; [ exact (IH Hb') | ].
    apply Forall_app. split; [ exact Hm | ].
    apply Forall_forall. intros x Hx. apply repeat_spec in Hx. lia.
Qed.

Lemma same_frame_block (n : Z) (recs : list pytuple) :
  Forall (fun r => record_frame r = Some n) recs ->
  map record_frame recs = map Some (repeat n (length recs)).
Proof.
  induction 1 as [ | r recs Hr _ IH ]; cbn; [ reflexivity | ].
  now rewrite Hr, IH.
Qed.

Section LogOrder.
Context {env : Env}.

Lemma log_ordered_extend (t t2 : Tracker) (recs : list pytuple) :
  log_ordered t ->
  frame_number t <= frame_number t2 ->
  debris_data t2 = debris_data t ++ recs ->
  Forall (fun r => record_frame r = Some (frame_number t2)) recs ->
  log_ordered t2.
Proof.
  intros (ns & Hmap & Hs & Hb) Hle Hd Hrecs.
  exists (ns ++ repeat (frame_number t2) (length recs)).
  assert (Hb2 : Forall (fun m => m <= frame_number t2) ns).
  { eapply Forall_impl; [ | exact Hb ]. cbn. intros; lia. }
  split; [ | split ].
  - rewrite Hd, !map_app, Hmap, (same_frame_block _ _ Hrecs). reflexivity.
  - now apply sorted_then_block.
  - apply Forall_app. split; [ exact Hb2 | ].
    apply Forall_forall. intros x Hx. apply repeat_spec in Hx. lia.
Qed.

Lemma code1_loop_keeps_order (turns : list Turn) :
  forall t : Tracker,
    log_ordered t -> log_ordered (snd (Code1.update_debris_info turns t)).
Proof.
  induction turns as [ | turn later IH ]; intros t Hord; [ exact Hord | ].
  rewrite code1_turn. cbv zeta.
  set (t0 := if stop_requested turn then set_thread_active false t else t).
  assert (Hord0 : log_ordered t0).
  { unfold t0. destruct (stop_requested turn); exact Hord. }
  clearbody t0.
  destruct (negb (thread_active t0)); [ exact Hord0 | ].
  destruct (cap_read turn) as [f | ]; [ | exact Hord0 ].
  destruct (code1_count_total f (set_frame_number (frame_number t0 + 1) t0))
    as (recs & t' & -> & _ & Hfr & Hfn & Hd & _).
  cbn in Hfr, Hfn, Hd.
  assert (Hord2 : log_ordered (set_debris_data (debris_data t' ++ recs) t')).
  { apply (log_ordered_extend t0 _ recs Hord0); cbn.
    - lia.
    - now rewrite Hd.
    - now rewrite Hfn. }
  destruct (Z.eqb (Z.land (waitKey turn) 255) ord_q);
    [ exact Hord2 | now apply IH ].
Qed.

End LogOrder.

(** C8: whatever turns the capture loop of [src/code1.py] takes on a tracker
    that was just built and started, the frame numbers of the log, read in
    insertion order, never decrease (and none exceeds the frame counter);
    and the records returned by one call of [count_and_track_debris] all
    carry the frame number the tracker had at that call. *)
Theorem log_frame_numbers_never_decrease :
  forall (env : Env) (MinArea MaxArea : Z) (Enabled : bool) (mog2 : bgmodel)
         (turns : list Turn),
    (exists ns : list Z,
        map record_frame
          (debris_data
             (snd (Code1.update_debris_info turns
                     (snd (Code1.start_tracking
                             (Code1.__init__ MinArea MaxArea Enabled mog2))))))
        = map Some ns
        /\ Sorted Z.le ns
        /\ (forall i j : nat,
              (i <= j < length ns)%nat -> nth i ns 0 <= nth j ns 0))
    /\ (forall (f : frame) (t : Tracker),
          exists recs t',
            Code1.count_and_track_debris f t = (inr recs, t')
            /\ Forall (fun r => record_frame r = Some (frame_number t)) recs).
Proof.
  intros env MinArea MaxArea Enabled mog2 turns. split.
  - destruct (code1_loop_keeps_order turns
                (snd (Code1.start_tracking
                        (Code1.__init__ MinArea MaxArea Enabled mog2))))
      as (ns & Hmap & Hs & _).
    { exists []. cbn. repeat split; constructor. }
    exists ns. split; [ exact Hmap | split ].
    + now apply StronglySorted_Sorted.
    + clear Hmap. induction Hs as [ | n ns Hs IH Hn ]; intros i j Hij.
      * cbn in Hij. lia.
      * destruct i as [ | i ], j as [ | j ]; cbn in *; try lia.
        -- rewrite Forall_forall in Hn. apply Hn, nth_In. lia.
        -- apply IH. lia.
  - intros f t.
    destruct (code1_count_total f t) as (recs & t' & H & _ & Hfr & _).
    eauto.
Qed.

Lemma log_frame_numbers_never_decrease_witness :
  exists ns : list Z,
    map record_frame
      (debris_data
         (snd (@Code1.update_debris_info bench_env four_turns started)))
    = map Some ns
    /\ Sorted Z.le ns.
Proof.
  destruct (proj1 (log_frame_numbers_never_decrease bench_env 50 1000 true
                     0%nat four_turns)) as (ns & Hmap & Hs & _).
  exists ns. split; [ exact Hmap | exact Hs ].
Defined.

(** ** The detection counter *)

Section Counter.
Context {env : Env} {codec : Codec}.

Lemma code1_loop_counts (turns : list Turn) :
  forall t : Tracker,
    debris_counter (snd (Code1.update_debris_info turns t)) - debris_counter t
    = Z.of_nat (length (debris_data (snd (Code1.update_debris_info turns t))))
      - Z.of_nat (length (debris_data t)).
Proof.
  induction turns as [ | turn later IH ]; intro t; [ cbn; lia | ].
  rewrite code1_turn. cbv zeta.
  set (t0 := if stop_requested turn then set_thread_active false t else t).
  assert (H0 : debris_counter t0 = debris_counter t
               /\ debris_data t0 = debris_data t).
  { unfold t0. destruct (stop_requested turn); split; reflexivity. }
  destruct H0 as [Hc0 Hd0]. clearbody t0.
  destruct (negb (thread_active t0)); [ cbn; rewrite Hc0, Hd0; lia | ].
  destruct (cap_read turn) as [f | ]; [ | cbn; rewrite Hc0, Hd0; lia ].
  destruct (code1_count_total f (set_frame_number (frame_number t0 + 1) t0))
    as (recs & t' & -> & Hc & _ & _ & Hd & _).
  cbn in Hc, Hd.
  set (t2 := set_debris_data (debris_data t' ++ recs) t').
  assert (H2 : debris_counter t2 - debris_counter t
               = Z.of_nat (length (debris_data t2))
                 - Z.of_nat (length (debris_data t))).
  { unfold t2. cbn. rewrite Hc, Hd, Hc0, Hd0, length_app, Nat2Z.inj_add. lia. }
  destruct (Z.eqb (Z.land (waitKey turn) 255) ord_q); [ exact H2 | ].
  specialize (IH t2). lia.
Qed.

Lemma sdt_loop_counts (turns : list Turn) :
  forall t : Tracker,
    debris_counter (snd (SDT.update_debris_info turns t)) - debris_counter t
    = Z.of_nat (length (debris_data (snd (SDT.update_debris_info turns t))))
      - Z.of_nat (length (debris_data t)).
Proof.
  induction turns as [ | turn later IH ]; intro t; [ cbn; lia | ].
  rewrite sdt_turn. cbv zeta.
  set (t0 := if stop_requested turn then set_thread_active false t else t).
  assert (H0 : debris_counter t0 = debris_counter t
               /\ debris_data t0 = debris_data t).
  { unfold t0. destruct (stop_requested turn); split; reflexivity. }
  destruct H0 as [Hc0 Hd0]. clearbody t0.
  destruct (negb (thread_active t0)); [ cbn; rewrite Hc0, Hd0; lia | ].
  destruct (cap_read turn) as [f | ]; [ | cbn; rewrite Hc0, Hd0; lia ].
  destruct (sdt_count_cases f (set_frame_number (frame_number t0 + 1) t0))
    as [(recs & t' & -> & Hc & Hd) | (e & t' & -> & Hc & Hd)];
    cbn in Hc, Hd.
  - set (t2 := set_debris_data (debris_data t' ++ recs) t').
    assert (H2 : debris_counter t2 - debris_counter t
                 = Z.of_nat (length (debris_data t2))
                   - Z.of_nat (length (debris_data t))).
    { unfold t2. cbn. rewrite Hc, Hd, Hc0, Hd0, length_app, Nat2Z.inj_add.
      lia. }
    destruct (Z.eqb (Z.land (waitKey turn) 255) ord_q); [ exact H2 | ].
    specialize (IH t2). lia.
  - cbn. rewrite Hc, Hd, Hc0, Hd0. lia.
Qed.

Lemma count_each_counts (fs : list frame) :
  forall t : Tracker,
    exists all t',
      count_each fs t = (inr all, t')
      /\ debris_counter t' = debris_counter t + Z.of_nat (length all).
Proof.
  induction fs as [ | f fs IH ]; intro t.
  - exists [], t. cbn. split; [ reflexivity | lia ].
  - cbn [count_each]. unfold bind.
    destruct (code1_count_total f t) as (recs & t1 & -> & Hc & _).
    destruct (IH t1) as (more & t' & -> & Hc').
    exists (recs ++ more), t'. split; [ reflexivity | ].
    rewrite length_app, Nat2Z.inj_add. lia.
Qed.

Lemma for_row_in_keeps_counter (rows : list (list string)) :
  forall t : Tracker,
    debris_counter (snd (Code1.for_row_in rows t)) = debris_counter t.
Proof.
  induction rows as [ | row rows IH ]; intro t; [ reflexivity | ].
  cbn [Code1.for_row_in]. unfold bind, lift, modify.
  destruct (Code1.decrypt_row row) as [e | cells]; [ reflexivity | ].
  rewrite IH. reflexivity.
Qed.

Lemma load_keeps_counter (file : option csv_file) (t : Tracker) :
  debris_counter (snd (Code1.load_debris_data file t)) = debris_counter t.
Proof.
  unfold Code1.load_debris_data, try_except, bind, lift, modify, ret.
  destruct file as [[ | hd rows] | ]; cbn; try reflexivity.
  pose proof (for_row_in_keeps_counter rows (set_debris_data [] t)) as H.
  destruct (Code1.for_row_in rows (set_debris_data [] t)) as [[e | u] t'];
    exact H.
Qed.

End Counter.

(** C10: [debris_counter] counts the records that [count_and_track_debris]
    has returned.  One call raises it by the number of records it returns,
    in both files (and leaves it alone when the call of
    [src/space_debris_tracker.py] raises); from construction, after calls on
    any frames it equals the number of records returned so far; the capture
    loop moves it by exactly the number of records it appended to the log;
    and no other method of the tracker changes it. *)
Theorem counter_counts_returned_records :
  forall (env : Env) (codec : Codec),
    (forall (f : frame) (t : Tracker),
        exists recs t',
          Code1.count_and_track_debris f t = (inr recs, t')
          /\ debris_counter t' = debris_counter t + Z.of_nat (length recs))
    /\ (forall (f : frame) (t : Tracker),
          (exists recs t',
              SDT.count_and_track_debris f t = (inr recs, t')
              /\ debris_counter t'
                 = debris_counter t + Z.of_nat (length recs))
          \/ (exists e t',
                SDT.count_and_track_debris f t = (inl e, t')
                /\ debris_counter t' = debris_counter t))
    /\ (forall (MinArea MaxArea : Z) (Enabled : bool) (mog2 : bgmodel)
               (fs : list frame),
          exists all t',
            count_each fs (Code1.__init__ MinArea MaxArea Enabled mog2)
            = (inr all, t')
            /\ debris_counter t' = Z.of_nat (length all))
    /\ (forall (turns : list Turn) (t : Tracker),
          debris_counter (snd (Code1.update_debris_info turns t))
          - debris_counter t
          = Z.of_nat
              (length (debris_data (snd (Code1.update_debris_info turns t))))
            - Z.of_nat (length (debris_data t)))
    /\ (forall (turns : list Turn) (t : Tracker),
          debris_counter (snd (SDT.update_debris_info turns t))
          - debris_counter t
          = Z.of_nat
              (length (debris_data (snd (SDT.update_debris_info turns t))))
            - Z.of_nat (length (debris_data t)))
    /\ (forall (t : Tracker) (file : option csv_file) (n : Z),
          debris_counter (snd (Code1.start_tracking t)) = debris_counter t
          /\ debris_counter (snd (Code1.stop_tracking t)) = debris_counter t
          /\ debris_counter (snd (Code1.toggle_visualization t))
             = debris_counter t
          /\ debris_counter (snd (Code1.set_min_area n t)) = debris_counter t
          /\ debris_counter (snd (Code1.set_max_area n t)) = debris_counter t
          /\ debris_counter (snd (Code1.load_debris_data file t))
             = debris_counter t
          /\ debris_counter (snd (SDT.start_tracking t)) = debris_counter t
          /\ debris_counter (snd (SDT.stop_tracking t)) = debris_counter t).
Proof.
  intros env codec. repeat apply conj.
  - intros f t.
    destruct (code1_count_total f t) as (recs & t' & H & Hc & _). eauto.
  - intros f t.
    destruct (sdt_count_cases f t)
      as [(recs & t' & H & Hc & _) | (e & t' & H & Hc & _)];
      [ left | right ]; eauto.
  - intros MinArea MaxArea Enabled mog2 fs.
    destruct (count_each_counts fs
                (Code1.__init__ MinArea MaxArea Enabled mog2))
      as (all & t' & H & Hc).
    exists all, t'. split; [ exact H | ]. rewrite Hc. cbn. lia.
  - intros. apply code1_loop_counts.
  - intros. apply sdt_loop_counts.
  - intros t file n. repeat split. apply load_keeps_counter.
Qed.

(** C2 fails on [load_debris_data] of [src/code1.py]: the log is emptied
    before the first row is read and rows are appended as they decode.  On a
    file whose second data row does not decode, the tracker that held one
    detection is left with the first row of the file and has lost what it
    held; on a file whose first data row does not decode it is left empty.
    The failure itself is caught. *)
Theorem failed_load_replaces_log :
  @Code1.decrypt_row hex_codec ["b'31'"; "garbled"; "b'74'"; "b'38'"; "b'39'"]
  = inl InvalidToken
  /\ @Code1.load_debris_data bench_env hex_codec (Some half_good_file)
       with_one_detection
     = (inr tt,
        @set_debris_data bench_env
          [[VStr "7"; VStr "old"; VStr "t"; VStr "8"; VStr "9"]]
          with_one_detection)
  /\ debris_data
       (snd (@Code1.load_debris_data bench_env hex_codec (Some half_good_file)
               with_one_detection))
     <> debris_data with_one_detection
  /\ @Code1.load_debris_data bench_env hex_codec (Some garbled_file)
       with_one_detection
     = (inr tt, @set_debris_data bench_env [] with_one_detection)
  /\ @Code1.load_debris_data bench_env hex_codec None with_one_detection
     = (inr tt, with_one_detection).
Proof.
  repeat split. discriminate.
Qed.

(** The stored cell is not the token but its [repr], [b'...']: a decoder
    that undoes the encoder on bare tokens only rejects every stored cell,
    and loading what was just saved leaves the log empty. *)
Remark bare_token_decoder_rejects_stored_cell :
  @decrypt_message bare_hex_codec "3530" = inr "50"
  /\ @stored_cell bare_hex_codec "50" = "b'3530'"
  /\ @decrypt_message bare_hex_codec "b'3530'" = inl InvalidToken
  /\ @Code1.load_debris_data bench_env bare_hex_codec
       (Some (@Code1.save_debris_data bench_env bare_hex_codec
                with_one_detection))
       with_one_detection
     = (inr tt, @set_debris_data bench_env [] with_one_detection).
Proof. repeat split. Qed.

(* ================================================================= *)
(** * Further properties *)

(** ** The detection call, further *)

Section CallFacts.
Context {env : Env}.

Lemma segmentation_image_stage (f : frame) (t : Tracker) :
  segmentation f t
  = (fst (image_stage (background_subtractor t) f),
     set_background_subtractor
       (snd (image_stage (background_subtractor t) f)) t).
Proof.
  unfold segmentation, image_stage, bind, background_subtractor_apply, lift.
  destruct (bs_apply (background_subtractor t) f) as [[e | m] g];
    [ reflexivity | ].
  destruct (medianBlur m 5) as [e | m1]; [ reflexivity | ].
  destruct (threshold m1 127 255) as [e | m2]; reflexivity.
Qed.

Lemma records_from_detections (fn : Z) (k : nat) (cs : list Contour) :
  Forall (detection_of_frame fn) (records_from fn k cs).
Proof.
  revert k. induction cs as [ | c cs IH ]; intro k; cbn; constructor;
    [ | apply IH ].
  unfold detection_of_frame, record_of. eauto.
Qed.

(** Everything one call of [count_and_track_debris] of [src/code1.py]
    does to the tracker. *)
Lemma code1_count_full (f : frame) (t : Tracker) :
  exists recs t',
    Code1.count_and_track_debris f t = (inr recs, t')
    /\ frame_number t' = frame_number t
    /\ debris_data t' = debris_data t
    /\ Forall (detection_of_frame (frame_number t)) recs
    /\ debris_counter t' = debris_counter t + Z.of_nat (length recs)
    /\ clock_reads t' = (clock_reads t + length recs)%nat
    /\ thread_active t' = thread_active t
    /\ min_area t' = min_area t
    /\ max_area t' = max_area t
    /\ visualization_enabled t' = visualization_enabled t.
Proof.
  pose proof (segmentation_image_stage f t) as Hseg.
  destruct (image_stage (background_subtractor t) f) as [[e | cs] g];
    cbn [fst snd] in Hseg.
  - rewrite (code1_count_caught f t _ e Hseg).
    eexists. eexists. split; [ reflexivity | ]. cbn.
    repeat split; try constructor; try lia.
  - rewrite (code1_count_found f t _ cs Hseg).
    eexists. eexists. split; [ reflexivity | ].
    unfold returned, left_by, after_records. cbn.
    rewrite records_from_length.
    repeat split; try lia. apply records_from_detections.
Qed.

(** The same for [src/space_debris_tracker.py], where the call may raise. *)
Lemma sdt_count_full (f : frame) (t : Tracker) :
  exists r t',
    SDT.count_and_track_debris f t = (r, t')
    /\ frame_number t' = frame_number t
    /\ debris_data t' = debris_data t
    /\ thread_active t' = thread_active t
    /\ min_area t' = min_area t
    /\ max_area t' = max_area t
    /\ visualization_enabled t' = visualization_enabled t
    /\ match r with
       | inl _ =>
           debris_counter t' = debris_counter t
           /\ clock_reads t' = clock_reads t
       | inr recs =>
           Forall (detection_of_frame (frame_number t)) recs
           /\ debris_counter t' = debris_counter t + Z.of_nat (length recs)
           /\ clock_reads t' = (clock_reads t + length recs)%nat
       end.
Proof.
  pose proof (segmentation_image_stage f t) as Hseg.
  destruct (image_stage (background_subtractor t) f) as [[e | cs] g];
    cbn [fst snd] in Hseg.
  - rewrite (sdt_count_raised f t _ e Hseg).
    eexists. eexists. split; [ reflexivity | ]. cbn. repeat split.
  - rewrite (sdt_count_found f t _ cs Hseg).
    eexists. eexists. split; [ reflexivity | ].
    unfold returned, left_by, after_records. cbn.
    rewrite records_from_length.
    repeat split; try lia. apply records_from_detections.
Qed.

Lemma emits_widened (lo hi lo' hi' : Z) (c : Contour) :
  lo' <= lo -> hi <= hi' ->
  emits lo hi c = true -> emits lo' hi' c = true.
Proof.
  intros Hlo Hhi Hem.
  apply emits_in_band in Hem. destruct Hem as (H1 & H2 & H3).
  unfold emits, in_area_band.
  rewrite !andb_true_iff, !py_lt_iff, py_ne_iff.
  repeat split; [ | | exact H3 ].
  - eapply Qle_lt_trans; [ | exact H1 ]. now rewrite <- Zle_Qle.
  - eapply Qlt_le_trans; [ exact H2 | ]. now rewrite <- Zle_Qle.
Qed.

Lemma emits_empty_band (lo hi : Z) (c : Contour) :
  hi <= lo -> emits lo hi c = false.
Proof.
  intro Hle. destruct (emits lo hi c) eqn:Hem; [ | reflexivity ].
  apply emits_in_band in Hem. destruct Hem as (H1 & H2 & _).
  rewrite Zle_Qle in Hle.
  destruct (Qlt_not_le _ _ (Qlt_trans _ _ _ H1 H2) Hle).
Qed.

Lemma filter_length_le {A : Type} (p q : A -> bool) (l : list A) :
  (forall x, p x = true -> q x = true) ->
  (length (filter p l) <= length (filter q l))%nat
  /\ incl (filter p l) (filter q l).
Proof.
  intro Hpq. split.
  - induction l as [ | a l IH ]; cbn; [ lia | ].
    destruct (p a) eqn:Hp.
    + rewrite (Hpq a Hp). cbn. lia.
    + destruct (q a); cbn; lia.
  - intros x Hx. apply filter_In in Hx. destruct Hx as [Hin Hp].
    apply filter_In. split; [ exact Hin | now apply Hpq ].
Qed.

End CallFacts.

(** ** The capture loop, turn by turn *)

Section TurnCases.
Context {env : Env}.

Lemma inactive_is_stopped (t : Tracker) :
  thread_active t = false -> set_thread_active false t = t.
Proof. destruct t; cbn; intro H; subst; reflexivity. Qed.

Lemma code1_frame_step (f : frame) (t : Tracker) :
  exists recs t2,
    (let (r, t') :=
       Code1.count_and_track_debris f
         (set_frame_number (frame_number t + 1) t) in
     match r with
     | inr recs' => recs' = recs
                    /\ set_debris_data (debris_data t' ++ recs') t' = t2
     | inl _ => False
     end)
    /\ one_frame_step t recs t2.
Proof.
  destruct (code1_count_full f (set_frame_number (frame_number t + 1) t))
    as (recs & t' & -> & Hfn & Hd & Hsh & Hc & Hk & Ha & Hlo & Hhi & Hv).
  cbn in Hfn, Hd, Hsh, Hc, Hk, Ha, Hlo, Hhi, Hv.
  exists recs, (set_debris_data (debris_data t' ++ recs) t').
  split; [ split; reflexivity | ].
  unfold one_frame_step. cbn. rewrite Hd. repeat split; assumption.
Qed.

(** The four ways a turn of [src/code1.py] can go. *)
Lemma code1_turn_cases (turn : Turn) (later : list Turn) (t : Tracker) :
  ((stop_requested turn = true \/ thread_active t = false)
   /\ Code1.update_debris_info (turn :: later) t
      = (inr FlagCleared, set_thread_active false t))
  \/ (stop_requested turn = false /\ thread_active t = true
      /\ cap_read turn = None
      /\ Code1.update_debris_info (turn :: later) t
         = (inr FrameCaptureFailed, t))
  \/ (stop_requested turn = false /\ thread_active t = true
      /\ exists f recs t2,
           cap_read turn = Some f
           /\ one_frame_step t recs t2
           /\ ((quit_pressed turn = true
                /\ Code1.update_debris_info (turn :: later) t
                   = (inr QuitKey, t2))
               \/ (quit_pressed turn = false
                   /\ Code1.update_debris_info (turn :: later) t
                      = Code1.update_debris_info later t2))).
Proof.
  rewrite code1_turn. cbv zeta.
  destruct (stop_requested turn) eqn:Hstop.
  { left. split; [ now left | reflexivity ]. }
  destruct (thread_active t) eqn:Hact; cbn [negb].
  2:{ left. split; [ now right | ]. now rewrite inactive_is_stopped. }
  right.
  destruct (cap_read turn) as [f | ] eqn:Hread.
  2:{ left. repeat split. }
  right. split; [ reflexivity | split; [ reflexivity | ] ].
  destruct (code1_frame_step f t) as (recs & t2 & Hrun & Hstep).
  destruct (Code1.count_and_track_debris f
              (set_frame_number (frame_number t + 1) t)) as [[e | recs'] t'];
    [ contradiction | ].
  destruct Hrun as [-> <-].
  exists f, recs, (set_debris_data (debris_data t' ++ recs) t').
  split; [ reflexivity | split; [ exact Hstep | ] ].
  unfold quit_pressed.
  destruct (Z.eqb (Z.land (waitKey turn) 255) ord_q); [ left | right ];
    split; reflexivity.
Qed.

(** The five ways a turn of [src/space_debris_tracker.py] can go. *)
Lemma sdt_turn_cases (turn : Turn) (later : list Turn) (t : Tracker) :
  ((stop_requested turn = true \/ thread_active t = false)
   /\ SDT.update_debris_info (turn :: later) t
      = (inr FlagCleared, set_thread_active false t))
  \/ (stop_requested turn = false /\ thread_active t = true
      /\ cap_read turn = None
      /\ SDT.update_debris_info (turn :: later) t
         = (inr FrameCaptureFailed, t))
  \/ (stop_requested turn = false /\ thread_active t = true
      /\ exists f e t2,
           cap_read turn = Some f
           /\ one_frame_step t [] t2
           /\ SDT.update_debris_info (turn :: later) t = (inl e, t2))
  \/ (stop_requested turn = false /\ thread_active t = true
      /\ exists f recs t2,
           cap_read turn = Some f
           /\ one_frame_step t recs t2
           /\ ((quit_pressed turn = true
                /\ SDT.update_debris_info (turn :: later) t
                   = (inr QuitKey, t2))
               \/ (quit_pressed turn = false
                   /\ SDT.update_debris_info (turn :: later) t
                      = SDT.update_debris_info later t2))).
Proof.
  rewrite sdt_turn. cbv zeta.
  destruct (stop_requested turn) eqn:Hstop.
  { left. split; [ now left | reflexivity ]. }
  destruct (thread_active t) eqn:Hact; cbn [negb].
  2:{ left. split; [ now right | ]. now rewrite inactive_is_stopped. }
  right.
  destruct (cap_read turn) as [f | ] eqn:Hread.
  2:{ left. repeat split. }
  right.
  destruct (sdt_count_full f (set_frame_number (frame_number t + 1) t))
    as (r & t' & -> & Hfn & Hd & Ha & Hlo & Hhi & Hv & Hr).
  cbn in Hfn, Hd, Ha, Hlo, Hhi, Hv, Hr.
  destruct r as [e | recs].
  - left. split; [ reflexivity | split; [ reflexivity | ] ].
    exists f, e, t'. destruct Hr as [Hc Hk].
    split; [ reflexivity | split; [ | reflexivity ] ].
    unfold one_frame_step. cbn. rewrite app_nil_r.
    repeat split; try assumption; try constructor; lia.
  - right. split; [ reflexivity | split; [ reflexivity | ] ].
    destruct Hr as (Hsh & Hc & Hk).
    exists f, recs, (set_debris_data (debris_data t' ++ recs) t').
    split; [ reflexivity | split ].
    + unfold one_frame_step. cbn. rewrite Hd. repeat split; assumption.
    + unfold quit_pressed.
      destruct (Z.eqb (Z.land (waitKey turn) 255) ord_q); [ left | right ];
        split; reflexivity.
Qed.

End TurnCases.

(** ** What the capture loop does to the tracker *)

Section LoopSummary.
Context {env : Env}.

Lemma loop_effect_none (turns : list Turn) (t : Tracker) :
  loop_effect turns t t.
Proof.
  unfold loop_effect. split; [ exists [] | ].
  - rewrite app_nil_r. cbn. repeat split; [ constructor | lia | lia ].
  - repeat split; try lia. tauto.
Qed.

Lemma loop_effect_stopped (turns : list Turn) (t : Tracker) :
  loop_effect turns t (set_thread_active false t).
Proof.
  unfold loop_effect. split; [ exists [] | ].
  - rewrite app_nil_r. cbn. repeat split; [ constructor | lia | lia ].
  - cbn. repeat split; try lia; try discriminate.
Qed.

Lemma loop_effect_step (turn : Turn) (later : list Turn)
    (t t2 t' : Tracker) (recs : list pytuple) :
  one_frame_step t recs t2 ->
  loop_effect later t2 t' ->
  loop_effect (turn :: later) t t'.
Proof.
  intros (Hfn & Hd & Hsh & Hc & Hk & Ha & Hlo & Hhi & Hv)
         ((added & Hd' & Hsh' & Hc' & Hk') & Hfn' & Hlo' & Hhi' & Hv' & Ha').
  unfold loop_effect. split.
  - exists (recs ++ added). rewrite Hd', Hd, <- app_assoc.
    split; [ reflexivity | ]. split; [ | split ].
    + apply Forall_app. split.
      * eapply Forall_impl; [ | exact Hsh ]. cbn. intros rec Hrec.
        exists (frame_number t + 1). split; [ lia | exact Hrec ].
      * eapply Forall_impl; [ | exact Hsh' ]. cbn.
        intros rec (n & Hn & Hrec). exists n. split; [ lia | exact Hrec ].
    + rewrite Hc', Hc, length_app, Nat2Z.inj_add. lia.
    + rewrite Hk', Hk, length_app. lia.
  - cbn [length]. rewrite Nat2Z.inj_succ.
    repeat split; try congruence; try lia.
    intro H. rewrite <- Ha. now apply Ha'.
Qed.

Lemma loop_effect_last (turn : Turn) (later : list Turn)
    (t t2 : Tracker) (recs : list pytuple) :
  one_frame_step t recs t2 ->
  loop_effect (turn :: later) t t2.
Proof.
  intro Hstep.
  apply (loop_effect_step turn later t t2 t2 recs Hstep).
  apply loop_effect_none.
Qed.

Lemma code1_loop_summary (turns : list Turn) :
  forall (t : Tracker) (r : loop_end) (t' : Tracker),
    Code1.update_debris_info turns t = (inr r, t') ->
    loop_effect turns t t' /\ end_explained turns t r t'.
Proof.
  induction turns as [ | turn later IH ]; intros t r t' Hrun.
  - cbn in Hrun. inversion Hrun; subst. split; [ apply loop_effect_none | ].
    cbn. repeat split; [ lia | constructor ].
  - destruct (code1_turn_cases turn later t)
      as [(Hwhy & Heq)
         | [(Hs & Ha & Hr & Heq)
           | (Hs & Ha & f & recs & t2 & Hr & Hstep & Hkey)]].
    + rewrite Heq in Hrun. inversion Hrun; subst.
      split; [ apply loop_effect_stopped | ].
      cbn. split; [ reflexivity | ].
      destruct Hwhy as [H | H]; [ right; now constructor | now left ].
    + rewrite Heq in Hrun. inversion Hrun; subst.
      split; [ apply loop_effect_none | ].
      cbn. split; [ exact Ha | now constructor ].
    + pose proof Hstep as (Hfn & _ & _ & _ & _ & Hact & _).
      destruct Hkey as [(Hq & Heq) | (Hq & Heq)]; rewrite Heq in Hrun.
      * inversion Hrun; subst.
        split; [ now apply (loop_effect_last _ _ _ _ recs) | ].
        cbn. split; [ congruence | split; [ lia | ] ].
        constructor. split; [ congruence | exact Hq ].
      * destruct (IH t2 r t' Hrun) as [Heff Hend].
        split; [ now apply (loop_effect_step _ _ _ t2 _ recs) | ].
        destruct Heff as (_ & Hbound & _).
        destruct r; cbn in Hend |- *.
        -- destruct Hend as (H1 & H2 & H3).
           split; [ congruence | split ].
           ++ rewrite H2, Hfn. cbn [length]. lia.
           ++ constructor; [ | exact H3 ].
              repeat split; [ exact Hs | congruence | exact Hq ].
        -- destruct Hend as (H1 & [H2 | H2]); split; try exact H1.
           ++ congruence.
           ++ right. now constructor.
        -- destruct Hend as (H1 & H2). split; [ exact H1 | now constructor ].
        -- destruct Hend as (H1 & H2 & H3).
           split; [ exact H1 | split; [ lia | now constructor ] ].
Qed.

Lemma sdt_loop_summary (turns : list Turn) :
  forall (t : Tracker) (res : exn + loop_end) (t' : Tracker),
    SDT.update_debris_info turns t = (res, t') ->
    loop_effect turns t t'
    /\ match res with
       | inr r => end_explained turns t r t'
       | inl _ => thread_active t' = true
                  /\ frame_number t < frame_number t'
                  /\ Exists (fun turn => cap_read turn <> None) turns
       end.
Proof.
  induction turns as [ | turn later IH ]; intros t res t' Hrun.
  - cbn in Hrun. inversion Hrun; subst. split; [ apply loop_effect_none | ].
    cbn. repeat split; [ lia | constructor ].
  - destruct (sdt_turn_cases turn later t)
      as [(Hwhy & Heq)
         | [(Hs & Ha & Hr & Heq)
           | [(Hs & Ha & f & e & t2 & Hr & Hstep & Heq)
             | (Hs & Ha & f & recs & t2 & Hr & Hstep & Hkey)]]].
    + rewrite Heq in Hrun. inversion Hrun; subst.
      split; [ apply loop_effect_stopped | ].
      cbn. split; [ reflexivity | ].
      destruct Hwhy as [H | H]; [ right; now constructor | now left ].
    + rewrite Heq in Hrun. inversion Hrun; subst.
      split; [ apply loop_effect_none | ].
      cbn. split; [ exact Ha | now constructor ].
    + rewrite Heq in Hrun. inversion Hrun; subst.
      pose proof Hstep as (Hfn & _ & _ & _ & _ & Hact & _).
      split; [ now apply (loop_effect_last _ _ _ _ []) | ].
      split; [ congruence | split; [ lia | ] ].
      constructor. congruence.
    + pose proof Hstep as (Hfn & _ & _ & _ & _ & Hact & _).
      destruct Hkey as [(Hq & Heq) | (Hq & Heq)]; rewrite Heq in Hrun.
      * inversion Hrun; subst.
        split; [ now apply (loop_effect_last _ _ _ _ recs) | ].
        cbn. split; [ congruence | split; [ lia | ] ].
        constructor. split; [ congruence | exact Hq ].
      * destruct (IH t2 res t' Hrun) as [Heff Hend].
        split; [ now apply (loop_effect_step _ _ _ t2 _ recs) | ].
        destruct Heff as (_ & Hbound & _).
        destruct res as [e | r].
        { destruct Hend as (H1 & H2 & H3).
          split; [ exact H1 | split; [ lia | now constructor ] ]. }
        destruct r; cbn in Hend |- *.
        -- destruct Hend as (H1 & H2 & H3).
           split; [ congruence | split ].
           ++ rewrite H2, Hfn. cbn [length]. lia.
           ++ constructor; [ | exact H3 ].
              repeat split; [ exact Hs | congruence | exact Hq ].
        -- destruct Hend as (H1 & [H2 | H2]); split; try exact H1.
           ++ congruence.
           ++ right. now constructor.
        -- destruct Hend as (H1 & H2). split; [ exact H1 | now constructor ].
        -- destruct Hend as (H1 & H2 & H3).
           split; [ exact H1 | split; [ lia | now constructor ] ].
Qed.

End LoopSummary.

(** ** Thresholds and what a call returns *)

Lemma records_from_centroids {env : Env} (fn : Z) (k : nat)
    (cs : list Contour) :
  map (skipn 3) (records_from fn k cs)
  = map (fun c => skipn 3 (record_of fn EmptyString c)) cs.
Proof.
  revert k. induction cs as [ | c cs IH ]; intro k; cbn; [ reflexivity | ].
  now rewrite IH.
Qed.

Lemma records_from_clock {env : Env} (fn : Z) (k : nat) (cs : list Contour) :
  Forall2
    (fun r i =>
       exists x y,
         r = [VInt fn; VStr "Space Debris"; VStr (strftime_now i);
              VInt x; VInt y])
    (records_from fn k cs) (seq k (length cs)).
Proof.
  revert k. induction cs as [ | c cs IH ]; intro k; cbn; constructor;
    [ | apply IH ].
  unfold record_of. eauto.
Qed.

(** X1: lowering [min_area] and raising [max_area] through the setters of
    [src/code1.py] never loses a detection: on the same frame the call then
    returns at least as many records, and the centroid of every record
    returned before is among the centroids returned after. *)
Theorem widening_thresholds_keeps_detections :
  forall (env : Env) (f : frame) (t : Tracker) (lo hi : Z),
    lo <= min_area t ->
    max_area t <= hi ->
    exists recs s recs' s',
      Code1.count_and_track_debris f t = (inr recs, s)
      /\ Code1.count_and_track_debris f
           (snd (Code1.set_max_area hi (snd (Code1.set_min_area lo t))))
         = (inr recs', s')
      /\ (length recs <= length recs')%nat
      /\ incl (map (skipn 3) recs) (map (skipn 3) recs').
Proof.
  intros env f t lo hi Hlo Hhi.
  set (wide := snd (Code1.set_max_area hi (snd (Code1.set_min_area lo t)))).
  pose proof (segmentation_image_stage f t) as Hseg.
  pose proof (segmentation_image_stage f wide) as Hseg'.
  change (background_subtractor wide) with (background_subtractor t) in Hseg'.
  destruct (image_stage (background_subtractor t) f) as [[e | cs] g];
    cbn [fst snd] in Hseg, Hseg'.
  - rewrite (code1_count_caught f t _ e Hseg).
    rewrite (code1_count_caught f wide _ e Hseg').
    do 4 eexists. repeat split; [ cbn; lia | apply incl_refl ].
  - rewrite (code1_count_found f t _ cs Hseg).
    rewrite (code1_count_found f wide _ cs Hseg').
    do 4 eexists. split; [ reflexivity | split; [ reflexivity | ] ].
    unfold returned. cbn [wide].
    change (min_area wide) with lo. change (max_area wide) with hi.
    change (frame_number wide) with (frame_number t).
    rewrite !records_from_length, !records_from_centroids.
    destruct (filter_length_le (emits (min_area t) (max_area t))
                (emits lo hi) cs) as [Hlen Hincl].
    { intros c. now apply emits_widened. }
    split; [ exact Hlen | ].
    intros p Hp. apply in_map_iff in Hp. destruct Hp as (c & <- & Hc).
    apply in_map_iff. exists c. split; [ reflexivity | now apply Hincl ].
Qed.

Lemma widening_thresholds_keeps_detections_witness :
  exists recs s recs' s',
    @Code1.count_and_track_debris bench_env (Blobs [blob_50; blob_120])
      tracker0 = (inr recs, s)
    /\ @Code1.count_and_track_debris bench_env (Blobs [blob_50; blob_120])
         (snd (Code1.set_max_area 2000 (snd (Code1.set_min_area 10 tracker0))))
       = (inr recs', s')
    /\ (length recs <= length recs')%nat.
Proof.
  assert (Hlo : 10 <= min_area tracker0) by (cbn; lia).
  assert (Hhi : max_area tracker0 <= 2000) by (cbn; lia).
  destruct (widening_thresholds_keeps_detections bench_env
              (Blobs [blob_50; blob_120]) tracker0 10 2000 Hlo Hhi)
    as (recs & s & recs' & s' & H1 & H2 & H3 & _).
  exists recs, s, recs', s'. repeat split; assumption.
Defined.

Section EmptyBand.
Context {env : Env}.

Lemma code1_count_empty_band (f : frame) (t : Tracker) :
  max_area t <= min_area t ->
  fst (Code1.count_and_track_debris f t) = inr [].
Proof.
  intro Hband.
  pose proof (segmentation_image_stage f t) as Hseg.
  destruct (image_stage (background_subtractor t) f) as [[e | cs] g];
    cbn [fst snd] in Hseg.
  - now rewrite (code1_count_caught f t _ e Hseg).
  - rewrite (code1_count_found f t _ cs Hseg). cbn [fst]. unfold returned.
    replace (filter (emits (min_area t) (max_area t)) cs) with (@nil Contour);
      [ reflexivity | ].
    symmetry. clear Hseg.
    induction cs as [ | c cs IH ]; cbn; [ reflexivity | ].
    now rewrite (emits_empty_band _ _ c Hband).
Qed.

Lemma sdt_count_empty_band (f : frame) (t : Tracker)
    (recs : list pytuple) (s : Tracker) :
  max_area t <= min_area t ->
  SDT.count_and_track_debris f t = (inr recs, s) -> recs = [].
Proof.
  intros Hband Hrun.
  pose proof (code1_count_empty_band f t Hband) as Hc1.
  pose proof (segmentation_image_stage f t) as Hseg.
  destruct (image_stage (background_subtractor t) f) as [[e | cs] g];
    cbn [fst snd] in Hseg.
  - rewrite (sdt_count_raised f t _ e Hseg) in Hrun. discriminate.
  - rewrite (sdt_count_found f t _ cs Hseg) in Hrun.
    rewrite (code1_count_found f t _ cs Hseg) in Hc1. cbn in Hc1.
    inversion Hrun; subst. now inversion Hc1.
Qed.

Lemma code1_loop_empty_band (turns : list Turn) :
  forall t : Tracker,
    max_area t <= min_area t ->
    debris_data (snd (Code1.update_debris_info turns t)) = debris_data t.
Proof.
  induction turns as [ | turn later IH ]; intros t Hband; [ reflexivity | ].
  rewrite code1_turn. cbv zeta.
  set (t0 := if stop_requested turn then set_thread_active false t else t).
  assert (H0 : debris_data t0 = debris_data t
               /\ max_area t0 <= min_area t0).
  { unfold t0. destruct (stop_requested turn); split; cbn; auto. }
  destruct H0 as [Hd0 Hband0]. clearbody t0.
  destruct (negb (thread_active t0)); [ exact Hd0 | ].
  destruct (cap_read turn) as [f | ]; [ | exact Hd0 ].
  pose proof (code1_count_empty_band f
                (set_frame_number (frame_number t0 + 1) t0) Hband0) as Hnone.
  destruct (code1_count_full f (set_frame_number (frame_number t0 + 1) t0))
    as (recs & t' & Hrun & _ & Hd & _ & _ & _ & _ & Hlo & Hhi & _).
  rewrite Hrun in Hnone |- *. cbn in Hnone, Hd, Hlo, Hhi.
  inversion Hnone; subst recs. rewrite app_nil_r.
  assert (Hsame : debris_data (set_debris_data (debris_data t') t')
                  = debris_data t) by (cbn; congruence).
  destruct (Z.eqb (Z.land (waitKey turn) 255) ord_q); [ exact Hsame | ].
  rewrite IH; [ exact Hsame | cbn; lia ].
Qed.

End EmptyBand.

(** X2: the thresholds are never checked against each other; when
    [max_area <= min_area] no contour can pass the test, so every call
    returns the empty list without touching the counter, in both files, and
    the capture loop of [src/code1.py] never adds to the log. *)
Theorem crossed_thresholds_record_nothing :
  forall (env : Env) (f : frame) (turns : list Turn) (t : Tracker),
    max_area t <= min_area t ->
    (exists t',
        Code1.count_and_track_debris f t = (inr [], t')
        /\ debris_counter t' = debris_counter t)
    /\ (forall recs s,
          SDT.count_and_track_debris f t = (inr recs, s) -> recs = [])
    /\ debris_data (snd (Code1.update_debris_info turns t)) = debris_data t.
Proof.
  intros env f turns t Hband. split; [ | split ].
  - pose proof (code1_count_empty_band f t Hband) as Hnone.
    destruct (code1_count_full f t)
      as (recs & t' & Hrun & _ & _ & _ & Hc & _).
    rewrite Hrun in Hnone. cbn in Hnone. inversion Hnone; subst recs.
    exists t'. split; [ exact Hrun | cbn in Hc; lia ].
  - intros recs s. now apply sdt_count_empty_band.
  - now apply code1_loop_empty_band.
Qed.

Lemma crossed_thresholds_record_nothing_witness :
  max_area Bench2.crossed_tracker <= min_area Bench2.crossed_tracker
  /\ debris_data
       (snd (@Code1.update_debris_info bench_env four_turns
               (@set_thread_active bench_env true Bench2.crossed_tracker)))
     = [].
Proof.
  assert (Hband : max_area (@set_thread_active bench_env true
                              Bench2.crossed_tracker)
                  <= min_area (@set_thread_active bench_env true
                                 Bench2.crossed_tracker))
    by (cbn; lia).
  split; [ cbn; lia | ].
  exact (proj2 (proj2 (crossed_thresholds_record_nothing bench_env
                         (Blobs [blob_120]) four_turns _ Hband))).
Defined.

(** X3: one call reads the clock once per record it returns, in the order
    of the records: the k-th record carries the k-th reading after those
    already taken, the label "Space Debris" and the frame number of the
    tracker, and the count of readings grows by the number of records. *)
Theorem records_stamped_in_clock_order :
  forall (env : Env) (f : frame) (t : Tracker),
    exists recs t',
      Code1.count_and_track_debris f t = (inr recs, t')
      /\ clock_reads t' = (clock_reads t + length recs)%nat
      /\ Forall2
           (fun r i =>
              exists x y,
                r = [VInt (frame_number t); VStr "Space Debris";
                     VStr (strftime_now i); VInt x; VInt y])
           recs (seq (clock_reads t) (length recs)).
Proof.
  intros env f t.
  pose proof (segmentation_image_stage f t) as Hseg.
  destruct (image_stage (background_subtractor t) f) as [[e | cs] g];
    cbn [fst snd] in Hseg.
  - rewrite (code1_count_caught f t _ e Hseg).
    eexists. eexists. split; [ reflexivity | ]. cbn.
    split; [ lia | constructor ].
  - rewrite (code1_count_found f t _ cs Hseg).
    eexists. eexists. split; [ reflexivity | ].
    unfold returned, left_by, after_records. cbn.
    rewrite records_from_length. split; [ reflexivity | ].
    apply records_from_clock.
Qed.

(** ** The capture loop, further *)

(** X4: the capture loop only ever appends to the log, in both files and
    however it ends (by an exception included): the entries it found are
    still there, in place, followed by the new ones, and each new entry is a
    five-field detection whose frame number lies after the frame counter at
    the start and not after the frame counter at the end. *)
Theorem capture_loop_only_appends :
  forall (env : Env) (turns : list Turn) (t : Tracker),
    (exists added,
        debris_data (snd (Code1.update_debris_info turns t))
        = debris_data t ++ added
        /\ Forall
             (fun rec =>
                exists n,
                  frame_number t < n
                  <= frame_number (snd (Code1.update_debris_info turns t))
                  /\ detection_of_frame n rec) added)
    /\ (exists added,
          debris_data (snd (SDT.update_debris_info turns t))
          = debris_data t ++ added
          /\ Forall
               (fun rec =>
                  exists n,
                    frame_number t < n
                    <= frame_number (snd (SDT.update_debris_info turns t))
                    /\ detection_of_frame n rec) added).
Proof.
  intros env turns t. split.
  - destruct (code1_loop_returns turns t) as (r & t' & Hrun).
    destruct (code1_loop_summary turns t r t' Hrun)
      as [((added & Hd & Hsh & _) & _) _].
    rewrite Hrun. cbn [snd]. eauto.
  - destruct (SDT.update_debris_info turns t) as [res t'] eqn:Hrun.
    destruct (sdt_loop_summary turns t res t' Hrun)
      as [((added & Hd & Hsh & _) & _) _].
    cbn [snd]. eauto.
Qed.

(** X5: the frame counter never goes back and moves by at most one per
    turn, in both files. *)
Theorem frame_counter_bounded_by_turns :
  forall (env : Env) (turns : list Turn) (t : Tracker),
    (frame_number t
     <= frame_number (snd (Code1.update_debris_info turns t))
     <= frame_number t + Z.of_nat (length turns))
    /\ (frame_number t
        <= frame_number (snd (SDT.update_debris_info turns t))
        <= frame_number t + Z.of_nat (length turns)).
Proof.
  intros env turns t. split.
  - destruct (code1_loop_returns turns t) as (r & t' & Hrun).
    destruct (code1_loop_summary turns t r t' Hrun) as [(_ & Hb & _) _].
    rewrite Hrun. exact Hb.
  - destruct (SDT.update_debris_info turns t) as [res t'] eqn:Hrun.
    destruct (sdt_loop_summary turns t res t' Hrun) as [(_ & Hb & _) _].
    exact Hb.
Qed.

(** X6: the capture loop never changes the two thresholds or the preview
    switch, and never sets [thread_active]: if the flag is set when the loop
    is over, it was set when the loop began.  Both files. *)
Theorem capture_loop_leaves_settings :
  forall (env : Env) (turns : list Turn) (t : Tracker),
    (min_area (snd (Code1.update_debris_info turns t)) = min_area t
     /\ max_area (snd (Code1.update_debris_info turns t)) = max_area t
     /\ visualization_enabled (snd (Code1.update_debris_info turns t))
        = visualization_enabled t
     /\ (thread_active (snd (Code1.update_debris_info turns t)) = true ->
         thread_active t = true))
    /\ (min_area (snd (SDT.update_debris_info turns t)) = min_area t
        /\ max_area (snd (SDT.update_debris_info turns t)) = max_area t
        /\ visualization_enabled (snd (SDT.update_debris_info turns t))
           = visualization_enabled t
        /\ (thread_active (snd (SDT.update_debris_info turns t)) = true ->
            thread_active t = true)).
Proof.
  intros env turns t. split.
  - destruct (code1_loop_returns turns t) as (r & t' & Hrun).
    destruct (code1_loop_summary turns t r t' Hrun) as [(_ & _ & H) _].
    rewrite Hrun. exact H.
  - destruct (SDT.update_debris_info turns t) as [res t'] eqn:Hrun.
    destruct (sdt_loop_summary turns t res t' Hrun) as [(_ & _ & H) _].
    exact H.
Qed.

Lemma capture_loop_leaves_settings_witness :
  thread_active
    (snd (@Code1.update_debris_info bench_env four_turns started)) = true
  /\ thread_active started = true.
Proof.
  split; [ reflexivity | ].
  exact (proj2 (proj2 (proj2 (proj1
           (capture_loop_leaves_settings bench_env four_turns started))))
           eq_refl).
Defined.

(** X8: when the flag is clear at the test of the [while], because the
    tracker was never started or because [stop_tracking] has just been
    called, [update_debris_info] returns at once: the frame of that turn is
    not fetched, the frame counter, the log and the counter are as they
    were, and the turns that would follow are never taken.  Both files. *)
Theorem cleared_flag_ends_loop_at_once :
  forall (env : Env) (turn : Turn) (later : list Turn) (t : Tracker),
    stop_requested turn = true \/ thread_active t = false ->
    Code1.update_debris_info (turn :: later) t
    = (inr FlagCleared, set_thread_active false t)
    /\ SDT.update_debris_info (turn :: later) t
       = (inr FlagCleared, set_thread_active false t)
    /\ frame_number (set_thread_active false t) = frame_number t
    /\ debris_data (set_thread_active false t) = debris_data t
    /\ debris_counter (set_thread_active false t) = debris_counter t.
Proof.
  intros env turn later t Hwhy. split; [ | split; [ | repeat split ] ].
  - destruct (code1_turn_cases turn later t)
      as [(_ & Heq) | [(Hs & Ha & _) | (Hs & Ha & _)]];
      [ exact Heq | | ]; destruct Hwhy; congruence.
  - destruct (sdt_turn_cases turn later t)
      as [(_ & Heq) | [(Hs & Ha & _) | [(Hs & Ha & _) | (Hs & Ha & _)]]];
      [ exact Heq | | | ]; destruct Hwhy; congruence.
Qed.

Lemma cleared_flag_ends_loop_at_once_witness :
  thread_active tracker0 = false
  /\ @Code1.update_debris_info bench_env four_turns tracker0
     = (inr FlagCleared, tracker0).
Proof.
  split; [ reflexivity | ].
  exact (proj1 (cleared_flag_ends_loop_at_once bench_env
                  (good_turn [blob_120])
                  [good_turn []; unreadable_turn; good_turn [blob_50]]
                  tracker0 (or_intror eq_refl))).
Defined.

(** X9: the quit test looks at the low byte of the key code only and comes
    last in the turn: on a turn that brought a frame, any code whose low
    byte is 113 ends the loop, after the frame has been counted and its
    records appended; [thread_active] is left set.  Stated for
    [src/code1.py]. *)
Theorem quit_key_ends_loop_after_the_frame :
  forall (env : Env) (turn : Turn) (later : list Turn) (f : frame)
         (t : Tracker),
    thread_active t = true ->
    stop_requested turn = false ->
    cap_read turn = Some f ->
    Z.land (waitKey turn) 255 = ord_q ->
    exists recs t2,
      Code1.update_debris_info (turn :: later) t = (inr QuitKey, t2)
      /\ frame_number t2 = frame_number t + 1
      /\ debris_data t2 = debris_data t ++ recs
      /\ Forall (detection_of_frame (frame_number t + 1)) recs
      /\ thread_active t2 = true.
Proof.
  intros env turn later f t Hact Hstop Hread Hkey.
  destruct (code1_turn_cases turn later t)
    as [([H | H] & _)
       | [(_ & _ & Hr & _)
         | (_ & _ & f' & recs & t2 & _ & Hstep & [(_ & Heq) | (Hq & _)])]];
    try congruence.
  - destruct Hstep as (Hfn & Hd & Hsh & _ & _ & Ha & _).
    exists recs, t2. repeat split; try assumption. congruence.
  - unfold quit_pressed in Hq. apply Z.eqb_neq in Hq. contradiction.
Qed.

Lemma quit_key_ends_loop_after_the_frame_witness :
  Z.land (@waitKey bench_env Bench2.quit_turn) 255 = ord_q
  /\ exists recs t2,
       @Code1.update_debris_info bench_env [Bench2.quit_turn; failed_read]
         started = (inr QuitKey, t2)
       /\ frame_number t2 = 1
       /\ debris_data t2 = recs.
Proof.
  split; [ reflexivity | ].
  destruct (quit_key_ends_loop_after_the_frame bench_env Bench2.quit_turn
              [failed_read] (Blobs [blob_120]) started
              eq_refl eq_refl eq_refl eq_refl)
    as (recs & t2 & Hrun & Hfn & Hd & _).
  exists recs, t2. repeat split; assumption.
Defined.

(** ** Saving and loading, further *)

Section LoadFacts.
Context {env : Env} {codec : Codec}.

Lemma set_same_log (t : Tracker) : set_debris_data (debris_data t) t = t.
Proof. destruct t; reflexivity. Qed.

Lemma for_row_in_prefix (rows : list (list string)) :
  forall t : Tracker,
    snd (Code1.for_row_in rows t)
    = set_debris_data
        (debris_data t ++ map (map VStr) (decoded_prefix rows)) t.
Proof.
  induction rows as [ | row rows IH ]; intro t.
  - cbn. rewrite app_nil_r. symmetry. apply set_same_log.
  - cbn [Code1.for_row_in decoded_prefix]. unfold bind, lift, modify.
    destruct (Code1.decrypt_row row) as [e | texts].
    + cbn. rewrite app_nil_r. symmetry. apply set_same_log.
    + rewrite IH. cbn. rewrite <- app_assoc. reflexivity.
Qed.

Lemma load_installs_prefix (hdr : list string) (rows : list (list string))
    (t : Tracker) :
  Code1.load_debris_data (Some (hdr :: rows)) t
  = (inr tt, set_debris_data (map (map VStr) (decoded_prefix rows)) t).
Proof.
  unfold Code1.load_debris_data, try_except, bind, lift, modify, ret.
  cbn [fst snd].
  pose proof (for_row_in_prefix rows (set_debris_data [] t)) as H.
  destruct (Code1.for_row_in rows (set_debris_data [] t)) as [[e | []] t'];
    cbn [snd] in H; rewrite H; reflexivity.
Qed.

Lemma decoded_prefix_length (rows : list (list string)) :
  (length (decoded_prefix rows) <= length rows)%nat.
Proof.
  induction rows as [ | row rows IH ]; cbn; [ lia | ].
  destruct (Code1.decrypt_row row); cbn; lia.
Qed.

Lemma decoded_prefix_all (good : list (list string))
    (texts : list (list string)) (tail : list (list string)) :
  Forall2 (fun row txt => Code1.decrypt_row row = inr txt) good texts ->
  tail = []
  \/ (exists bad rest e, tail = bad :: rest /\ Code1.decrypt_row bad = inl e) ->
  decoded_prefix (good ++ tail) = texts.
Proof.
  intros Hgood Htail. induction Hgood as [ | row txt good texts Hrow _ IH ].
  - destruct Htail as [-> | (bad & rest & e & -> & Hbad)]; cbn;
      [ reflexivity | now rewrite Hbad ].
  - cbn. now rewrite Hrow, IH.
Qed.

Lemma text_rows_are_text (texts : list (list string)) :
  Forall (Forall (fun v => is_text v = true)) (map (map VStr) texts).
Proof.
  apply Forall_forall. intros r Hr. apply in_map_iff in Hr.
  destruct Hr as (row & <- & _).
  apply Forall_forall. intros v Hv. apply in_map_iff in Hv.
  destruct Hv as (s & <- & _). reflexivity.
Qed.

End LoadFacts.

(** X10: [load_debris_data] never lets an exception out and touches nothing
    but the log.  A file that cannot be opened leaves the tracker as it was.
    A file that opens replaces the log: what is installed does not depend on
    the log held before, has at most one entry per data row, and consists of
    text fields only. *)
Theorem load_replaces_the_log_and_nothing_else :
  forall (env : Env) (codec : Codec) (file : option csv_file) (t : Tracker),
    exists log,
      Code1.load_debris_data file t = (inr tt, set_debris_data log t)
      /\ match file with
         | None => log = debris_data t
         | Some rows =>
             Forall (Forall (fun v => is_text v = true)) log
             /\ (length log <= length rows - 1)%nat
             /\ (forall t0 : Tracker,
                   debris_data (snd (Code1.load_debris_data (Some rows) t0))
                   = log)
         end.
Proof.
  intros env codec [[ | hdr rows] | ] t.
  - exists []. split; [ reflexivity | ]. repeat split; [ constructor | ].
    cbn. lia.
  - exists (map (map VStr) (decoded_prefix rows)).
    split; [ apply load_installs_prefix | ].
    split; [ apply text_rows_are_text | split ].
    + rewrite !length_map. pose proof (decoded_prefix_length rows).
      cbn [length]. lia.
    + intro t0. now rewrite load_installs_prefix.
  - exists (debris_data t). split; [ | reflexivity ].
    cbn. now rewrite set_same_log.
Qed.

(** X11: the first row of the file is dropped whatever it holds, and the
    rows after it are installed one by one until a row fails to decode: when
    the rows [good] decode to [texts] and are followed by nothing or by a row
    that fails, the log installed is exactly [texts], as strings; rows after
    the failing one are never read. *)
Theorem load_keeps_rows_before_first_failure :
  forall (env : Env) (codec : Codec) (hdr : list string)
         (good tail : list (list string)) (texts : list (list string))
         (t : Tracker),
    Forall2 (fun row txt => Code1.decrypt_row row = inr txt) good texts ->
    tail = []
    \/ (exists bad rest e,
          tail = bad :: rest /\ Code1.decrypt_row bad = inl e) ->
    Code1.load_debris_data (Some (hdr :: good ++ tail)) t
    = (inr tt, set_debris_data (map (map VStr) texts) t).
Proof.
  intros env codec hdr good tail texts t Hgood Htail.
  rewrite load_installs_prefix.
  now rewrite (decoded_prefix_all good texts tail Hgood Htail).
Qed.

Lemma load_keeps_rows_before_first_failure_witness :
  @Code1.load_debris_data bench_env hex_codec (Some half_good_file)
    with_one_detection
  = (inr tt,
     @set_debris_data bench_env
       [[VStr "7"; VStr "old"; VStr "t"; VStr "8"; VStr "9"]]
       with_one_detection).
Proof.
  apply (load_keeps_rows_before_first_failure bench_env hex_codec header_row
           [["b'37'"; "b'6f6c64'"; "b'74'"; "b'38'"; "b'39'"]]
           [["b'31'"; "garbled"; "b'74'"; "b'38'"; "b'39'"]]
           [["7"; "old"; "t"; "8"; "9"]]).
  - repeat constructor.
  - right. exists ["b'31'"; "garbled"; "b'74'"; "b'38'"; "b'39'"], [],
      InvalidToken. split; reflexivity.
Defined.

(** ** The key file and the cipher helpers *)

(** X14: [load_key] draws a key only when the file [secret.key] is
    missing, and then writes it; a key already on file is returned as it is
    and never overwritten, so a second call returns the same key and changes
    nothing, and the statements at the end of [src/code1.py] that make sure
    the key exists do exactly what the first call does. *)
Theorem key_is_drawn_once_and_kept :
  forall (fernet : Fernet) (d : Crypto.KeyStore),
    exists key,
      Crypto.load_key d = (key, Crypto.ensure_key d)
      /\ Crypto.secret_key (Crypto.ensure_key d) = Some key
      /\ Crypto.load_key (Crypto.ensure_key d) = (key, Crypto.ensure_key d)
      /\ Crypto.ensure_key (Crypto.ensure_key d) = Crypto.ensure_key d
      /\ (Crypto.keys_drawn (Crypto.ensure_key d)
          <= S (Crypto.keys_drawn d))%nat
      /\ (forall key0, Crypto.secret_key d = Some key0 ->
                       key = key0 /\ Crypto.ensure_key d = d).
Proof.
  intros fernet d. unfold Crypto.load_key, Crypto.ensure_key.
  destruct (Crypto.secret_key d) as [key0 | ] eqn:Hfile.
  - exists key0. rewrite Hfile.
    split; [ reflexivity | split; [ reflexivity | ] ].
    split; [ reflexivity | split; [ reflexivity | split; [ lia | ] ] ].
    intros k H. inversion H. split; reflexivity.
  - eexists. cbn.
    split; [ reflexivity | split; [ reflexivity | ] ].
    split; [ reflexivity | split; [ reflexivity | split; [ lia | ] ] ].
    intros k H. discriminate H.
Qed.

Lemma key_is_drawn_once_and_kept_witness :
  exists key,
    @Crypto.load_key Bench3.toy_fernet Bench3.empty_store
    = (key, @Crypto.ensure_key Bench3.toy_fernet Bench3.empty_store)
    /\ @Crypto.load_key Bench3.toy_fernet
         (@Crypto.ensure_key Bench3.toy_fernet Bench3.empty_store)
       = (key, @Crypto.ensure_key Bench3.toy_fernet Bench3.empty_store).
Proof.
  destruct (key_is_drawn_once_and_kept Bench3.toy_fernet Bench3.empty_store)
    as (key & H1 & _ & H3 & _).
  exists key. split; assumption.
Defined.

(** X15: on tokens the two helpers are inverse of each other whenever the
    cipher is: if [decrypt] undoes [encrypt] under one key and the key on
    file (or the one about to be drawn) is well formed, then
    [decrypt_message] applied to the bytes that [encrypt_message] returned
    gives the message back, also when the key file did not exist before the
    first call; the key file is the same after both calls. *)
Theorem helpers_round_trip_on_tokens :
  forall (fernet : Fernet) (message : string) (d : Crypto.KeyStore)
         (f : cipher),
    (forall (g : cipher) (n : nat) (data : list byte),
        fernet_decrypt g (fernet_encrypt g n data) = Some data) ->
    fernet_new (fst (Crypto.load_key d)) = Some f ->
    exists token d1,
      Crypto.encrypt_message message d = (inr token, d1)
      /\ Crypto.decrypt_message token d1 = (inr message, d1)
      /\ Crypto.secret_key d1 = Some (fst (Crypto.load_key d)).
Proof.
  intros fernet message d f Hlaw Hkey.
  unfold Crypto.encrypt_message, Crypto.decrypt_message.
  destruct (Crypto.load_key d) as [key d0] eqn:Hload. cbn [fst] in Hkey.
  rewrite Hkey.
  assert (Hfile : Crypto.secret_key d0 = Some key).
  { unfold Crypto.load_key in Hload.
    destruct (Crypto.secret_key d) eqn:Hd; inversion Hload; subst;
      [ exact Hd | reflexivity ]. }
  eexists. eexists. split; [ reflexivity | ].
  unfold Crypto.load_key. cbn [Crypto.secret_key]. rewrite Hfile, Hkey, Hlaw.
  rewrite string_of_list_byte_of_string. split; reflexivity.
Qed.

Lemma toy_fernet_law (g : @cipher Bench3.toy_fernet) (n : nat)
    (data : list byte) :
  @fernet_decrypt Bench3.toy_fernet g
    (@fernet_encrypt Bench3.toy_fernet g n data) = Some data.
Proof.
  cbn. rewrite firstn_app, Nat.sub_diag, firstn_all. cbn [firstn].
  rewrite app_nil_r.
  destruct (list_eq_dec Byte.byte_eq_dec g g) as [_ | Hne];
    [ | contradiction ].
  rewrite skipn_app, Nat.sub_diag, skipn_all. reflexivity.
Qed.

Lemma helpers_round_trip_on_tokens_witness :
  exists token d1,
    @Crypto.encrypt_message Bench3.toy_fernet "50" Bench3.empty_store
    = (inr token, d1)
    /\ @Crypto.decrypt_message Bench3.toy_fernet token d1 = (inr "50", d1).
Proof.
  destruct (helpers_round_trip_on_tokens Bench3.toy_fernet "50"
              Bench3.empty_store [x41] toy_fernet_law eq_refl)
    as (token & d1 & H1 & H2 & _).
  exists token, d1. split; assumption.
Defined.

(** X16: a malformed key on file is never repaired: both helpers fail on
    it and leave the key file as it is, whatever the message or the token. *)
Theorem malformed_key_is_never_replaced :
  forall (fernet : Fernet) (message : string) (token : list byte)
         (d : Crypto.KeyStore) (key : list byte),
    Crypto.secret_key d = Some key ->
    fernet_new key = None ->
    Crypto.encrypt_message message d = (inl Crypto.BadKey, d)
    /\ Crypto.decrypt_message token d = (inl Crypto.BadKey, d)
    /\ Crypto.ensure_key d = d.
Proof.
  intros fernet message token d key Hfile Hbad.
  unfold Crypto.encrypt_message, Crypto.decrypt_message, Crypto.load_key,
    Crypto.ensure_key.
  rewrite Hfile, Hbad. repeat split.
Qed.

Lemma malformed_key_is_never_replaced_witness :
  @Crypto.encrypt_message Bench3.toy_fernet "50"
    {| Crypto.secret_key := Some []; Crypto.keys_drawn := 0;
       Crypto.tokens_drawn := 0 |}
  = (inl Crypto.BadKey,
     {| Crypto.secret_key := Some []; Crypto.keys_drawn := 0;
        Crypto.tokens_drawn := 0 |}).
Proof.
  exact (proj1 (malformed_key_is_never_replaced Bench3.toy_fernet "50" []
                  {| Crypto.secret_key := Some []; Crypto.keys_drawn := 0;
                     Crypto.tokens_drawn := 0 |} [] eq_refl eq_refl)).
Defined.

(** ** The chart *)

Lemma tally_keys (n : Z) (bars : list (Z * nat)) (m : Z) :
  In m (map fst (tally n bars)) <-> m = n \/ In m (map fst bars).
Proof.
  induction bars as [ | [m0 k] rest IH ]; cbn.
  - intuition congruence.
  - destruct (Z.ltb n m0) eqn:Hlt; cbn; [ intuition congruence | ].
    destruct (Z.eqb n m0) eqn:Heq; cbn.
    + apply Z.eqb_eq in Heq. subst. intuition congruence.
    + rewrite IH. intuition congruence.
Qed.

Lemma tally_sum (n : Z) (bars : list (Z * nat)) :
  list_sum (map snd (tally n bars)) = S (list_sum (map snd bars)).
Proof.
  unfold list_sum.
  induction bars as [ | [m0 k] rest IH ]; cbn; [ reflexivity | ].
  destruct (Z.ltb n m0); cbn; [ reflexivity | ].
  destruct (Z.eqb n m0); cbn; [ reflexivity | ].
  rewrite IH. lia.
Qed.

Lemma tally_positive (n : Z) (bars : list (Z * nat)) :
  Forall (fun k => (1 <= k)%nat) (map snd bars) ->
  Forall (fun k => (1 <= k)%nat) (map snd (tally n bars)).
Proof.
  induction bars as [ | [m0 k] rest IH ]; cbn; intro H.
  - constructor; [ lia | constructor ].
  - inversion H as [ | ? ? Hk Hrest ]; subst.
    destruct (Z.ltb n m0); cbn; [ constructor; [ lia | exact H ] | ].
    destruct (Z.eqb n m0); cbn; constructor; auto; lia.
Qed.

Lemma tally_sorted (n : Z) (bars : list (Z * nat)) :
  StronglySorted Z.lt (map fst bars) ->
  StronglySorted Z.lt (map fst (tally n bars)).
Proof.
  induction bars as [ | [m0 k] rest IH ]; cbn; intro H.
  - constructor; constructor.
  - inversion H as [ | ? ? Hs Hall ]; subst.
    destruct (Z.ltb n m0) eqn:Hlt; cbn.
    + apply Z.ltb_lt in Hlt. constructor; [ exact H | ].
      constructor; [ exact Hlt | ].
      eapply Forall_impl; [ | exact Hall ]. cbn. intros; lia.
    + apply Z.ltb_ge in Hlt.
      destruct (Z.eqb n m0) eqn:Heq; cbn; [ exact H | ].
      apply Z.eqb_neq in Heq.
      constructor; [ exact (IH Hs) | ].
      apply Forall_forall. intros x Hx. apply tally_keys in Hx.
      destruct Hx as [-> | Hx]; [ lia | ].
      rewrite Forall_forall in Hall. now apply Hall.
Qed.

Lemma tally_counts (n : Z) (values : list Z) (bars : list (Z * nat)) :
  StronglySorted Z.lt (map fst bars) ->
  (forall m, In m (map fst bars) <-> In m values) ->
  Forall (fun bar => snd bar = count_occ Z.eq_dec values (fst bar)) bars ->
  Forall (fun bar => snd bar = count_occ Z.eq_dec (n :: values) (fst bar))
         (tally n bars).
Proof.
  intros Hs Hkeys Hc.
  assert (Hother : forall bar, fst bar <> n ->
            snd bar = count_occ Z.eq_dec values (fst bar) ->
            snd bar = count_occ Z.eq_dec (n :: values) (fst bar)).
  { intros bar Hne H. cbn. destruct (Z.eq_dec n (fst bar)); congruence. }
  assert (Hfresh : ~ In n (map fst bars) ->
            (1%nat = count_occ Z.eq_dec (n :: values) n)).
  { intro Hnot. cbn. destruct (Z.eq_dec n n); [ | contradiction ].
    f_equal. symmetry. apply count_occ_not_In. now rewrite <- Hkeys. }
  clear Hkeys.
  induction bars as [ | [m0 k] rest IH ]; cbn.
  - constructor; [ | constructor ]. cbn [fst snd]. apply Hfresh. intros [].
  - cbn in Hs. inversion Hs as [ | ? ? Hs' Hall ]; subst.
    inversion Hc as [ | ? ? Hhead Hrest ]; subst. cbn [fst snd] in Hhead.
    rewrite Forall_forall in Hall.
    destruct (Z.ltb n m0) eqn:Hlt.
    + apply Z.ltb_lt in Hlt.
      constructor; [ | constructor ].
      * cbn [fst snd]. apply Hfresh. cbn. intros [-> | Hin]; [ lia | ].
        specialize (Hall n Hin). lia.
      * apply Hother; cbn; [ lia | exact Hhead ].
      * apply Forall_forall. intros bar Hbar.
        rewrite Forall_forall in Hrest.
        apply Hother; [ | now apply Hrest ].
        pose proof (Hall (fst bar) (in_map fst _ _ Hbar)). lia.
    + apply Z.ltb_ge in Hlt.
      destruct (Z.eqb n m0) eqn:Heq.
      * apply Z.eqb_eq in Heq. subst m0.
        constructor.
        -- cbn. destruct (Z.eq_dec n n); [ | contradiction ]. now f_equal.
        -- apply Forall_forall. intros bar Hbar.
           rewrite Forall_forall in Hrest.
           apply Hother; [ | now apply Hrest ].
           pose proof (Hall (fst bar) (in_map fst _ _ Hbar)). lia.
      * apply Z.eqb_neq in Heq.
        constructor.
        -- apply Hother; cbn; [ congruence | exact Hhead ].
        -- apply IH; [ exact Hs' | exact Hrest | ].
           intro Hnot. apply Hfresh. cbn. intros [-> | Hin];
             [ congruence | contradiction ].
Qed.

Lemma np_unique_spec (values : list Z) :
  let bars := fold_right tally [] values in
  StronglySorted Z.lt (map fst bars)
  /\ Forall (fun k => (1 <= k)%nat) (map snd bars)
  /\ list_sum (map snd bars) = length values
  /\ (forall m, In m (map fst bars) <-> In m values)
  /\ Forall (fun bar => snd bar = count_occ Z.eq_dec values (fst bar)) bars.
Proof.
  induction values as [ | n values IH ]; cbn.
  - repeat split; try constructor; tauto.
  - destruct IH as (Hs & Hp & Hsum & Hkeys & Hc).
    split; [ now apply tally_sorted | ].
    split; [ now apply tally_positive | ].
    split; [ rewrite tally_sum; now f_equal | ].
    split; [ | now apply tally_counts ].
    intro m. rewrite tally_keys, Hkeys. intuition congruence.
Qed.

Section ChartFacts.
Context {env : Env} {pyint : PyInt}.

Lemma frame_numbers_length (log : list pytuple) (ns : list Z) :
  Chart.frame_numbers log = Some ns -> length ns = length log.
Proof.
  revert ns. induction log as [ | debris log IH ]; cbn; intros ns H.
  - now inversion H.
  - destruct (Chart.int_of_first debris); [ | discriminate ].
    destruct (Chart.frame_numbers log) as [ms | ]; [ | discriminate ].
    inversion H; subst. cbn. now rewrite (IH ms eq_refl).
Qed.

Lemma frame_numbers_each (log : list pytuple) (ns : list Z) :
  Chart.frame_numbers log = Some ns <->
  Forall2 (fun debris n => Chart.int_of_first debris = Some n) log ns.
Proof.
  revert ns. induction log as [ | debris log IH ]; cbn; intro ns.
  - split; intro H; [ inversion H; constructor | now inversion H ].
  - split; intro H.
    + destruct (Chart.int_of_first debris) as [n | ] eqn:Hn; [ | discriminate ].
      destruct (Chart.frame_numbers log) as [ms | ]; [ | discriminate ].
      inversion H; subst. constructor; [ exact Hn | now apply IH ].
    + inversion H as [ | ? n ? ms Hn Hrest ]; subst.
      rewrite Hn. apply IH in Hrest. now rewrite Hrest.
Qed.

Lemma frame_numbers_fail (log : list pytuple) :
  Chart.frame_numbers log = None <->
  Exists (fun debris => Chart.int_of_first debris = None) log.
Proof.
  induction log as [ | debris log IH ]; cbn.
  - split; [ discriminate | intro H; inversion H ].
  - destruct (Chart.int_of_first debris) as [n | ] eqn:Hn.
    + destruct (Chart.frame_numbers log) as [ms | ].
      * split; [ discriminate | ].
        intro H. inversion H as [? ? Hd | ? ? Hl]; subst;
          [ congruence | ].
        apply IH in Hl. discriminate.
      * split; [ intros _; right; now apply IH | reflexivity ].
    + split; [ intros _; now left | reflexivity ].
Qed.

End ChartFacts.

(** X17: whenever [plot_debris_counts] of [src/code1.py] gets as far as
    drawing, the bars are sound: one bar per distinct frame number, the
    frame numbers in strictly increasing order, every bar at least one high,
    the height of a bar is the number of log entries with that frame number,
    and the heights add up to the number of entries in the log. *)
Theorem chart_bars_count_the_log :
  forall (env : Env) (pyint : PyInt) (t : Tracker)
         (xs : list Z) (counts : list nat),
    Chart.plot_debris_counts t = Some (xs, counts) ->
    StronglySorted Z.lt xs
    /\ Forall (fun k => (1 <= k)%nat) counts
    /\ list_sum counts = length (debris_data t)
    /\ exists ns,
         Forall2 (fun debris n => Chart.int_of_first debris = Some n)
                 (debris_data t) ns
         /\ (forall n, In n xs <-> In n ns)
         /\ Forall2 (fun x k => k = count_occ Z.eq_dec ns x) xs counts.
Proof.
  intros env pyint t xs counts Hplot.
  unfold Chart.plot_debris_counts in Hplot.
  destruct (Chart.frame_numbers (debris_data t)) as [ns | ] eqn:Hns;
    [ | discriminate ].
  unfold np_unique in Hplot. inversion Hplot; subst xs counts. clear Hplot.
  destruct (np_unique_spec ns) as (Hs & Hp & Hsum & Hkeys & Hc).
  cbv zeta in Hs, Hp, Hsum, Hkeys, Hc.
  split; [ exact Hs | split; [ exact Hp | split ] ].
  - rewrite Hsum. now apply frame_numbers_length.
  - exists ns. split; [ now apply frame_numbers_each | ].
    split; [ exact Hkeys | ].
    clear Hs Hp Hsum Hkeys.
    induction Hc as [ | bar bars Hbar _ IH ]; cbn; constructor;
      [ exact Hbar | exact IH ].
Qed.

Lemma chart_bars_count_the_log_witness :
  @Chart.plot_debris_counts bench_env Bench3.decimal_int with_one_detection
  = Some ([1], [1%nat])
  /\ list_sum [1%nat] = length (debris_data with_one_detection).
Proof.
  split; [ reflexivity | ].
  exact (proj1 (proj2 (proj2
           (chart_bars_count_the_log bench_env Bench3.decimal_int
              with_one_detection [1] [1%nat] eq_refl)))).
Defined.

(** X18: [plot_debris_counts] of [src/code1.py] draws nothing exactly when
    some log entry has no first field that [int] accepts: an entry without
    fields (a blank line of a loaded file) or a first field that is not the
    text of a number.  The exception is caught; the tracker is not
    touched. *)
Theorem chart_fails_on_unreadable_entry :
  forall (env : Env) (pyint : PyInt) (t : Tracker),
    Chart.plot_debris_counts t = None <->
    Exists (fun debris => Chart.int_of_first debris = None) (debris_data t).
Proof.
  intros env pyint t. unfold Chart.plot_debris_counts.
  rewrite <- frame_numbers_fail.
  destruct (Chart.frame_numbers (debris_data t)); split; congruence.
Qed.

Lemma chart_fails_on_unreadable_entry_witness :
  @Chart.plot_debris_counts bench_env Bench3.decimal_int
    (@set_debris_data bench_env [sample_record; []] tracker0) = None.
Proof.
  apply (chart_fails_on_unreadable_entry bench_env Bench3.decimal_int).
  right. left. reflexivity.
Defined.

Section ChartOfLog.
Context {env : Env} {pyint : PyInt}.

Lemma frame_numbers_of_detections (P : Z -> Prop) (log : list pytuple) :
  Forall (fun rec => exists n, P n /\ detection_of_frame n rec) log ->
  exists ns,
    Chart.frame_numbers log = Some ns /\ Forall P ns
    /\ length ns = length log.
Proof.
  induction 1 as [ | rec log (n & Hn & now & x & y & ->) _ IH ].
  - exists []. repeat split; constructor.
  - destruct IH as (ns & Hns & HP & Hlen).
    exists (n :: ns). cbn. rewrite Hns.
    repeat split; [ now constructor | now f_equal ].
Qed.

End ChartOfLog.

(** X19: on a log built by the capture loop of [src/code1.py] from a fresh
    tracker the chart never fails: [plot_debris_counts] draws bars whose
    frame numbers lie between 1 and the frame counter and whose heights add
    up to [debris_counter]. *)
Theorem chart_of_captured_log :
  forall (env : Env) (pyint : PyInt) (MinArea MaxArea : Z) (Enabled : bool)
         (mog2 : bgmodel) (turns : list Turn),
    exists xs counts,
      Chart.plot_debris_counts
        (snd (Code1.update_debris_info turns
                (snd (Code1.start_tracking
                        (Code1.__init__ MinArea MaxArea Enabled mog2)))))
      = Some (xs, counts)
      /\ Forall
           (fun x =>
              1 <= x
              <= frame_number
                   (snd (Code1.update_debris_info turns
                           (snd (Code1.start_tracking
                                   (Code1.__init__ MinArea MaxArea Enabled
                                      mog2)))))) xs
      /\ Z.of_nat (list_sum counts)
         = debris_counter
             (snd (Code1.update_debris_info turns
                     (snd (Code1.start_tracking
                             (Code1.__init__ MinArea MaxArea Enabled mog2))))).
Proof.
  intros env pyint MinArea MaxArea Enabled mog2 turns.
  set (t0 := snd (Code1.start_tracking
                    (Code1.__init__ MinArea MaxArea Enabled mog2))).
  destruct (code1_loop_returns turns t0) as (r & t' & Hrun).
  destruct (code1_loop_summary turns t0 r t' Hrun)
    as [((added & Hd & Hsh & Hc & _) & _) _].
  rewrite Hrun. cbn [snd].
  change (debris_data t0) with (@nil pytuple) in Hd. cbn [app] in Hd.
  change (frame_number t0) with 0 in Hsh.
  change (debris_counter t0) with 0 in Hc.
  destruct (frame_numbers_of_detections
              (fun n => 0 < n <= frame_number t') added Hsh)
    as (ns & Hns & Hrange & Hlen).
  unfold Chart.plot_debris_counts. rewrite Hd, Hns.
  destruct (np_unique_spec ns) as (_ & _ & Hsum & Hkeys & _).
  cbv zeta in Hsum, Hkeys.
  eexists. eexists. split; [ reflexivity | split ].
  - apply Forall_forall. intros x Hx. apply Hkeys in Hx.
    rewrite Forall_forall in Hrange. specialize (Hrange x Hx). lia.
  - rewrite Hsum, Hlen, Hc. unfold pytuple. lia.
Qed.

(** ** The menu *)

Section MenuFacts.
Context {env : Env} {codec : Codec} {pyint : PyInt}.

Lemma load_only_sets_log (file : option csv_file) (t : Tracker) :
  exists log, snd (Code1.load_debris_data file t) = set_debris_data log t.
Proof.
  destruct file as [[ | hdr rows] | ].
  - exists []. reflexivity.
  - eexists. now rewrite load_installs_prefix.
  - exists (debris_data t). cbn. now rewrite set_same_log.
Qed.

(** A property of the tracker that the commands of the menu keep is kept
    by the whole menu, up to the [stop_tracking] of choice 7. *)
Lemma menu_loop_invariant (Inv : Tracker -> Prop) :
  (forall t, Inv t -> Inv (snd (Code1.toggle_visualization t))) ->
  (forall t log, Inv t -> Inv (set_debris_data log t)) ->
  (forall t n, Inv t -> Inv (with_min_area n t)) ->
  (forall t n, Inv t -> Inv (with_max_area n t)) ->
  forall (n : nat) (lines : list string) (s : Menu.Session),
    (length lines <= n)%nat ->
    Inv (Menu.tracker s) ->
    (fst (Menu.menu_loop lines s) = Menu.Exited ->
     exists t, Inv t
               /\ Menu.tracker (snd (Menu.menu_loop lines s))
                  = set_thread_active false t)
    /\ (fst (Menu.menu_loop lines s) <> Menu.Exited ->
        Inv (Menu.tracker (snd (Menu.menu_loop lines s)))).
Proof.
  intros Htoggle Hload Hmin Hmax.
  induction n as [ | n IH ]; intros lines s Hlen Hinv;
    destruct lines as [ | choice rest ]; cbn [length] in Hlen; try lia;
    try (cbn; split; [ discriminate | intros _; exact Hinv ]).
  cbn [Menu.menu_loop].
  destruct (String.eqb choice "1").
  { apply IH; [ lia | ]. cbn. now apply Htoggle. }
  destruct (String.eqb choice "2").
  { apply IH; [ lia | exact Hinv ]. }
  destruct (String.eqb choice "3").
  { apply IH; [ lia | ]. cbn.
    match goal with
    | |- Inv (snd (Code1.load_debris_data ?f ?t)) =>
        destruct (load_only_sets_log f t) as (log & ->)
    end.
    now apply Hload. }
  destruct (String.eqb choice "4").
  { apply IH; [ lia | ]. unfold Menu.show_chart.
    destruct (Chart.plot_debris_counts _); exact Hinv. }
  destruct (String.eqb choice "5").
  { destruct rest as [ | reply rest' ];
      [ cbn; split; [ discriminate | intros _; exact Hinv ] | ].
    destruct (int_str reply) as [k | ];
      [ | cbn; split; [ discriminate | intros _; exact Hinv ] ].
    apply IH; [ cbn [length] in Hlen; lia | ]. cbn. now apply Hmin. }
  destruct (String.eqb choice "6").
  { destruct rest as [ | reply rest' ];
      [ cbn; split; [ discriminate | intros _; exact Hinv ] | ].
    destruct (int_str reply) as [k | ];
      [ | cbn; split; [ discriminate | intros _; exact Hinv ] ].
    apply IH; [ cbn [length] in Hlen; lia | ]. cbn. now apply Hmax. }
  destruct (String.eqb choice "7").
  { cbn. split; [ intros _ | intro H; now contradiction H ].
    exists (Menu.tracker s). split; [ exact Hinv | reflexivity ]. }
  apply IH; [ lia | exact Hinv ].
Qed.

End MenuFacts.

(** X21: when [start_menu] of [src/code1.py] returns, which it does
    through choice 7, [thread_active] is False; when it ends by an exception
    instead (end of input, or a reply to choice 5 or 6 that [int] rejects),
    [thread_active] is still True: the tracker is left running with nobody
    to stop it. *)
Theorem menu_end_and_tracking_flag :
  forall (env : Env) (codec : Codec) (pyint : PyInt)
         (lines : list string) (s : Menu.Session),
    (fst (Menu.start_menu lines s) = Menu.Exited ->
     thread_active (Menu.tracker (snd (Menu.start_menu lines s))) = false)
    /\ (fst (Menu.start_menu lines s) <> Menu.Exited ->
        thread_active (Menu.tracker (snd (Menu.start_menu lines s))) = true).
Proof.
  intros env codec pyint lines s. unfold Menu.start_menu.
  destruct (menu_loop_invariant (fun t => thread_active t = true))
    with (n := length lines) (lines := lines)
         (s := Menu.on_tracker Code1.start_tracking s)
    as [Hexit Hdied]; auto.
  split; [ | exact Hdied ].
  intro H. destruct (Hexit H) as (t & _ & ->). reflexivity.
Qed.

Lemma menu_end_and_tracking_flag_witness :
  fst (@Menu.start_menu bench_env hex_codec Bench3.decimal_int
         ["1"; "5"; "ten"] Bench3.fresh_session) <> Menu.Exited
  /\ thread_active
       (Menu.tracker
          (snd (@Menu.start_menu bench_env hex_codec Bench3.decimal_int
                  ["1"; "5"; "ten"] Bench3.fresh_session))) = true.
Proof.
  assert (Hdied : fst (@Menu.start_menu bench_env hex_codec
                         Bench3.decimal_int ["1"; "5"; "ten"]
                         Bench3.fresh_session) <> Menu.Exited)
    by (cbn; discriminate).
  split; [ exact Hdied | ].
  exact (proj2 (menu_end_and_tracking_flag bench_env hex_codec
                  Bench3.decimal_int ["1"; "5"; "ten"] Bench3.fresh_session)
           Hdied).
Defined.

(** X22: nothing that can be typed at the menu of [src/code1.py] changes
    the frame counter, the detection counter, the background model or the
    count of clock readings: whatever the input and however the menu ends,
    these are what they were when [start_menu] was called. *)
Theorem menu_never_touches_the_counters :
  forall (env : Env) (codec : Codec) (pyint : PyInt)
         (lines : list string) (s : Menu.Session),
    frame_number (Menu.tracker (snd (Menu.start_menu lines s)))
    = frame_number (Menu.tracker s)
    /\ debris_counter (Menu.tracker (snd (Menu.start_menu lines s)))
       = debris_counter (Menu.tracker s)
    /\ background_subtractor (Menu.tracker (snd (Menu.start_menu lines s)))
       = background_subtractor (Menu.tracker s)
    /\ clock_reads (Menu.tracker (snd (Menu.start_menu lines s)))
       = clock_reads (Menu.tracker s).
Proof.
  intros env codec pyint lines s. unfold Menu.start_menu.
  set (Inv := fun t : Tracker =>
                frame_number t = frame_number (Menu.tracker s)
                /\ debris_counter t = debris_counter (Menu.tracker s)
                /\ background_subtractor t
                   = background_subtractor (Menu.tracker s)
                /\ clock_reads t = clock_reads (Menu.tracker s)).
  destruct (menu_loop_invariant Inv)
    with (n := length lines) (lines := lines)
         (s := Menu.on_tracker Code1.start_tracking s)
    as [Hexit Hdied]; try (unfold Inv; cbn; tauto); auto.
  destruct (fst (Menu.menu_loop lines
                   (Menu.on_tracker Code1.start_tracking s))) eqn:Hend.
  - destruct (Hexit eq_refl) as (t & Ht & ->). exact Ht.
  - apply Hdied. discriminate.
  - apply Hdied. discriminate.
Qed.

(** X24: bad input at the menu of [src/code1.py].  A choice that is none of
    "1" to "7" changes neither the tracker nor the file nor the charts; the
    menu goes on.  A reply to choice 5 or 6 that [int] rejects ends the menu
    with [ValueError] before any threshold is touched. *)
Theorem menu_bad_input :
  forall (env : Env) (codec : Codec) (pyint : PyInt)
         (choice reply : string) (rest : list string) (s : Menu.Session),
    (~ In choice ["1"; "2"; "3"; "4"; "5"; "6"; "7"] ->
     exists s1,
       Menu.menu_loop (choice :: rest) s = Menu.menu_loop rest s1
       /\ Menu.tracker s1 = Menu.tracker s
       /\ Menu.disk s1 = Menu.disk s
       /\ Menu.figures s1 = Menu.figures s)
    /\ (choice = "5" \/ choice = "6" ->
        int_str reply = None ->
        fst (Menu.menu_loop (choice :: reply :: rest) s) = Menu.ValueError
        /\ Menu.tracker (snd (Menu.menu_loop (choice :: reply :: rest) s))
           = Menu.tracker s).
Proof.
  intros env codec pyint choice reply rest s. split.
  - intro Hnot. cbn [Menu.menu_loop].
    assert (Hne : forall c, In c ["1"; "2"; "3"; "4"; "5"; "6"; "7"] ->
                            String.eqb choice c = false).
    { intros c Hc. apply String.eqb_neq. intros ->. contradiction. }
    rewrite !Hne by (cbn; tauto).
    eexists. split; [ reflexivity | ]. cbn. repeat split.
  - intros [-> | ->] Hbad; cbn [Menu.menu_loop]; cbn [String.eqb Ascii.eqb
      Bool.eqb]; rewrite Hbad; split; reflexivity.
Qed.

Lemma menu_bad_input_witness :
  fst (@Menu.menu_loop bench_env hex_codec Bench3.decimal_int
         ["5"; "ten"; "7"] Bench3.fresh_session) = Menu.ValueError.
Proof.
  exact (proj1 (proj2 (menu_bad_input bench_env hex_codec Bench3.decimal_int
                         "5" "ten" ["7"] Bench3.fresh_session)
                  (or_introl eq_refl) eq_refl)).
Defined.

(** ** Rows, restarts and the other file *)

(** X25: a row of the file decodes cell by cell, from left to right: it
    decodes to [texts] exactly when each cell decodes to the text in the same
    place, and the first cell that fails makes the whole row fail with that
    cell's exception, the cells after it not being looked at. *)
Theorem row_decodes_cell_by_cell :
  forall (codec : Codec) (row : list string),
    (forall texts,
        Code1.decrypt_row row = inr texts <->
        Forall2 (fun cell s => decrypt_message cell = inr s) row texts)
    /\ (forall before cell after texts e,
          row = before ++ cell :: after ->
          Forall2 (fun c s => decrypt_message c = inr s) before texts ->
          decrypt_message cell = inl e ->
          Code1.decrypt_row row = inl e).
Proof.
  intros codec row. split.
  - induction row as [ | cell row IH ]; intro texts; cbn.
    + split; intro H; [ inversion H; constructor | now inversion H ].
    + split; intro H.
      * destruct (decrypt_message cell) as [e | s] eqn:Hc; [ discriminate | ].
        destruct (Code1.decrypt_row row) as [e | ss] eqn:Hr;
          [ discriminate | ].
        inversion H; subst. constructor; [ exact Hc | now apply IH ].
      * inversion H as [ | ? s ? ss Hc Hrest ]; subst.
        rewrite Hc. apply IH in Hrest. now rewrite Hrest.
  - intros before cell after texts e -> Hbefore Hcell.
    induction Hbefore as [ | c s before texts Hc _ IH ]; cbn.
    + now rewrite Hcell.
    + now rewrite Hc, IH.
Qed.

Lemma row_decodes_cell_by_cell_witness :
  @Code1.decrypt_row hex_codec ["b'31'"; "garbled"; "b'74'"]
  = inl InvalidToken.
Proof.
  apply (proj2 (row_decodes_cell_by_cell hex_codec
                  ["b'31'"; "garbled"; "b'74'"])
           ["b'31'"] "garbled" ["b'74'"] ["1"] InvalidToken eq_refl).
  - repeat constructor.
  - reflexivity.
Defined.

Section Restarts.
Context {env : Env}.

Lemma one_frame_step_keeps_order (t t2 : Tracker) (recs : list pytuple) :
  one_frame_step t recs t2 -> log_ordered t -> log_ordered t2.
Proof.
  intros (Hfn & Hd & Hsh & _) Hord.
  apply (log_ordered_extend t t2 recs Hord); [ lia | exact Hd | ].
  rewrite Hfn. eapply Forall_impl; [ | exact Hsh ].
  cbn. intros rec (now & x & y & ->). reflexivity.
Qed.

Lemma sdt_loop_keeps_order (turns : list Turn) :
  forall t : Tracker,
    log_ordered t -> log_ordered (snd (SDT.update_debris_info turns t)).
Proof.
  induction turns as [ | turn later IH ]; intros t Hord; [ exact Hord | ].
  destruct (sdt_turn_cases turn later t)
    as [(_ & ->)
       | [(_ & _ & _ & ->)
         | [(_ & _ & f & e & t2 & _ & Hstep & ->)
           | (_ & _ & f & recs & t2 & _ & Hstep & [(_ & ->) | (_ & ->)])]]];
    cbn [snd]; try exact Hord.
  - now apply (one_frame_step_keeps_order t t2 []).
  - now apply (one_frame_step_keeps_order t t2 recs).
  - apply IH. now apply (one_frame_step_keeps_order t t2 recs).
Qed.

Lemma tracking_runs_keep_order (runs : list (list Turn)) :
  forall t : Tracker, log_ordered t -> log_ordered (tracking_runs runs t).
Proof.
  induction runs as [ | turns more IH ]; intros t Hord; [ exact Hord | ].
  cbn [tracking_runs]. apply IH.
  pose proof (code1_loop_keeps_order turns (snd (Code1.start_tracking t)))
    as H.
  apply H. exact Hord.
Qed.

Lemma ordered_log_sorted (t : Tracker) :
  log_ordered t ->
  exists ns : list Z,
    map record_frame (debris_data t) = map Some ns
    /\ Sorted Z.le ns
    /\ Forall (fun n => n <= frame_number t) ns.
Proof.
  intros (ns & Hmap & Hs & Hb). exists ns.
  split; [ exact Hmap | split; [ now apply StronglySorted_Sorted | exact Hb ] ].
Qed.

End Restarts.

(** X26: the frame counter is never reset, so tracking can be started, run
    and stopped any number of times on the tracker of [src/code1.py] and the
    frame numbers along the log still never decrease, none of them being
    beyond the frame counter. *)
Theorem restarts_keep_frame_numbers_ordered :
  forall (env : Env) (MinArea MaxArea : Z) (Enabled : bool) (mog2 : bgmodel)
         (runs : list (list Turn)),
    exists ns : list Z,
      map record_frame
        (debris_data
           (tracking_runs runs (Code1.__init__ MinArea MaxArea Enabled mog2)))
      = map Some ns
      /\ Sorted Z.le ns
      /\ Forall
           (fun n =>
              n <= frame_number
                     (tracking_runs runs
                        (Code1.__init__ MinArea MaxArea Enabled mog2))) ns.
Proof.
  intros env MinArea MaxArea Enabled mog2 runs.
  apply ordered_log_sorted, tracking_runs_keep_order.
  exists []. cbn. repeat split; constructor.
Qed.

(** X27: the capture loop of [src/space_debris_tracker.py] keeps the same
    order: from the tracker it builds, whatever turns the loop takes and
    however it ends, by an exception of the pipeline included, the frame
    numbers along the log never decrease and none is beyond the frame
    counter. *)
Theorem sdt_log_frame_numbers_ordered :
  forall (env : Env) (mog2 : bgmodel) (turns : list Turn),
    exists ns : list Z,
      map record_frame
        (debris_data
           (snd (SDT.update_debris_info turns
                   (snd (SDT.start_tracking (SDT.__init__ mog2))))))
      = map Some ns
      /\ Sorted Z.le ns
      /\ Forall
           (fun n =>
              n <= frame_number
                     (snd (SDT.update_debris_info turns
                             (snd (SDT.start_tracking (SDT.__init__ mog2))))))
           ns.
Proof.
  intros env mog2 turns.
  apply ordered_log_sorted, sdt_loop_keeps_order.
  exists []. cbn. repeat split; constructor.
Qed.

(* ================================================================= *)
(** * The two files on a frame the pipeline cannot process *)

Section BothFiles.
Context {env : Env}.

Lemma both_counts_by_segmentation (f : frame) (t : Tracker) :
  (exists cs t1 recs t',
      segmentation f t = (inr cs, t1)
      /\ Code1.count_and_track_debris f t = (inr recs, t')
      /\ SDT.count_and_track_debris f t = (inr recs, t'))
  \/ (exists e t1,
        segmentation f t = (inl e, t1)
        /\ Code1.count_and_track_debris f t = (inr [], t1)
        /\ SDT.count_and_track_debris f t = (inl e, t1)).
Proof.
  destruct (segmentation f t) as [[e | cs] t1] eqn:Hseg.
  - right. exists e, t1. split; [ reflexivity | split ].
    + exact (code1_count_caught f t t1 e Hseg).
    + exact (sdt_count_raised f t t1 e Hseg).
  - left. exists cs, t1, (returned t cs), (left_by t t1 cs).
    split; [ reflexivity | split ].
    + exact (code1_count_found f t t1 cs Hseg).
    + exact (sdt_count_found f t t1 cs Hseg).
Qed.

End BothFiles.

(** C9 as stated fails: on a frame on which the background model raises,
    [count_and_track_debris] of [src/code1.py] returns the empty list and
    that of [src/space_debris_tracker.py] raises, so the two do not produce
    the same thing on every frame. *)
Lemma files_differ_when_pipeline_raises :
  @Code1.count_and_track_debris bench_env Unreadable tracker0
  = (inr [], tracker0)
  /\ @SDT.count_and_track_debris bench_env Unreadable tracker0
     = (inl CvError, tracker0)
  /\ ~ (forall (env : Env) (f : frame) (t : Tracker),
          fst (Code1.count_and_track_debris f t)
          = fst (SDT.count_and_track_debris f t)).
Proof.
  split; [ reflexivity | split; [ reflexivity | ] ].
  intro H. specialize (H bench_env Unreadable tracker0). discriminate H.
Qed.

(** C9, as the code has it: from the same tracker state (same background
    model, thresholds, frame number and clock), on every frame either the
    image operations deliver contours, and then [count_and_track_debris] of
    both files returns the same records and leaves the same state, or one of
    them raises, and then [src/code1.py] returns the empty list where
    [src/space_debris_tracker.py] lets the exception out, both leaving the
    same state.  The loops over the contours agree on every input. *)
Theorem both_files_agree_unless_pipeline_raises :
  forall (env : Env) (f : frame) (t : Tracker),
    ((exists cs t1 recs t',
         segmentation f t = (inr cs, t1)
         /\ Code1.count_and_track_debris f t = (inr recs, t')
         /\ SDT.count_and_track_debris f t = (inr recs, t'))
     \/ (exists e t1,
           segmentation f t = (inl e, t1)
           /\ Code1.count_and_track_debris f t = (inr [], t1)
           /\ SDT.count_and_track_debris f t = (inl e, t1)))
    /\ (forall (cs : list Contour) (acc : list pytuple) (t0 : Tracker),
          Code1.for_contour_in cs acc t0 = SDT.for_contour_in cs acc t0).
Proof.
  intros env f t. split.
  - apply both_counts_by_segmentation.
  - intros. apply loops_agree.
Qed.

(* ================================================================= *)
(** * The capture loop with its preview *)

Section LiveLoop.
Context {env : Env}.

Lemma for_debris_in_outcome (p : Live.Pass) (debris_info : list pytuple)
    (w : Live.Rig) :
  Live.for_debris_in p debris_info w
  = (match overlay_outcome p debris_info with
     | Some e => inl e
     | None => inr tt
     end, w).
Proof.
  induction debris_info as [ | debris rest IH ]; [ reflexivity | ].
  cbn [Live.for_debris_in overlay_outcome]. unfold bind, Live.called.
  destruct (Live.putText p debris) as [e | ]; [ reflexivity | ].
  cbn. destruct (Live.circle p debris) as [e | ]; [ reflexivity | ].
  cbn. exact IH.
Qed.

Lemma overlay_returns (p : Live.Pass) (debris_info : list pytuple) :
  (forall debris, Live.putText p debris = None) ->
  (forall debris, Live.circle p debris = None) ->
  overlay_outcome p debris_info = None.
Proof.
  intros Hp Hc. induction debris_info as [ | debris rest IH ];
    [ reflexivity | ].
  cbn. now rewrite Hp, Hc.
Qed.

(** One pass of the loop, written out. *)
Lemma live_pass (p : Live.Pass) (later : list Live.Pass) (w : Live.Rig) :
  Live.update_debris_info (p :: later) w
  = let w0 := if Live.stop_before_test p then stopped w else w in
    if negb (thread_active (Live.tracker w0)) then (inr FlagCleared, w0)
    else
      let w1 := if Live.stop_after_test p then stopped w0 else w0 in
      match (if Live.cap_released w1 then None else Live.delivered p) with
      | None => (inr FrameCaptureFailed, w1)
      | Some f =>
          match Code1.count_and_track_debris f
                  (set_frame_number (frame_number (Live.tracker w1) + 1)
                     (Live.tracker w1)) with
          | (inl e, t') =>
              (inl e, {| Live.tracker := t';
                         Live.cap_released := Live.cap_released w1 |})
          | (inr recs, t') =>
              let w2 :=
                {| Live.tracker := set_debris_data (debris_data t' ++ recs) t';
                   Live.cap_released := Live.cap_released w1 |} in
              match preview_outcome (visualization_enabled t') p recs with
              | Some e => (inl e, w2)
              | None =>
                  match Live.pressed p with
                  | inl e => (inl e, w2)
                  | inr key =>
                      if Z.eqb (Z.land key 255) ord_q then (inr QuitKey, w2)
                      else Live.update_debris_info later w2
                  end
              end
          end
      end.
Proof.
  cbn [Live.update_debris_info].
  unfold bind, gets, modify, ret, lift, Live.controller_stops,
    Live.cap_read_now, Live.on_tracker, Live.cap_release, stopped.
  destruct w as [t released].
  destruct (Live.stop_before_test p); cbn.
  - reflexivity.
  - destruct (thread_active t); cbn; [ | reflexivity ].
    destruct (Live.stop_after_test p); cbn; [ reflexivity | ].
    destruct released; cbn; [ reflexivity | ].
    destruct (Live.delivered p) as [f | ]; [ | reflexivity ].
    cbn [Live.tracker Live.cap_released].
    destruct (Code1.count_and_track_debris f
                (set_frame_number (frame_number t + 1) t))
      as [[e | recs] t']; [ reflexivity | ].
    cbn [Live.tracker Live.cap_released]. unfold preview_outcome.
    destruct (visualization_enabled t'); cbn.
    + rewrite for_debris_in_outcome.
      destruct (overlay_outcome p recs) as [e | ]; [ reflexivity | ].
      unfold Live.called.
      destruct (Live.imshow p) as [e | ]; [ reflexivity | ].
      cbn. destruct (Live.pressed p) as [e | key]; [ reflexivity | ].
      destruct (Z.eqb (Z.land key 255) ord_q); reflexivity.
    + destruct (Live.pressed p) as [e | key]; [ reflexivity | ].
      destruct (Z.eqb (Z.land key 255) ord_q); reflexivity.
Qed.

End LiveLoop.

Section LiveRuns.
Context {env : Env}.

(** A pass on which a frame arrives, with the preview and the keyboard
    still to come. *)
Lemma live_frame_pass (p : Live.Pass) (later : list Live.Pass)
    (w : Live.Rig) (f : frame) :
  thread_active (Live.tracker w) = true ->
  Live.cap_released w = false ->
  Live.stop_before_test p = false ->
  Live.stop_after_test p = false ->
  Live.delivered p = Some f ->
  exists recs t2,
    one_frame_step (Live.tracker w) recs t2
    /\ Live.update_debris_info (p :: later) w
       = let w2 := {| Live.tracker := t2; Live.cap_released := false |} in
         match preview_outcome (visualization_enabled (Live.tracker w))
                 p recs with
         | Some e => (inl e, w2)
         | None =>
             match Live.pressed p with
             | inl e => (inl e, w2)
             | inr key =>
                 if Z.eqb (Z.land key 255) ord_q then (inr QuitKey, w2)
                 else Live.update_debris_info later w2
             end
         end.
Proof.
  intros Hact Hcap Hs1 Hs2 Hf.
  rewrite live_pass, Hs1. cbv zeta. rewrite Hact, Hs2, Hcap, Hf.
  cbn [negb].
  destruct (code1_frame_step f (Live.tracker w)) as (recs & t2 & Hrun & Hstep).
  destruct (Code1.count_and_track_debris f
              (set_frame_number (frame_number (Live.tracker w) + 1)
                 (Live.tracker w))) as [[e | recs'] t'];
    [ contradiction | ].
  destruct Hrun as [-> <-].
  exists recs, (set_debris_data (debris_data t' ++ recs) t').
  split; [ exact Hstep | ].
  destruct Hstep as (_ & _ & _ & _ & _ & _ & _ & _ & Hv).
  cbn in Hv. rewrite Hv. reflexivity.
Qed.

Lemma live_carries_on (p : Live.Pass) (later : list Live.Pass)
    (w : Live.Rig) :
  thread_active (Live.tracker w) = true ->
  Live.cap_released w = false ->
  Live.carries_on p ->
  exists recs t2,
    one_frame_step (Live.tracker w) recs t2
    /\ Live.update_debris_info (p :: later) w
       = Live.update_debris_info later
           {| Live.tracker := t2; Live.cap_released := false |}.
Proof.
  intros Hact Hcap (Hs1 & Hs2 & (f & Hf) & Hp & Hc & Hi & key & Hk & Hq).
  destruct (live_frame_pass p later w f Hact Hcap Hs1 Hs2 Hf)
    as (recs & t2 & Hstep & Hrun).
  exists recs, t2. split; [ exact Hstep | ].
  rewrite Hrun. cbv zeta. unfold preview_outcome.
  rewrite (overlay_returns p recs Hp Hc), Hi, Hk.
  apply Z.eqb_neq in Hq. rewrite Hq.
  destruct (visualization_enabled (Live.tracker w)); reflexivity.
Qed.

Lemma live_carried_passes (good : list Live.Pass) :
  forall (rest : list Live.Pass) (w : Live.Rig),
    thread_active (Live.tracker w) = true ->
    Live.cap_released w = false ->
    Forall Live.carries_on good ->
    exists w2,
      Live.update_debris_info (good ++ rest) w
      = Live.update_debris_info rest w2
      /\ thread_active (Live.tracker w2) = true
      /\ Live.cap_released w2 = false
      /\ frame_number (Live.tracker w2)
         = frame_number (Live.tracker w) + Z.of_nat (length good)
      /\ visualization_enabled (Live.tracker w2)
         = visualization_enabled (Live.tracker w).
Proof.
  induction good as [ | p good IH ]; intros rest w Hact Hcap Hgood.
  - exists w. cbn. repeat split; try assumption. lia.
  - inversion Hgood as [ | ? ? Hp Hrest ]; subst.
    destruct (live_carries_on p (good ++ rest) w Hact Hcap Hp)
      as (recs & t2 & Hstep & Hrun).
    destruct Hstep as (Hfn & _ & _ & _ & _ & Ha & _ & _ & Hv).
    destruct (IH rest {| Live.tracker := t2; Live.cap_released := false |})
      as (w2 & Hrun2 & Hact2 & Hcap2 & Hfn2 & Hv2);
      [ cbn; congruence | reflexivity | exact Hrest | ].
    exists w2. cbn [app]. rewrite Hrun, Hrun2.
    cbn [Live.tracker] in Hfn2, Hv2.
    repeat split; try assumption.
    + rewrite Hfn2, Hfn. cbn [length]. lia.
    + congruence.
Qed.

(** With no call of the preview raising, no stop landing inside a pass
    and the keyboard answering, the loop with its preview does to the
    tracker what [Code1.update_debris_info] does. *)
Lemma live_follows_code1 (passes : list Live.Pass) :
  forall w : Live.Rig,
    Live.cap_released w = false ->
    Forall Live.uneventful passes ->
    fst (Live.update_debris_info passes w)
    = fst (Code1.update_debris_info (map Live.turn_of passes)
             (Live.tracker w))
    /\ Live.tracker (snd (Live.update_debris_info passes w))
       = snd (Code1.update_debris_info (map Live.turn_of passes)
                (Live.tracker w)).
Proof.
  induction passes as [ | p later IH ]; intros w Hcap Hall.
  - split; reflexivity.
  - inversion Hall as [ | ? ? (Hs2 & Hp & Hc & Hi & key & Hk) Hrest ]; subst.
    cbn [map]. rewrite live_pass, code1_turn. cbv zeta.
    unfold Live.turn_of, stopped.
    cbn [stop_requested cap_read waitKey Live.tracker Live.cap_released].
    rewrite Hs2, Hk.
    destruct (Live.stop_before_test p).
    + cbn. split; reflexivity.
    + destruct (thread_active (Live.tracker w)); cbn [negb];
        [ | split; reflexivity ].
      rewrite Hcap.
      destruct (Live.delivered p) as [f | ]; [ | split; reflexivity ].
      destruct (Code1.count_and_track_debris f
                  (set_frame_number (frame_number (Live.tracker w) + 1)
                     (Live.tracker w))) as [[e | recs] t'];
        [ split; reflexivity | ].
      unfold preview_outcome.
      rewrite (overlay_returns p recs Hp Hc), Hi.
      assert (Hnone : (if visualization_enabled t'
                       then @None exn else None) = None)
        by (destruct (visualization_enabled t'); reflexivity).
      rewrite Hnone.
      destruct (Z.eqb (Z.land key 255) ord_q); [ split; reflexivity | ].
      apply (IH {| Live.tracker := set_debris_data (debris_data t' ++ recs) t';
                   Live.cap_released := false |});
        [ reflexivity | exact Hrest ].
Qed.

End LiveRuns.

(** C5: in [src/code1.py] the part of the claim about the failed read
    holds: with [thread_active] set and the device open, after [n] passes
    that each brought a frame and went through, a read that fails ends
    [update_debris_info] without an exception and with [frame_number]
    advanced by exactly [n].  The rest of the claim does not hold of the
    code: the calls of the preview and [cv2.waitKey] are not inside a [try],
    so on a pass that has its frame, with no stop and no failed read, an
    exception raised by [cv2.imshow] while the preview is on, or by
    [cv2.waitKey], ends the loop and leaves the method, the frame of that
    pass already counted and [thread_active] still set. *)
Theorem capture_loop_ends_on_preview_failure :
  forall (env : Env) (good : list Live.Pass) (w : Live.Rig),
    thread_active (Live.tracker w) = true ->
    Live.cap_released w = false ->
    Forall Live.carries_on good ->
    (forall (bad : Live.Pass) (later : list Live.Pass),
        Live.stop_before_test bad = false ->
        Live.stop_after_test bad = false ->
        Live.delivered bad = None ->
        exists w',
          Live.update_debris_info (good ++ bad :: later) w
          = (inr FrameCaptureFailed, w')
          /\ frame_number (Live.tracker w')
             = frame_number (Live.tracker w) + Z.of_nat (length good))
    /\ (forall (crash : Live.Pass) (later : list Live.Pass) (f : frame)
               (e : exn),
          visualization_enabled (Live.tracker w) = true ->
          Live.stop_before_test crash = false ->
          Live.stop_after_test crash = false ->
          Live.delivered crash = Some f ->
          (forall debris, Live.putText crash debris = None) ->
          (forall debris, Live.circle crash debris = None) ->
          Live.imshow crash = Some e ->
          exists w',
            Live.update_debris_info (good ++ crash :: later) w = (inl e, w')
            /\ frame_number (Live.tracker w')
               = frame_number (Live.tracker w) + Z.of_nat (length good) + 1
            /\ thread_active (Live.tracker w') = true
            /\ Live.cap_released w' = false)
    /\ (forall (crash : Live.Pass) (later : list Live.Pass) (f : frame)
               (e : exn),
          Live.stop_before_test crash = false ->
          Live.stop_after_test crash = false ->
          Live.delivered crash = Some f ->
          (forall debris, Live.putText crash debris = None) ->
          (forall debris, Live.circle crash debris = None) ->
          Live.imshow crash = None ->
          Live.pressed crash = inl e ->
          exists w',
            Live.update_debris_info (good ++ crash :: later) w = (inl e, w')
            /\ frame_number (Live.tracker w')
               = frame_number (Live.tracker w) + Z.of_nat (length good) + 1
            /\ thread_active (Live.tracker w') = true
            /\ Live.cap_released w' = false).
Proof.
  intros env good w Hact Hcap Hgood.
  split; [ | split ].
  - intros bad later Hs1 Hs2 Hd.
    destruct (live_carried_passes good (bad :: later) w Hact Hcap Hgood)
      as (w2 & Hrun & Hact2 & Hcap2 & Hfn2 & _).
    exists w2. rewrite Hrun, live_pass, Hs1. cbv zeta.
    rewrite Hact2, Hs2, Hcap2, Hd. split; [ reflexivity | exact Hfn2 ].
  - intros crash later f e Hvis Hs1 Hs2 Hd Hp Hc Hi.
    destruct (live_carried_passes good (crash :: later) w Hact Hcap Hgood)
      as (w2 & Hrun & Hact2 & Hcap2 & Hfn2 & Hv2).
    destruct (live_frame_pass crash later w2 f Hact2 Hcap2 Hs1 Hs2 Hd)
      as (recs & t2 & Hstep & Hrun2).
    destruct Hstep as (Hfn & _ & _ & _ & _ & Ha & _).
    exists {| Live.tracker := t2; Live.cap_released := false |}.
    rewrite Hrun, Hrun2. cbv zeta. unfold preview_outcome.
    rewrite Hv2, Hvis, (overlay_returns crash recs Hp Hc), Hi.
    cbn [Live.tracker Live.cap_released].
    repeat split; [ lia | congruence ].
  - intros crash later f e Hs1 Hs2 Hd Hp Hc Hi Hk.
    destruct (live_carried_passes good (crash :: later) w Hact Hcap Hgood)
      as (w2 & Hrun & Hact2 & Hcap2 & Hfn2 & Hv2).
    destruct (live_frame_pass crash later w2 f Hact2 Hcap2 Hs1 Hs2 Hd)
      as (recs & t2 & Hstep & Hrun2).
    destruct Hstep as (Hfn & _ & _ & _ & _ & Ha & _).
    exists {| Live.tracker := t2; Live.cap_released := false |}.
    rewrite Hrun, Hrun2. cbv zeta. unfold preview_outcome.
    rewrite (overlay_returns crash recs Hp Hc), Hi, Hk.
    cbn [Live.tracker Live.cap_released].
    destruct (visualization_enabled (Live.tracker w2));
      repeat split; try lia; congruence.
Qed.

Lemma capture_loop_ends_on_preview_failure_witness :
  thread_active (Live.tracker Bench4.rig0) = true
  /\ Live.cap_released Bench4.rig0 = false
  /\ (exists w',
        @Live.update_debris_info bench_env
          ([Bench4.plain_pass [blob_120]; Bench4.plain_pass []]
             ++ [Bench4.no_frame_pass]) Bench4.rig0
        = (inr FrameCaptureFailed, w')
        /\ frame_number (Live.tracker w') = 2)
  /\ (exists w',
        @Live.update_debris_info bench_env
          ([Bench4.plain_pass [blob_120]; Bench4.plain_pass []]
             ++ [Bench4.no_display_pass [blob_50]]) Bench4.rig0
        = (inl CvError, w')
        /\ frame_number (Live.tracker w') = 3
        /\ thread_active (Live.tracker w') = true
        /\ Live.cap_released w' = false).
Proof.
  assert (Hgood : Forall (@Live.carries_on bench_env)
                    [Bench4.plain_pass [blob_120]; Bench4.plain_pass []]).
  { repeat constructor; cbn; try (eexists; reflexivity).
    - exists (-1). split; [ reflexivity | discriminate ].
    - exists (-1). split; [ reflexivity | discriminate ]. }
  destruct (capture_loop_ends_on_preview_failure bench_env
              [Bench4.plain_pass [blob_120]; Bench4.plain_pass []]
              Bench4.rig0 eq_refl eq_refl Hgood) as (Hread & Hshow & _).
  split; [ reflexivity | split; [ reflexivity | split ] ].
  - exact (Hread Bench4.no_frame_pass [] eq_refl eq_refl eq_refl).
  - exact (Hshow (Bench4.no_display_pass [blob_50]) [] (Blobs [blob_50])
             CvError eq_refl eq_refl eq_refl eq_refl
             (fun _ => eq_refl) (fun _ => eq_refl) eq_refl).
Defined.

(** X7: the way [update_debris_info] of [src/code1.py] returned tells what
    happened, the preview and a stop from the controller's thread taken
    into account.  Returned on the flag: the flag was clear at the start or
    [stop_tracking] ran before the test of some pass, and the flag is
    clear.  Returned on a failed read: the device was released at the
    start, or on some pass it had no frame or [stop_tracking] released it
    between the test and the read.  Returned on the quit key: some pass
    brought a frame together with a key code whose low byte is that of q,
    and at least one frame was counted.  Still looping: every pass brought
    a frame, with no stop and no quit key, and the frame counter moved by
    the number of passes. *)
Theorem live_loop_end_explained :
  forall (env : Env) (passes : list Live.Pass) (w : Live.Rig) (r : loop_end)
         (w' : Live.Rig),
    Live.update_debris_info passes w = (inr r, w') ->
    live_end_explained passes w r w'.
Proof.
  intros env passes. induction passes as [ | p later IH ]; intros w r w' Hrun.
  - cbn in Hrun. inversion Hrun; subst. cbn. split; [ lia | constructor ].
  - destruct (Live.stop_before_test p) eqn:Hs1.
    { rewrite live_pass, Hs1 in Hrun. cbn in Hrun. inversion Hrun; subst.
      cbn. split; [ reflexivity | right ]. now constructor. }
    destruct (thread_active (Live.tracker w)) eqn:Hact.
    2:{ rewrite live_pass, Hs1 in Hrun. cbv zeta in Hrun.
        rewrite Hact in Hrun. cbn in Hrun. inversion Hrun; subst.
        cbn. split; [ exact Hact | now left ]. }
    destruct (Live.stop_after_test p) eqn:Hs2.
    { rewrite live_pass, Hs1 in Hrun. cbv zeta in Hrun.
      rewrite Hact, Hs2 in Hrun. cbn in Hrun. inversion Hrun; subst.
      cbn. right. constructor. now right. }
    destruct (Live.cap_released w) eqn:Hcap.
    { rewrite live_pass, Hs1 in Hrun. cbv zeta in Hrun.
      rewrite Hact, Hs2, Hcap in Hrun. cbn in Hrun. inversion Hrun; subst.
      cbn. now left. }
    destruct (Live.delivered p) as [f | ] eqn:Hd.
    2:{ rewrite live_pass, Hs1 in Hrun. cbv zeta in Hrun.
        rewrite Hact, Hs2, Hcap, Hd in Hrun. cbn in Hrun.
        inversion Hrun; subst. cbn. right. constructor. now left. }
    destruct (live_frame_pass p later w f Hact Hcap Hs1 Hs2 Hd)
      as (recs & t2 & Hstep & Heq).
    rewrite Heq in Hrun. cbv zeta in Hrun. clear Heq.
    destruct Hstep as (Hfn & _ & _ & _ & _ & Ha & _).
    destruct (preview_outcome (visualization_enabled (Live.tracker w)) p recs);
      [ discriminate | ].
    destruct (Live.pressed p) as [e | key] eqn:Hk; [ discriminate | ].
    destruct (Z.eqb (Z.land key 255) ord_q) eqn:Hq.
    + inversion Hrun; subst. cbn. split; [ lia | ].
      constructor. split; [ now exists f | ].
      exists key. split; [ exact Hk | now apply Z.eqb_eq ].
    + apply Z.eqb_neq in Hq.
      specialize (IH _ r w' Hrun).
      destruct r; cbn in IH |- *; cbn [Live.tracker Live.cap_released] in IH.
      * destruct IH as (Hn & Hall). split.
        -- rewrite Hn, Hfn. lia.
        -- constructor; [ | exact Hall ].
           repeat split; try assumption; [ now exists f | ].
           exists key. split; [ exact Hk | exact Hq ].
      * destruct IH as (Hoff & [Hwas | Hex]).
        -- congruence.
        -- split; [ exact Hoff | right ]. now apply Exists_cons_tl.
      * destruct IH as [Hrel | Hex]; [ discriminate | ].
        right. now apply Exists_cons_tl.
      * destruct IH as (Hn & Hex). split; [ lia | ].
        now apply Exists_cons_tl.
Qed.

Lemma live_loop_end_explained_witness :
  @Live.update_debris_info bench_env
    [Bench4.plain_pass [blob_120]; Bench4.no_frame_pass] Bench4.rig0
  = (inr FrameCaptureFailed,
     snd (@Live.update_debris_info bench_env
            [Bench4.plain_pass [blob_120]; Bench4.no_frame_pass]
            Bench4.rig0))
  /\ (Live.cap_released Bench4.rig0 = true
      \/ Exists (fun p : @Live.Pass bench_env =>
                   Live.delivered p = None
                   \/ Live.stop_after_test p = true)
           [Bench4.plain_pass [blob_120]; Bench4.no_frame_pass]).
Proof.
  split; [ reflexivity | ].
  exact (live_loop_end_explained bench_env
           [Bench4.plain_pass [blob_120]; Bench4.no_frame_pass]
           Bench4.rig0 FrameCaptureFailed _ eq_refl).
Defined.

(* ================================================================= *)
(** * The log on disk, through the cipher helpers *)

Section DiskFacts.
Context {env : Env} {fernet : Fernet}.

Lemma written_cell_text (token : list byte) :
  exists body, Disk.written_cell token = String "b"%char body.
Proof. unfold Disk.written_cell. cbn. unfold Py.str_bytes. eauto. Qed.

Lemma decrypt_bytes_text (body : string) (d : Crypto.KeyStore) :
  Disk.rejects_bytes_text ->
  exists e d1,
    Crypto.decrypt_message (list_byte_of_string (String "b"%char body)) d
    = (inl e, d1).
Proof.
  intro Hrej. unfold Crypto.decrypt_message.
  destruct (Crypto.load_key d) as [key d1].
  destruct (fernet_new key) as [f | ]; [ rewrite Hrej | ]; eauto.
Qed.

Lemma encrypt_row_length (debris_info : pytuple) :
  forall (d d1 : Crypto.KeyStore) (tokens : list (list byte)),
    Disk.encrypt_row debris_info d = (inr tokens, d1) ->
    length tokens = length debris_info.
Proof.
  induction debris_info as [ | item rest IH ]; intros d d1 tokens H.
  - cbn in H. inversion H. reflexivity.
  - cbn [Disk.encrypt_row] in H.
    destruct (Crypto.encrypt_message (Py.str item) d) as [[e | token] d2];
      [ discriminate | ].
    destruct (Disk.encrypt_row rest d2) as [[e | more] d3] eqn:Hrest;
      [ discriminate | ].
    inversion H; subst. cbn. f_equal. exact (IH _ _ _ Hrest).
Qed.

(** A row of the file whose first cell was written for a token does not
    decode. *)
Lemma decrypt_row_of_written (token : list byte) (cells : list string)
    (d : Crypto.KeyStore) :
  Disk.rejects_bytes_text ->
  exists e d1,
    Disk.decrypt_row (Disk.written_cell token :: cells) d = (inl e, d1).
Proof.
  intro Hrej. destruct (written_cell_text token) as (body & ->).
  cbn [Disk.decrypt_row].
  destruct (decrypt_bytes_text body d Hrej) as (e & d1 & ->). eauto.
Qed.

Lemma load_key_keeps_key (d : Crypto.KeyStore) :
  Crypto.load_key (snd (Crypto.load_key d))
  = (fst (Crypto.load_key d), snd (Crypto.load_key d)).
Proof.
  unfold Crypto.load_key. destruct (Crypto.secret_key d) as [key | ] eqn:H.
  - cbn. now rewrite H.
  - reflexivity.
Qed.

Lemma encrypt_with_usable_key (message : string) (d : Crypto.KeyStore) :
  Disk.key_usable d ->
  exists token d1,
    Crypto.encrypt_message message d = (inr token, d1)
    /\ Disk.key_usable d1.
Proof.
  intros (f & Hf). unfold Crypto.encrypt_message.
  pose proof (load_key_keeps_key d) as Hkeep.
  destruct (Crypto.load_key d) as [key d1]. cbn [fst snd] in Hf, Hkeep.
  rewrite Hf. eexists. eexists. split; [ reflexivity | ].
  exists f. unfold Crypto.load_key in Hkeep |- *. cbn [Crypto.secret_key].
  destruct (Crypto.secret_key d1) as [key' | ]; cbn [fst].
  - injection Hkeep as Hkey. now rewrite Hkey.
  - injection Hkeep as Hkey _. cbn. now rewrite Hkey.
Qed.

Lemma encrypt_with_refused_key (message : string) (d : Crypto.KeyStore) :
  fernet_new (fst (Crypto.load_key d)) = None ->
  exists d1,
    Crypto.encrypt_message message d = (inl Crypto.BadKey, d1).
Proof.
  intro Hf. unfold Crypto.encrypt_message.
  destruct (Crypto.load_key d) as [key d1]. cbn [fst] in Hf.
  rewrite Hf. eauto.
Qed.

Lemma encrypt_row_with_usable_key (debris_info : pytuple) :
  forall d : Crypto.KeyStore,
    Disk.key_usable d ->
    exists tokens d1,
      Disk.encrypt_row debris_info d = (inr tokens, d1)
      /\ Disk.key_usable d1.
Proof.
  induction debris_info as [ | item rest IH ]; intros d Hd.
  - exists [], d. split; [ reflexivity | exact Hd ].
  - cbn [Disk.encrypt_row].
    destruct (encrypt_with_usable_key (Py.str item) d Hd)
      as (token & d1 & -> & Hd1).
    destruct (IH d1 Hd1) as (tokens & d2 & -> & Hd2).
    exists (token :: tokens), d2. split; [ reflexivity | exact Hd2 ].
Qed.

(** The rows written follow the log, entry by entry, as far as they go. *)
Lemma written_rows_follow (log : list pytuple) :
  forall d : Crypto.KeyStore,
    Forall2 (fun row debris_info => length row = length debris_info)
      (fst (Disk.for_debris_info_in log d))
      (firstn (length (fst (Disk.for_debris_info_in log d))) log).
Proof.
  induction log as [ | debris_info rest IH ]; intro d.
  - constructor.
  - cbn [Disk.for_debris_info_in].
    destruct (Disk.encrypt_row debris_info d) as [[e | tokens] d1] eqn:Hrow.
    + constructor.
    + specialize (IH d1).
      destruct (Disk.for_debris_info_in rest d1) as [rows d2].
      cbn [fst length firstn] in IH |- *. constructor; [ | exact IH ].
      rewrite length_map. exact (encrypt_row_length _ _ _ _ Hrow).
Qed.

Lemma written_rows_complete (log : list pytuple) :
  forall d : Crypto.KeyStore,
    Disk.key_usable d ->
    length (fst (Disk.for_debris_info_in log d)) = length log.
Proof.
  induction log as [ | debris_info rest IH ]; intros d Hd.
  - reflexivity.
  - cbn [Disk.for_debris_info_in].
    destruct (encrypt_row_with_usable_key debris_info d Hd)
      as (tokens & d1 & -> & Hd1).
    specialize (IH d1 Hd1).
    destruct (Disk.for_debris_info_in rest d1) as [rows d2].
    cbn [fst length] in IH |- *. now rewrite IH.
Qed.

(** With a key that [Fernet] refuses, the first entry that has a field
    ends the writing. *)
Lemma written_rows_with_refused_key (v : pyval) (fields : pytuple)
    (rest : list pytuple) (d : Crypto.KeyStore) :
  fernet_new (fst (Crypto.load_key d)) = None ->
  fst (Disk.for_debris_info_in ((v :: fields) :: rest) d) = [].
Proof.
  intro Hf. cbn [Disk.for_debris_info_in Disk.encrypt_row].
  destruct (encrypt_with_refused_key (Py.str v) d Hf) as (d1 & ->).
  reflexivity.
Qed.

Lemma save_writes_rows (t : Tracker) (d : Crypto.KeyStore) :
  Disk.save_debris_data true t d
  = (Some (header_row :: fst (Disk.for_debris_info_in (debris_data t) d)),
     snd (Disk.for_debris_info_in (debris_data t) d)).
Proof.
  unfold Disk.save_debris_data.
  now destruct (Disk.for_debris_info_in (debris_data t) d).
Qed.

(** Loading a file whose first data row starts with a cell written for a
    token leaves the log empty. *)
Lemma load_of_written_row (header : list string) (token : list byte)
    (cells : list string) (rows : list (list string)) (t0 : Tracker)
    (d0 : Crypto.KeyStore) :
  Disk.rejects_bytes_text ->
  debris_data
    (fst (Disk.load_debris_data
            (Some (header :: (Disk.written_cell token :: cells) :: rows))
            t0 d0)) = [].
Proof.
  intro Hrej. cbn [Disk.load_debris_data Disk.for_row_in].
  destruct (decrypt_row_of_written token cells d0 Hrej) as (e & d1 & ->).
  reflexivity.
Qed.

Lemma reload_of_saved_log (t : Tracker) (d : Crypto.KeyStore) (v : pyval)
    (fields : pytuple) (rest : list pytuple) :
  Disk.rejects_bytes_text ->
  debris_data t = (v :: fields) :: rest ->
  forall (t0 : Tracker) (d0 : Crypto.KeyStore),
    debris_data
      (fst (Disk.load_debris_data
              (fst (Disk.save_debris_data true t d)) t0 d0)) = [].
Proof.
  intros Hrej Hlog t0 d0. rewrite save_writes_rows, Hlog. cbn [fst].
  cbn [Disk.for_debris_info_in Disk.encrypt_row].
  destruct (Crypto.encrypt_message (Py.str v) d) as [[e | token] d1];
    [ reflexivity | ].
  destruct (Disk.encrypt_row fields d1) as [[e | tokens] d2];
    [ reflexivity | ].
  destruct (Disk.for_debris_info_in rest d2) as [rows d3].
  cbn [fst map]. now apply load_of_written_row.
Qed.

End DiskFacts.

Lemma lettered_fernet_rejects :
  @Disk.rejects_bytes_text Bench4.lettered_fernet.
Proof. intros f body. reflexivity. Qed.

(** On tokens the cipher double decodes what it encoded. *)
Lemma lettered_fernet_law (g : @cipher Bench4.lettered_fernet) (n : nat)
    (data : list byte) :
  @fernet_decrypt Bench4.lettered_fernet g
    (@fernet_encrypt Bench4.lettered_fernet g n data) = Some data.
Proof.
  cbn. rewrite firstn_app, Nat.sub_diag, firstn_all. cbn [firstn].
  rewrite app_nil_r.
  destruct (list_eq_dec Byte.byte_eq_dec g g) as [_ | Hne];
    [ | contradiction ].
  rewrite skipn_app, Nat.sub_diag, skipn_all. reflexivity.
Qed.

(** C1 does not hold of [src/code1.py].  [save_debris_data] hands the
    bytes returned by [encrypt_message] to the CSV writer, which stores
    their [str], a text that starts with the letter b and a quote;
    [load_debris_data] hands that text to [decrypt_message], and the cipher
    turns it down.  The exception is caught after the log has been emptied:
    whatever the key, a log whose first entry has a field does not come
    back from the file just written, the tracker is left with an empty
    log. *)
Theorem saved_log_is_lost_on_reload :
  forall (env : Env) (fernet : Fernet) (t : Tracker) (d : Crypto.KeyStore)
         (v : pyval) (fields : pytuple) (rest : list pytuple),
    Disk.rejects_bytes_text ->
    debris_data t = (v :: fields) :: rest ->
    exists file d1,
      Disk.save_debris_data true t d = (Some file, d1)
      /\ forall (t0 : Tracker) (d0 : Crypto.KeyStore),
           debris_data (fst (Disk.load_debris_data (Some file) t0 d0)) = []
           /\ debris_data (fst (Disk.load_debris_data (Some file) t0 d0))
              <> debris_data t.
Proof.
  intros env fernet t d v fields rest Hrej Hlog.
  eexists. eexists. split; [ apply save_writes_rows | ].
  intros t0 d0.
  pose proof (reload_of_saved_log t d v fields rest Hrej Hlog t0 d0) as H.
  rewrite save_writes_rows in H. cbn [fst] in H.
  split; [ exact H | ].
  intro Heq.
  assert (Hnil : debris_data t = []) by (rewrite <- Heq; exact H).
  rewrite Hlog in Hnil. discriminate Hnil.
Qed.

Lemma saved_log_is_lost_on_reload_witness :
  @Disk.rejects_bytes_text Bench4.lettered_fernet
  /\ (forall (g : @cipher Bench4.lettered_fernet) (n : nat)
              (data : list byte),
        @fernet_decrypt Bench4.lettered_fernet g
          (@fernet_encrypt Bench4.lettered_fernet g n data) = Some data)
  /\ debris_data with_one_detection = [sample_record]
  /\ exists file d1,
       @Disk.save_debris_data bench_env Bench4.lettered_fernet true
         with_one_detection Bench4.no_key_yet = (Some file, d1)
       /\ debris_data
            (fst (@Disk.load_debris_data bench_env Bench4.lettered_fernet
                    (Some file) with_one_detection d1)) = [].
Proof.
  split; [ exact lettered_fernet_rejects | ].
  split; [ exact lettered_fernet_law | split; [ reflexivity | ] ].
  destruct (saved_log_is_lost_on_reload bench_env Bench4.lettered_fernet
              with_one_detection Bench4.no_key_yet
              (VInt 1)
              [VStr "Space Debris"; VStr "2024-05-01 12:00:00";
               VInt 50; VInt 30] []
              lettered_fernet_rejects eq_refl) as (file & d1 & Hsave & Hload).
  exists file, d1. split; [ exact Hsave | ].
  exact (proj1 (Hload with_one_detection d1)).
Defined.

Lemma rows_of_detections {env : Env} (P : Z -> Prop)
    (rows : list (list string)) (log : list pytuple) :
  Forall2 (fun row debris_info => length row = length debris_info) rows log ->
  Forall (fun rec => exists n, P n /\ detection_of_frame n rec) log ->
  Forall (fun row => length row = 5%nat) rows.
Proof.
  induction 1 as [ | row rec rows log Hrow _ IH ]; intro Hsh;
    [ constructor | ].
  inversion Hsh as [ | ? ? (n & _ & now & x & y & Hrec) Hrest ]; subst.
  constructor; [ exact Hrow | exact (IH Hrest) ].
Qed.

(** X12: the file left by [save_debris_data] of [src/code1.py].  When the
    file cannot be opened nothing is written.  Otherwise the header row
    comes first, and the data rows follow the log entry by entry, each with
    as many cells as the entry has fields, up to the first entry for which
    [encrypt_message] raises.  With a key that [Fernet] accepts no call
    raises and every entry has its row; for a log built by the capture loop
    on a fresh tracker every row then has the five cells the header
    announces and the file has [debris_counter + 1] rows.  With a key that
    [Fernet] refuses, a log whose first entry has a field leaves the header
    alone in the file. *)
Theorem saved_file_follows_the_log :
  forall (env : Env) (fernet : Fernet) (t : Tracker) (d : Crypto.KeyStore),
    Disk.save_debris_data false t d = (None, d)
    /\ (exists rows d1,
          Disk.save_debris_data true t d = (Some (header_row :: rows), d1)
          /\ Forall2 (fun row debris_info => length row = length debris_info)
               rows (firstn (length rows) (debris_data t))
          /\ (Disk.key_usable d -> length rows = length (debris_data t))
          /\ (fernet_new (fst (Crypto.load_key d)) = None ->
              forall v fields rest,
                debris_data t = (v :: fields) :: rest -> rows = []))
    /\ (forall (MinArea MaxArea : Z) (Enabled : bool) (mog2 : bgmodel)
               (turns : list Turn),
          Disk.key_usable d ->
          let t' :=
            snd (Code1.update_debris_info turns
                   (snd (Code1.start_tracking
                           (Code1.__init__ MinArea MaxArea Enabled mog2)))) in
          exists file d1,
            Disk.save_debris_data true t' d = (Some file, d1)
            /\ Forall (fun row => length row = 5%nat) file
            /\ Z.of_nat (length file) = debris_counter t' + 1).
Proof.
  intros env fernet t d. split; [ reflexivity | split ].
  - eexists. eexists. split; [ apply save_writes_rows | ].
    split; [ apply written_rows_follow | split ].
    + intro Hd. now apply written_rows_complete.
    + intros Hf v fields rest Hlog. rewrite Hlog.
      now apply written_rows_with_refused_key.
  - intros MinArea MaxArea Enabled mog2 turns Hd. cbv zeta.
    set (t0 := snd (Code1.start_tracking
                      (Code1.__init__ MinArea MaxArea Enabled mog2))).
    destruct (code1_loop_returns turns t0) as (r & t' & Hrun).
    destruct (code1_loop_summary turns t0 r t' Hrun)
      as [((added & Hlog & Hsh & Hc & _) & _) _].
    rewrite Hrun. cbn [snd].
    eexists. eexists. split; [ apply save_writes_rows | ].
    pose proof (written_rows_follow (debris_data t') d) as Hrows.
    pose proof (written_rows_complete (debris_data t') d Hd) as Hlen.
    rewrite Hlen, firstn_all in Hrows.
    cbn [t0 debris_data Code1.__init__ Code1.start_tracking
           modify snd set_thread_active app debris_counter] in Hlog, Hc.
    split.
    + constructor; [ reflexivity | ].
      rewrite Hlog in Hrows at 2.
      exact (rows_of_detections _ _ _ Hrows Hsh).
    + cbn [length]. rewrite Hlen, Hlog, Hc. unfold pytuple. lia.
Qed.

Lemma saved_file_follows_the_log_witness :
  @Disk.key_usable Bench4.lettered_fernet Bench4.no_key_yet
  /\ exists file d1,
       @Disk.save_debris_data bench_env Bench4.lettered_fernet true
         (snd (@Code1.update_debris_info bench_env four_turns
                 (snd (@Code1.start_tracking bench_env
                         (@Code1.__init__ bench_env 50 1000 true 0%nat)))))
         Bench4.no_key_yet = (Some file, d1)
       /\ Forall (fun row => length row = 5%nat) file
       /\ Z.of_nat (length file)
          = debris_counter
              (snd (@Code1.update_debris_info bench_env four_turns
                      (snd (@Code1.start_tracking bench_env
                              (@Code1.__init__ bench_env 50 1000 true
                                 0%nat))))) + 1.
Proof.
  assert (Hkey : @Disk.key_usable Bench4.lettered_fernet Bench4.no_key_yet).
  { eexists. reflexivity. }
  split; [ exact Hkey | ].
  exact (proj2 (proj2 (saved_file_follows_the_log bench_env
                         Bench4.lettered_fernet tracker0 Bench4.no_key_yet))
           50 1000 true 0%nat four_turns Hkey).
Defined.

(* ================================================================= *)
(** * The fuller models and the ones they extend *)

(** X28: the loop with its preview does to the tracker what
    [Code1.update_debris_info] does, as long as the device is open at the
    start, no call of the preview raises, [cv2.waitKey] answers and no
    [stop_tracking] lands between the test of the flag and the read: both
    end the same way and leave the same tracker. *)
Theorem loop_with_preview_follows_tracker_loop :
  forall (env : Env) (passes : list Live.Pass) (w : Live.Rig),
    Live.cap_released w = false ->
    Forall Live.uneventful passes ->
    fst (Live.update_debris_info passes w)
    = fst (Code1.update_debris_info (map Live.turn_of passes)
             (Live.tracker w))
    /\ Live.tracker (snd (Live.update_debris_info passes w))
       = snd (Code1.update_debris_info (map Live.turn_of passes)
                (Live.tracker w)).
Proof. intros env passes w. apply live_follows_code1. Qed.

Lemma loop_with_preview_follows_tracker_loop_witness :
  Live.cap_released Bench4.rig0 = false
  /\ Live.tracker
       (snd (@Live.update_debris_info bench_env
               [Bench4.plain_pass [blob_120]; Bench4.no_frame_pass]
               Bench4.rig0))
     = snd (@Code1.update_debris_info bench_env
              [good_turn [blob_120]; failed_read] started).
Proof.
  split; [ reflexivity | ].
  refine (proj2 (loop_with_preview_follows_tracker_loop bench_env
                   [Bench4.plain_pass [blob_120]; Bench4.no_frame_pass]
                   Bench4.rig0 eq_refl _)).
  repeat constructor; cbn; eexists; reflexivity.
Defined.

Section HelpersBehindCodec.
Context {env : Env} {fernet : Fernet} {codec : Codec}.
Variable d : Crypto.KeyStore.
Variable key : list byte.
Hypothesis on_file : Crypto.secret_key d = Some key.
Hypothesis same_answers : decodes_as_helper d.

Lemma decrypt_keeps_store (token : list byte) :
  snd (Crypto.decrypt_message token d) = d.
Proof.
  unfold Crypto.decrypt_message, Crypto.load_key. rewrite on_file.
  destruct (fernet_new key) as [f | ]; [ | reflexivity ].
  now destruct (fernet_decrypt f token).
Qed.

Lemma decrypt_row_by_helper (row : list string) :
  snd (Disk.decrypt_row row d) = d
  /\ match fst (Disk.decrypt_row row d) with
     | inr texts => Code1.decrypt_row row = inr texts
     | inl _ => exists e, Code1.decrypt_row row = inl e
     end.
Proof.
  induction row as [ | item rest (IHd & IH) ]; [ split; reflexivity | ].
  cbn [Disk.decrypt_row Code1.decrypt_row].
  pose proof (decrypt_keeps_store (list_byte_of_string item)) as Hd.
  pose proof (same_answers item) as Hans.
  destruct (Crypto.decrypt_message (list_byte_of_string item) d)
    as [[e | s] d1].
  - cbn [fst snd] in *. destruct Hans as (e' & ->). split; eauto.
  - cbn [fst snd] in *. subst d1. rewrite Hans.
    destruct (Disk.decrypt_row rest d) as [[e | texts] d2];
      cbn [fst snd] in *.
    + destruct IH as (e' & ->). split; eauto.
    + rewrite IH. split; [ exact IHd | reflexivity ].
Qed.

Lemma for_row_in_by_helper (rows : list (list string)) :
  forall t : Tracker,
    Disk.for_row_in rows t d = (snd (Code1.for_row_in rows t), d).
Proof.
  induction rows as [ | row rest IH ]; intro t; [ reflexivity | ].
  cbn [Disk.for_row_in Code1.for_row_in]. unfold bind, lift, modify.
  destruct (decrypt_row_by_helper row) as (Hd & Hrow).
  destruct (Disk.decrypt_row row d) as [[e | texts] d1];
    cbn [fst snd] in *; subst d1.
  - destruct Hrow as (e' & ->). reflexivity.
  - rewrite Hrow. apply IH.
Qed.

Lemma load_by_helper (file : option csv_file) (t : Tracker) :
  Disk.load_debris_data file t d
  = (snd (Code1.load_debris_data file t), d).
Proof.
  unfold Disk.load_debris_data, Code1.load_debris_data.
  unfold try_except, bind, lift, modify, ret.
  destruct file as [[ | header rows] | ]; try reflexivity.
  rewrite for_row_in_by_helper.
  now destruct (Code1.for_row_in rows (set_debris_data [] t)) as [[e | []] t'].
Qed.

End HelpersBehindCodec.

Lemma helpers_codec_as_helper :
  @decodes_as_helper Bench4.lettered_fernet Bench5.helpers_codec
    Bench5.key_on_file.
Proof.
  intro cell. cbn [decrypt_message Bench5.helpers_codec].
  destruct (fst (@Crypto.decrypt_message Bench4.lettered_fernet
                   (list_byte_of_string cell) Bench5.key_on_file));
    eauto.
Qed.

(** X29: with the key on file, [load_debris_data] run with the helper
    [decrypt_message] of [src/code1.py] leaves the tracker that
    [Code1.load_debris_data] leaves for a decoder that answers as the
    helper does, and leaves the key file as it was. *)
Theorem load_with_helper_follows_decoder :
  forall (env : Env) (fernet : Fernet) (codec : Codec)
         (d : Crypto.KeyStore) (key : list byte)
         (file : option csv_file) (t : Tracker),
    Crypto.secret_key d = Some key ->
    decodes_as_helper d ->
    Disk.load_debris_data file t d
    = (snd (Code1.load_debris_data file t), d).
Proof.
  intros env fernet codec d key file t Hkey Hans.
  exact (load_by_helper d key Hkey Hans file t).
Qed.

Lemma load_with_helper_follows_decoder_witness :
  Crypto.secret_key Bench5.key_on_file = Some [x41]
  /\ @Disk.load_debris_data bench_env Bench4.lettered_fernet
       (Some Bench5.token_file) with_one_detection Bench5.key_on_file
     = (@set_debris_data bench_env
          [[VStr "7"; VStr "Space Debris"; VStr "t"; VStr "8"; VStr "9"]]
          with_one_detection,
        Bench5.key_on_file).
Proof.
  split; [ reflexivity | ].
  exact (load_with_helper_follows_decoder bench_env Bench4.lettered_fernet
           Bench5.helpers_codec Bench5.key_on_file [x41]
           (Some Bench5.token_file) with_one_detection eq_refl
           helpers_codec_as_helper).
Defined.
